(** * Program and Product Validator: the rule engine of [app/lpp.py]

    A shallow embedding of the rule-evaluation core of [app/lpp.py]
    (field resolver, value normalizers, the seventeen validators, the
    trigger matcher and the rule dispatcher) together with the properties
    its specification states about it.

    Conventions of the embedding.
    - Python objects held by the context, the rule definitions and the
      field configuration are values of the type [value]; a [dict] is an
      association list in insertion order whose lookup returns the first
      binding of a key (a Python dict binds a key once).
    - Text is ASCII text.
    - A Python [float] is an exact rational ([Q]): binary64 rounding,
      infinities and NaN are not represented.
    - Exceptions are results [Raise e] of the type [res]; a [try] with a
      bare [except] is a [match] on such a result, or on an [option] where
      every use of the operation sits inside such a [try].
    - What the program takes from libraries that are not part of it
      (number and date parsing, [str] of composite objects, the fuzzy
      score) is a field of the record [PyLib]; the reading of the clock is
      the variable [now].  [dateutil] reads the clock too: a run at
      another time is a run with another [dateutil_parse]
      ([with_dateutil]).  [print] calls are not represented.
    - Statements that depend on what these conventions leave out carry the
      restriction as a hypothesis: [plain] for ASCII text and integers that
      a float holds exactly, [unscaled] for ratios that are not multiplied,
      [dates_by_format] for dates that [dateutil] is not asked about. *)

From Stdlib Require Import String Ascii List ZArith QArith Qabs Bool Lia DecimalString.
Import ListNotations.
Local Open Scope string_scope.
Local Open Scope Z_scope.

(** ** Values *)

(** [datetime.datetime], as far as the engine looks at it. *)
Record datetime : Type := mkdate { year : Z; month : Z; day : Z }.

#[warnings="-register-all"]
Inductive value : Type :=
| VNone
| VBool (b : bool)
| VInt (z : Z)
| VFloat (q : Q)
| VStr (s : string)
| VDate (d : datetime)
| VList (l : list value)
| VDict (d : list (string * value)).

Definition dict : Type := list (string * value).

(** ** Exceptions *)

Inductive exn : Type :=
  AttributeError | KeyError | TypeError | ValueError | OverflowError.

Inductive res (A : Type) : Type :=
| Ret (a : A)
| Raise (e : exn).
Arguments Ret {A} a.
Arguments Raise {A} e.

Definition bind {A B : Type} (m : res A) (k : A -> res B) : res B :=
  match m with
  | Ret a => k a
  | Raise e => Raise e
  end.

Declare Scope res_scope.
Delimit Scope res_scope with res.
Notation "x <- m ;; k" := (bind m (fun x => k))
  (at level 61, m at next level, right associativity) : res_scope.
Local Open Scope res_scope.

(** ** Python built-ins on values *)

(** [bool(v)]: the truth value of an object. *)
Definition truthy (v : value) : bool :=
  match v with
  | VNone => false
  | VBool b => b
  | VInt z => negb (z =? 0)
  | VFloat q => negb (Qeq_bool q 0)
  | VStr s => negb (s =? "")%string
  | VDate _ => true
  | VList l => match l with [] => false | _ :: _ => true end
  | VDict d => match d with [] => false | _ :: _ => true end
  end.

(** [a or b]. *)
Definition py_or (a b : value) : value := if truthy a then a else b.

(** [v is None]. *)
Definition is_none (v : value) : bool :=
  match v with VNone => true | _ => false end.

(** [isinstance(v, dict)]. *)
Definition is_dict (v : value) : bool :=
  match v with VDict _ => true | _ => false end.

(** *** Dictionaries *)

(** [d.get(k)], [None] standing for an absent key. *)
Fixpoint dict_get (d : dict) (k : string) : option value :=
  match d with
  | [] => None
  | (k', v) :: rest => if (k' =? k)%string then Some v else dict_get rest k
  end.

(** [d.get(k, dflt)] on a dict. *)
Definition dict_get_default (d : dict) (k : string) (dflt : value) : value :=
  match dict_get d k with
  | Some v => v
  | None => dflt
  end.

(** [d[k] = v]: an existing key keeps its place. *)
Fixpoint dict_set (d : dict) (k : string) (v : value) : dict :=
  match d with
  | [] => [(k, v)]
  | (k', v') :: rest =>
      if (k' =? k)%string then (k, v) :: rest else (k', v') :: dict_set rest k v
  end.

(** [d.update(u)]. *)
Definition dict_update (d u : dict) : dict :=
  fold_left (fun acc kv => dict_set acc (fst kv) (snd kv)) u d.

(** [v.get(k, dflt)] on an arbitrary object: only a dict has [get]. *)
Definition py_get (v : value) (k : string) (dflt : value) : res value :=
  match v with
  | VDict d => Ret (dict_get_default d k dflt)
  | _ => Raise AttributeError
  end.

(** [d[k]] on a dict. *)
Definition dict_item (d : dict) (k : string) : res value :=
  match dict_get d k with
  | Some v => Ret v
  | None => Raise KeyError
  end.

(** *** Strings *)

Definition is_upper (c : ascii) : bool :=
  let n := nat_of_ascii c in (65 <=? n)%nat && (n <=? 90)%nat.
Definition is_lower (c : ascii) : bool :=
  let n := nat_of_ascii c in (97 <=? n)%nat && (n <=? 122)%nat.
Definition is_digit (c : ascii) : bool :=
  let n := nat_of_ascii c in (48 <=? n)%nat && (n <=? 57)%nat.

(** [ch.isalnum()]. *)
Definition isalnum (c : ascii) : bool := is_upper c || is_lower c || is_digit c.

(** [ch.isspace()]: tab to carriage return, the four separators and space. *)
Definition isspace (c : ascii) : bool :=
  let n := nat_of_ascii c in
  ((9 <=? n)%nat && (n <=? 13)%nat) || ((28 <=? n)%nat && (n <=? 32)%nat).

(** [ch.lower()]. *)
Definition lower_char (c : ascii) : ascii :=
  if is_upper c then ascii_of_nat (nat_of_ascii c + 32) else c.

(** [s.lower()]. *)
Fixpoint lower (s : string) : string :=
  match s with
  | EmptyString => EmptyString
  | String c r => String (lower_char c) (lower r)
  end.

(** [s.lstrip()]. *)
Fixpoint lstrip (s : string) : string :=
  match s with
  | EmptyString => EmptyString
  | String c r => if isspace c then lstrip r else s
  end.

(** [s.rstrip()]. *)
Fixpoint rstrip (s : string) : string :=
  match s with
  | EmptyString => EmptyString
  | String c r =>
      match rstrip r with
      | EmptyString => if isspace c then EmptyString else String c EmptyString
      | r' => String c r'
      end
  end.

(** [s.strip()]. *)
Definition strip (s : string) : string := rstrip (lstrip s).

(** [s.split(sep)] for a one-character separator. *)
Fixpoint split_on (sep : ascii) (s : string) : list string :=
  match s with
  | EmptyString => [EmptyString]
  | String c r =>
      if Ascii.eqb c sep then EmptyString :: split_on sep r
      else match split_on sep r with
           | [] => [String c EmptyString]
           | h :: t => String c h :: t
           end
  end.

(** [s[-4:]]. *)
Definition last4 (s : string) : string :=
  substring (String.length s - 4) 4 s.

(** [s[2:]]. *)
Definition drop2 (s : string) : string :=
  substring 2 (String.length s - 2) s.

(** [needle in s]. *)
Definition contains (needle s : string) : bool :=
  match index 0 needle s with
  | Some _ => true
  | None => false
  end.

(** [''.join(...)] over the characters kept by a filter, each mapped. *)
Fixpoint filter_map_chars (keep : ascii -> bool) (f : ascii -> ascii)
    (s : string) : string :=
  match s with
  | EmptyString => EmptyString
  | String c r =>
      if keep c then String (f c) (filter_map_chars keep f r)
      else filter_map_chars keep f r
  end.

(** [str(z)] for an int. *)
Definition str_of_Z (z : Z) : string := NilZero.string_of_int (Z.to_int z).

(** The characters of a string, as Python iterates over it. *)
Fixpoint chars (s : string) : list value :=
  match s with
  | EmptyString => []
  | String c r => VStr (String c EmptyString) :: chars r
  end.

(** [iter(v)]: a list gives its items, a string its characters, a dict its
    keys; nothing else in [value] is iterable. *)
Definition py_iter (v : value) : res (list value) :=
  match v with
  | VList l => Ret l
  | VStr s => Ret (chars s)
  | VDict d => Ret (map (fun kv => VStr (fst kv)) d)
  | _ => Raise TypeError
  end.

(** ** What the program takes from libraries *)

Record PyLib : Type := {
  (** [float(s)] on a string; [None] when it raises [ValueError]. *)
  float_of_str : string -> option Q;
  (** [int(s)] on a string; [None] when it raises [ValueError]. *)
  int_of_str : string -> option Z;
  (** [str(v)] for a float, a datetime, a list or a dict. *)
  str_other : value -> string;
  (** [datetime.strptime(s, fmt)]; [None] when it raises. *)
  strptime : string -> string -> option datetime;
  (** [dateutil.parser.parse(s)] as it answers at one reading of the
      clock (it takes the date parts that [s] leaves out from the current
      date); [None] when it raises. *)
  dateutil_parse : string -> option datetime;
  (** [int(fuzz.token_set_ratio(a, b))], or the [difflib] fallback. *)
  token_set_ratio : string -> string -> Z
}.

(** ** Verdicts *)

Inductive status : Type := PASS | ALERT | CONDITION | NOT_APPLICABLE.

(** The dict a validator returns, with its four fixed keys. *)
Record verdict : Type := mkverdict {
  rule_id : value;
  v_status : status;
  message : value;
  details : dict
}.

Section Engine.

(** The library behind the interpreter, the reading of [datetime.now()], and
    [PathResolver.fields], the ["fields"] entry of the configuration file. *)
Variable L : PyLib.
Variable now : datetime.
Variable fields : value.

(** *** Conversions *)

(** [str(v)]. *)
Definition py_str (v : value) : string :=
  match v with
  | VNone => "None"
  | VBool true => "True"
  | VBool false => "False"
  | VInt z => str_of_Z z
  | VStr s => s
  | _ => str_other L v
  end.

(** [float(v)], [None] when it raises ([TypeError] or [ValueError]). *)
Definition py_float (v : value) : option Q :=
  match v with
  | VBool b => Some (if b then 1 else 0)%Q
  | VInt z => Some (inject_Z z)
  | VFloat q => Some q
  | VStr s => float_of_str L s
  | _ => None
  end.

(** [int(v)], [None] when it raises; a float is truncated towards zero. *)
Definition py_int (v : value) : option Z :=
  match v with
  | VBool b => Some (if b then 1 else 0)
  | VInt z => Some z
  | VFloat q => Some (Z.quot (Qnum q) (Zpos (Qden q)))
  | VStr s => int_of_str L s
  | _ => None
  end.

(** The number behind a value in arithmetic and ordering: bool, int and
    float are numbers, everything else is not. *)
Definition num_of (v : value) : option Q :=
  match v with
  | VBool b => Some (if b then 1 else 0)%Q
  | VInt z => Some (inject_Z z)
  | VFloat q => Some q
  | _ => None
  end.

(** [a > v], [a < v] and [a * v] for a float [a]: [TypeError] unless [v]
    is a number. *)
Definition float_gt (a : Q) (v : value) : res bool :=
  match num_of v with
  | Some b => Ret (negb (Qle_bool a b))
  | None => Raise TypeError
  end.

Definition float_lt (a : Q) (v : value) : res bool :=
  match num_of v with
  | Some b => Ret (negb (Qle_bool b a))
  | None => Raise TypeError
  end.

Definition float_mul (a : Q) (v : value) : res Q :=
  match num_of v with
  | Some b => Ret (a * b)%Q
  | None => Raise TypeError
  end.

(** *** Fuzzy matcher utils *)

Definition fuzzy_ratio (a b : value) : Z :=
  if is_none a || is_none b then 0
  else token_set_ratio L (py_str a) (py_str b).

Definition normalize_string (s : value) : string :=
  if is_none s then ""
  else strip (filter_map_chars (fun ch => isalnum ch || isspace ch) lower_char
                (py_str s)).

(** *** Date utils *)

Definition SUPPORTED_FORMATS : list string :=
  ["%m-%d-%Y"; "%Y-%m-%d"; "%d-%m-%Y"; "%m/%d/%Y"; "%Y/%m/%d"].

(** The loop over the formats: the first one that [strptime] accepts. *)
Fixpoint try_formats (s : string) (fmts : list string) : option datetime :=
  match fmts with
  | [] => None
  | fmt :: rest =>
      match strptime L s fmt with
      | Some d => Some d
      | None => try_formats s rest
      end
  end.

Definition parse_date (v : value) : option datetime :=
  if negb (truthy v) then None
  else match v with
       | VDate d => Some d
       | _ =>
           let s := strip (py_str v) in
           match try_formats s SUPPORTED_FORMATS with
           | Some d => Some d
           | None => dateutil_parse L s
           end
       end.

(** An [Optional[datetime]] as the object Python passes on. *)
Definition of_date (o : option datetime) : value :=
  match o with
  | Some d => VDate d
  | None => VNone
  end.

(** [months_between(d1, d2)]; an omitted [d2] is [d2 = None]. *)
Definition months_between (d1 d2 : value) : res Z :=
  match parse_date d1 with
  | None => Raise ValueError
  | Some d1 =>
      match (if is_none d2 then Some now else parse_date d2) with
      | None => Raise ValueError
      | Some d2 =>
          Ret (Z.abs ((year d2 - year d1) * 12 + (month d2 - month d1)))
      end
  end.

(** *** Path resolver *)

(** The loop of [resolve] over the parts of the path, with its final
    [return cur if cur is not None else default]. *)
Fixpoint walk (cur : value) (parts : list string) (default : value) : value :=
  match parts with
  | [] => if is_none cur then default else cur
  | part :: rest =>
      match cur with
      | VDict d =>
          match dict_get d part with
          | Some next => walk next rest default
          | None => default
          end
      | _ => default
      end
  end.

Definition resolve (context : dict) (section name : string) : res value :=
  sec <- py_get fields section (VDict []) ;;
  cfg <- py_get sec name VNone ;;
  if negb (truthy cfg) then Ret VNone
  else
    path <- py_get cfg "path" VNone ;;
    default <- py_get cfg "default" VNone ;;
    let cur := dict_get_default context section VNone in
    match path with
    | VStr p => Ret (walk cur (split_on "." p) default)
    | _ => Raise AttributeError
    end.

(** *** Base validator *)

Definition pass_result (rule : dict) (details : dict) : verdict :=
  mkverdict (dict_get_default rule "id" VNone) PASS (VStr "") details.

Definition alert_result (rule : dict) (message : value) (details : dict)
    : verdict :=
  mkverdict (dict_get_default rule "id" VNone) ALERT
    (py_or message (dict_get_default rule "alert_message" (VStr ""))) details.

Definition condition_result (rule : dict) (message : value) (details : dict)
    : verdict :=
  mkverdict (dict_get_default rule "id" VNone) CONDITION
    (py_or message (dict_get_default rule "condition_message" (VStr "")))
    details.

Definition not_applicable_result (rule : dict) (details : dict) : verdict :=
  mkverdict (dict_get_default rule "id" VNone) NOT_APPLICABLE (VStr "") details.

(** [rule.get('params', {}).get(k, dflt)]. *)
Definition param (rule : dict) (k : string) (dflt : value) : res value :=
  py_get (dict_get_default rule "params" (VDict [])) k dflt.

(** [m < v] for an int [m]. *)
Definition int_lt (m : Z) (v : value) : res bool := float_lt (inject_Z m) v.

(** [v == s] for a string literal [s]. *)
Definition eq_str (v : value) (s : string) : bool :=
  match v with
  | VStr s' => (s' =? s)%string
  | _ => false
  end.

(** [s in options] for a list of string literals. *)
Definition one_of (s : string) (options : list string) : bool :=
  existsb (String.eqb s) options.

(** [str(v).strip().lower()]. *)
Definition folded (v : value) : string := lower (strip (py_str v)).

(** ** All validators *)

(** [to_pct], the local function of [LTVValidator.evaluate]. *)
Definition to_pct (x : value) : option Q :=
  if is_none x then None
  else match py_float x with
       | Some v => Some (if Qle_bool v 1 then v * 100 else v)%Q
       | None => None
       end.

(** One of the three tests of [LTVValidator.evaluate]:
    [l is not None and thresholds.get(k) is not None and l > thresholds.get(k)]. *)
Definition over_threshold (thresholds : value) (l : option Q) (k : string)
    : res bool :=
  match l with
  | None => Ret false
  | Some l =>
      t <- py_get thresholds k VNone ;;
      if is_none t then Ret false else float_gt l t
  end.

Definition LTVValidator_evaluate (rule context : dict) : res verdict :=
  ltv <- resolve context "los" "ltv" ;;
  cltv <- resolve context "los" "cltv" ;;
  hcltv <- resolve context "los" "hcltv" ;;
  let thresholds := dict_get_default rule "thresholds" (VDict []) in
  let details := [("ltv", ltv); ("cltv", cltv); ("hcltv", hcltv);
                  ("thresholds", thresholds)] in
  let l := to_pct ltv in
  let c := to_pct cltv in
  let h := to_pct hcltv in
  if truthy thresholds then
    bl <- over_threshold thresholds l "ltv" ;;
    if bl then Ret (alert_result rule VNone details)
    else
      bc <- over_threshold thresholds c "cltv" ;;
      if bc then Ret (alert_result rule VNone details)
      else
        bh <- over_threshold thresholds h "hcltv" ;;
        if bh then Ret (alert_result rule VNone details)
        else Ret (pass_result rule details)
  else Ret (pass_result rule details).

Definition DTIValidator_evaluate (rule context : dict) : res verdict :=
  dti <- resolve context "los" "dti" ;;
  limit <- param rule "dti_limit" (VInt 50) ;;
  let details := [("dti", dti); ("limit", limit)] in
  match py_float dti with
  | None => Ret (not_applicable_result rule [])
  | Some d =>
      over <- float_gt d limit ;;
      if over then Ret (alert_result rule VNone details)
      else Ret (pass_result rule details)
  end.

Definition OccupancyValidator_evaluate (rule context : dict) : res verdict :=
  prop <- resolve context "los" "property_will_be" ;;
  let details := [("property_will_be", prop)] in
  if is_none prop || eq_str prop ""
  then Ret (not_applicable_result rule [])
  else if negb (folded prop =? "primary")%string
       then Ret (alert_result rule VNone details)
       else Ret (pass_result rule details).

Definition SecondHomeValidator_evaluate (rule context : dict) : res verdict :=
  no_units <- resolve context "los" "no_units" ;;
  let details := [("no_units", no_units)] in
  match py_int no_units with
  | None => Ret (not_applicable_result rule [])
  | Some n =>
      if negb (n =? 1) then Ret (alert_result rule VNone details)
      else Ret (pass_result rule details)
  end.

Definition InvestmentValidator_evaluate (rule context : dict) : res verdict :=
  loan_prog <- resolve context "los" "loan_program_detail" ;;
  prop_type <- resolve context "los" "property_type" ;;
  let details := [("loan_program_detail", loan_prog);
                  ("property_type", prop_type)] in
  if truthy loan_prog && contains "manufactured" (lower (py_str loan_prog))
  then Ret (alert_result rule VNone details)
  else if truthy prop_type && contains "manufactured" (lower (py_str prop_type))
       then Ret (alert_result rule VNone details)
       else Ret (pass_result rule details).

Definition CreditScoreValidator_evaluate (rule context : dict) : res verdict :=
  score <- resolve context "los" "average_representative_credit_score" ;;
  let details := [("score", score)] in
  match py_float score with
  | None => Ret (not_applicable_result rule [])
  | Some s =>
      if Qle_bool s 620 then Ret (alert_result rule VNone details)
      else Ret (pass_result rule details)
  end.

Definition GiftValidator_evaluate (rule context : dict) : res verdict :=
  gift_amount <- resolve context "los" "gift_amount" ;;
  cash_to <- resolve context "los" "cash_to_borrower" ;;
  let details := [("gift_amount", gift_amount)] in
  loan_program_detail_ <- resolve context "los" "loan_program_detail" ;;
  let g := if is_none gift_amount then 0%Q
           else match py_float gift_amount with
                | Some g => g
                | None => 0%Q
                end in
  if negb (Qle_bool g 0)
  then Ret (alert_result rule (dict_get_default rule "alert_message" VNone)
              details)
  else Ret (pass_result rule details).

(** [t.get(k1) or t.get(k2) or ""]: both lookups are on the same object, so
    the second raises exactly when the first does. *)
Definition get_either (t : value) (k1 k2 : string) : res value :=
  a <- py_get t k1 VNone ;;
  b <- py_get t k2 VNone ;;
  Ret (py_or a (py_or b (VStr ""))).

(** [str(v)[-4:] if v else ""]. *)
Definition last4_of (v : value) : string :=
  if truthy v then last4 (py_str v) else "".

(** The loop of [CashoutSeasoningValidator.evaluate] over the tradelines: it
    returns the updated [details] and [matched] ([None] when the loop ends
    without a [break]). *)
Fixpoint scan_tradelines (l4 : string) (liabilities_name : value)
    (tradelines : list value) (details : dict) : res (dict * value) :=
  match tradelines with
  | [] => Ret (details, VNone)
  | t :: rest =>
      acc_no <- get_either t "Creditor Account Number"
                  "Creditor_Account_Number" ;;
      let acc_last4 := last4_of acc_no in
      creditor_name <- get_either t "Creditor Name" "Creditor_Name" ;;
      if negb (l4 =? "")%string && negb (acc_last4 =? "")%string
         && (l4 =? acc_last4)%string
      then
        let score := fuzzy_ratio creditor_name liabilities_name in
        let details := dict_update details
                         [("matched_account_last4", VStr acc_last4);
                          ("creditor_name", creditor_name);
                          ("fuzzy_score", VInt score)] in
        if 70 <=? score then Ret (details, t)
        else scan_tradelines l4 liabilities_name rest details
      else scan_tradelines l4 liabilities_name rest details
  end.

Definition not_reported_message : string :=
  "The mortgage being paid off is not reported on credit report  please review reasoning requirement.".

Definition seasoning_message : string :=
  "The seasoning requirement for cash out refinance is not met, review and proceed".

Definition CashoutSeasoningValidator_evaluate (rule context : dict)
    : res verdict :=
  acc <- resolve context "los" "liabilities_account_number" ;;
  let liabilities_acc := py_or acc (VStr "") in
  name <- resolve context "los" "liabilities_name" ;;
  let liabilities_name := py_or name (VStr "") in
  est_close <- resolve context "los" "estimated_closing_date" ;;
  let details := [("liabilities_account_number", liabilities_acc);
                  ("liabilities_name", liabilities_name);
                  ("estimated_closing_date", est_close)] in
  tradelines_raw <- py_get (dict_get_default context "credit_report" (VDict []))
                      "Tradelines" VNone ;;
  if negb (truthy tradelines_raw) then Ret (not_applicable_result rule [])
  else
    tradelines <- (if is_dict tradelines_raw then Ret [tradelines_raw]
                   else py_iter tradelines_raw) ;;
    let l4 := last4_of liabilities_acc in
    found <- scan_tradelines l4 liabilities_name tradelines details ;;
    let details := fst found in
    let matched := snd found in
    if negb (truthy matched)
    then Ret (alert_result rule (VStr not_reported_message) details)
    else
      date_opened <- py_get matched "Date_Opened" VNone ;;
      if negb (truthy date_opened) || negb (truthy est_close)
      then Ret (not_applicable_result rule [])
      else
        let d_open := of_date (parse_date date_opened) in
        let d_close := of_date (parse_date est_close) in
        if negb (truthy d_open) || negb (truthy d_close)
        then Ret (not_applicable_result rule [])
        else
          months <- months_between d_open d_close ;;
          if months <=? 12
          then Ret (alert_result rule (VStr seasoning_message) details)
          else Ret (pass_result rule details).

(** The tail shared, line for line, by [TitleValidator], [FraudValidator] and
    [AppraisalPriorSaleValidator]: the test for empty dates, the [try] around
    [months_between], and the comparison with the parameter [limit_key]. *)
Definition months_check (rule : dict) (date est_close : value)
    (limit_key : string) (details : dict) : res verdict :=
  if negb (truthy date) || negb (truthy est_close)
  then Ret (not_applicable_result rule [])
  else
    match months_between (of_date (parse_date date))
            (of_date (parse_date est_close)) with
    | Raise _ => Ret (not_applicable_result rule [])
    | Ret months =>
        limit <- param rule limit_key (VInt 6) ;;
        below <- int_lt months limit ;;
        if below then Ret (alert_result rule VNone details)
        else Ret (pass_result rule details)
    end.

Definition TitleValidator_evaluate (rule context : dict) : res verdict :=
  chain_date <- resolve context "title" "chain_title_date" ;;
  est_close <- resolve context "los" "estimated_closing_date" ;;
  let details := [("chain_title_date", chain_date);
                  ("estimated_closing_date", est_close)] in
  months_check rule chain_date est_close "min_months" details.

Definition FraudValidator_evaluate (rule context : dict) : res verdict :=
  est_close <- resolve context "los" "estimated_closing_date" ;;
  dr_street <- resolve context "drive_report" "drive_street" ;;
  dr_city <- resolve context "drive_report" "drive_city" ;;
  dr_state <- resolve context "drive_report" "drive_state" ;;
  dr_unit <- resolve context "drive_report" "drive_unit" ;;
  subj_street <- resolve context "los" "urla_lender_subject_street" ;;
  subj_city <- resolve context "los" "urla_lender_subject_city" ;;
  subj_state <- resolve context "los" "urla_lender_subject_state" ;;
  subj_unit <- resolve context "los" "urla_lender_subject_unit" ;;
  let details :=
    [("drive_addr", VDict [("street", dr_street); ("city", dr_city);
                           ("state", dr_state); ("unit", dr_unit)]);
     ("subject_addr", VDict [("street", subj_street); ("city", subj_city);
                             ("state", subj_state); ("unit", subj_unit)])] in
  if negb (normalize_string dr_street =? normalize_string subj_street)%string
     || negb (normalize_string dr_city =? normalize_string subj_city)%string
     || negb (normalize_string dr_state =? normalize_string subj_state)%string
     || negb (normalize_string dr_unit =? normalize_string subj_unit)%string
  then Ret (not_applicable_result rule [])
  else
    fraud_date <- resolve context "drive_report" "fraud_recorded_date" ;;
    months_check rule fraud_date est_close "max_months" details.

Definition AppraisalPriorSaleValidator_evaluate (rule context : dict)
    : res verdict :=
  prior_sale <- resolve context "appraisal" "prior_sale_date" ;;
  est_close <- resolve context "los" "estimated_closing_date" ;;
  let details := [("prior_sale_date", prior_sale);
                  ("estimated_closing_date", est_close)] in
  months_check rule prior_sale est_close "min_months" details.

Definition LoanProgramValidator_evaluate (rule context : dict) : res verdict :=
  amort <- resolve context "los" "amortization_type" ;;
  let details := [("amortization_type", amort)] in
  if negb (truthy amort) then Ret (not_applicable_result rule [])
  else if negb (one_of (folded amort) ["fixed rate"; "fixed"])
       then Ret (alert_result rule VNone details)
       else Ret (pass_result rule details).

(** The first loop of [CashbackValidator.evaluate]: the absolute values of
    the negative amounts among the given values. *)
Fixpoint negative_amounts (vs : list value) : list Q :=
  match vs with
  | [] => []
  | v :: rest =>
      if is_none v then negative_amounts rest
      else match py_float v with
           | Some val =>
               if negb (Qle_bool 0 val) then Qabs val :: negative_amounts rest
               else negative_amounts rest
           | None => negative_amounts rest
           end
  end.

Definition CashbackValidator_evaluate (rule context : dict) : res verdict :=
  cash_from <- resolve context "los" "cash_from_borrower" ;;
  cash_to <- resolve context "los" "cash_to_borrower" ;;
  loan_amount <- resolve context "los" "loan_amount" ;;
  let details := [("cash_from", cash_from); ("cash_to", cash_to);
                  ("loan_amount", loan_amount)] in
  match py_float loan_amount with
  | None => Ret (not_applicable_result rule [])
  | Some loan =>
      let negs := negative_amounts [cash_from; cash_to] in
      match negs with
      | [] => Ret (not_applicable_result rule details)
      | _ :: _ =>
          absolute_limit <- param rule "absolute_limit" (VInt 2000) ;;
          percent_limit <- param rule "percent_limit" (VFloat 0.01) ;;
          scaled <- float_mul loan percent_limit ;;
          smaller <- float_lt scaled absolute_limit ;;
          let max_allowed :=
            if smaller then scaled
            else match num_of absolute_limit with
                 | Some a => a
                 | None => scaled
                 end in
          if existsb (fun amt => negb (Qle_bool amt max_allowed)) negs
          then Ret (alert_result rule VNone details)
          else Ret (pass_result rule details)
      end
  end.

(** [cert and str(cert).strip().lower() in ['yes', 'y', 'true']]. *)
Definition affirmative (cert : value) : bool :=
  truthy cert && one_of (folded cert) ["yes"; "y"; "true"].

Definition HomebuyerProgramValidator_evaluate (rule context : dict)
    : res verdict :=
  cert <- resolve context "los" "homebuyer_education_certificate" ;;
  let details := [("homebuyer_education_certificate", cert)] in
  if affirmative cert then Ret (pass_result rule details)
  else Ret (condition_result rule
              (dict_get_default rule "condition_message" VNone) details).

Definition HomebuyerLTVValidator_evaluate (rule context : dict)
    : res verdict :=
  ltv <- resolve context "los" "ltv" ;;
  cert <- resolve context "los" "homebuyer_education_certificate" ;;
  let details := [("ltv", ltv); ("homebuyer_education_certificate", cert)] in
  match py_float ltv with
  | None => Ret (not_applicable_result rule [])
  | Some lp =>
      let lp := (if Qle_bool lp 1 then lp * 100 else lp)%Q in
      max_ltv <- param rule "max_ltv" (VInt 95) ;;
      over <- float_gt lp max_ltv ;;
      if over then
        if affirmative cert then Ret (pass_result rule details)
        else Ret (condition_result rule
                    (dict_get_default rule "condition_message" VNone) details)
      else Ret (pass_result rule details)
  end.

Definition IncomeValidator_evaluate (rule context : dict) : res verdict :=
  income <- resolve context "los" "total_income" ;;
  area <- resolve context "los" "area_median_income" ;;
  ami <- (if truthy area then Ret area
          else param rule "area_median_income" VNone) ;;
  let details := [("total_income", income); ("area_median_income", ami)] in
  match py_float income, py_float ami with
  | Some inc, Some ami_v =>
      if negb (Qle_bool inc ami_v) then Ret (alert_result rule VNone details)
      else Ret (pass_result rule details)
  | _, _ => Ret (not_applicable_result rule [])
  end.

(** [len([x for x in s.split(',') if x.strip()])]. *)
Definition count_names (s : string) : nat :=
  List.length (filter (fun x => negb (strip x =? "")%string) (split_on "," s)).

Definition LienPayoffValidator_evaluate (rule context : dict) : res verdict :=
  paid_off <- resolve context "los" "liabilities_will_be_paid_off" ;;
  acc_type <- resolve context "los" "liabilities_account_type" ;;
  names <- resolve context "los" "liabilities_name" ;;
  let liab_names := py_or names (VStr "") in
  let details := [("paid_off", paid_off); ("account_type", acc_type);
                  ("liabilities_name", liab_names)] in
  if one_of (folded paid_off) ["yes"; "true"] then
    let count :=
      match liab_names with
      | VStr s => if negb (strip s =? "")%string then count_names s else 0%nat
      | _ => 0%nat
      end in
    if (1 <? count)%nat then Ret (alert_result rule VNone details)
    else if negb (truthy acc_type)
            || negb (contains "mortgage" (lower (py_str acc_type)))
         then Ret (alert_result rule VNone details)
         else Ret (pass_result rule details)
  else Ret (pass_result rule details).

(** ** Rule dispatcher *)

(** The classes registered in [RuleDispatcher.validators]. *)
Inductive validator : Type :=
| LTVValidator | DTIValidator | OccupancyValidator | SecondHomeValidator
| InvestmentValidator | CreditScoreValidator | GiftValidator
| CashoutSeasoningValidator | TitleValidator | FraudValidator
| AppraisalPriorSaleValidator | LoanProgramValidator | CashbackValidator
| HomebuyerProgramValidator | HomebuyerLTVValidator | IncomeValidator
| LienPayoffValidator.

(** [validator.evaluate(rule, context, self.resolver)]. *)
Definition validator_evaluate (v : validator) : dict -> dict -> res verdict :=
  match v with
  | LTVValidator => LTVValidator_evaluate
  | DTIValidator => DTIValidator_evaluate
  | OccupancyValidator => OccupancyValidator_evaluate
  | SecondHomeValidator => SecondHomeValidator_evaluate
  | InvestmentValidator => InvestmentValidator_evaluate
  | CreditScoreValidator => CreditScoreValidator_evaluate
  | GiftValidator => GiftValidator_evaluate
  | CashoutSeasoningValidator => CashoutSeasoningValidator_evaluate
  | TitleValidator => TitleValidator_evaluate
  | FraudValidator => FraudValidator_evaluate
  | AppraisalPriorSaleValidator => AppraisalPriorSaleValidator_evaluate
  | LoanProgramValidator => LoanProgramValidator_evaluate
  | CashbackValidator => CashbackValidator_evaluate
  | HomebuyerProgramValidator => HomebuyerProgramValidator_evaluate
  | HomebuyerLTVValidator => HomebuyerLTVValidator_evaluate
  | IncomeValidator => IncomeValidator_evaluate
  | LienPayoffValidator => LienPayoffValidator_evaluate
  end.

Definition validators : list (string * validator) :=
  [("LTVValidator", LTVValidator);
   ("DTIValidator", DTIValidator);
   ("OccupancyValidator", OccupancyValidator);
   ("SecondHomeValidator", SecondHomeValidator);
   ("InvestmentValidator", InvestmentValidator);
   ("CreditScoreValidator", CreditScoreValidator);
   ("GiftValidator", GiftValidator);
   ("CashoutSeasoningValidator", CashoutSeasoningValidator);
   ("TitleValidator", TitleValidator);
   ("FraudValidator", FraudValidator);
   ("AppraisalPriorSaleValidator", AppraisalPriorSaleValidator);
   ("LoanProgramValidator", LoanProgramValidator);
   ("CashbackValidator", CashbackValidator);
   ("HomebuyerProgramValidator", HomebuyerProgramValidator);
   ("HomebuyerLTVValidator", HomebuyerLTVValidator);
   ("IncomeValidator", IncomeValidator);
   ("LienPayoffValidator", LienPayoffValidator)].

(** [RuleDispatcher.rules], the ["rules"] entry of the configuration file. *)
Variable rules : list dict.

(** [self.validators.get(name)]: a list or dict is not hashable, and no
    other object than a registered name is a key of the registry. *)
Definition validators_get (name : value) : res (option validator) :=
  match name with
  | VStr s =>
      Ret (option_map snd
             (find (fun entry => (fst entry =? s)%string) validators))
  | VList _ | VDict _ => Raise TypeError
  | _ => Ret None
  end.

(** *** Trigger engine *)

Definition _norm (v : value) : string :=
  if is_none v then "" else lower (strip (py_str v)).

Definition _match_value (actual expected : value) : bool :=
  match expected with
  | VStr e =>
      if prefix "GT" e then
        match py_float actual, float_of_str L (drop2 e) with
        | Some v, Some bound =>
            let v := (if Qle_bool v 1 then v * 100 else v)%Q in
            negb (Qle_bool v bound)
        | _, _ => false
        end
      else (_norm actual =? _norm expected)%string
  | _ => (_norm actual =? _norm expected)%string
  end.

(** [_match_trigger(trigger, context)].  [trigger.items()] needs a dict.
    Under the key ["or"] the function returns [any(...)] of the recursive
    calls on the items of the value: a list gives its items; a non-empty
    string or dict would give strings, on which the recursive call raises
    [AttributeError]. *)
Fixpoint _match_trigger (context : dict) (trigger : value) {struct trigger}
    : res bool :=
  match trigger with
  | VDict items =>
      (fix items_loop (its : list (string * value)) : res bool :=
         match its with
         | [] => Ret true
         | (key, expected_list) :: rest =>
             if (key =? "or")%string then
               match expected_list with
               | VList subs =>
                   (fix any_sub (xs : list value) : res bool :=
                      match xs with
                      | [] => Ret false
                      | x :: xs' =>
                          b <- _match_trigger context x ;;
                          if b then Ret true else any_sub xs'
                      end) subs
               | VStr s => if (s =? "")%string then Ret false
                           else Raise AttributeError
               | VDict d => match d with
                            | [] => Ret false
                            | _ :: _ => Raise AttributeError
                            end
               | _ => Raise TypeError
               end
             else
               actual <- resolve context "los" key ;;
               exps <- py_iter expected_list ;;
               if negb (existsb (_match_value actual) exps) then Ret false
               else items_loop rest
         end) items
  | _ => Raise AttributeError
  end.

(** *** The output mapping *)

(** The dict [results]: keys are the objects [rule["id"]]. *)
Definition results : Type := list (value * verdict).

(** Equality of two hashable keys, as a dict compares them: numbers by
    value across bool, int and float, strings and dates by content. *)
Definition key_eqb (a b : value) : bool :=
  match a, b with
  | VNone, VNone => true
  | VStr s, VStr t => (s =? t)%string
  | VDate d, VDate e =>
      (year d =? year e) && (month d =? month e) && (day d =? day e)
  | _, _ =>
      match num_of a, num_of b with
      | Some x, Some y => Qeq_bool x y
      | _, _ => false
      end
  end.

(** [id in results], and [results[id]] where it is. *)
Fixpoint results_get (r : results) (id : value) : option verdict :=
  match r with
  | [] => None
  | (k, v) :: rest => if key_eqb k id then Some v else results_get rest id
  end.

Fixpoint results_put (r : results) (id : value) (v : verdict) : results :=
  match r with
  | [] => [(id, v)]
  | (k, v') :: rest =>
      if key_eqb k id then (k, v) :: rest else (k, v') :: results_put rest id v
  end.

(** [results[id] = v]: [TypeError] for an unhashable key. *)
Definition results_set (r : results) (id : value) (v : verdict) : res results :=
  match id with
  | VList _ | VDict _ => Raise TypeError
  | _ => Ret (results_put r id v)
  end.

(** *** Evaluate *)

(** The body of the loop of [evaluate] for one rule.  In an assignment
    [results[rule["id"]] = e] Python evaluates [e] first. *)
Definition evaluate_rule (context : dict) (acc : results) (rule : dict)
    : res results :=
  name <- dict_item rule "validator" ;;
  registered <- validators_get name ;;
  match registered with
  | None => Ret acc
  | Some v =>
      applicable <- _match_trigger context
                      (dict_get_default rule "trigger" (VDict [])) ;;
      if negb applicable then
        let r := not_applicable_result rule [] in
        id <- dict_item rule "id" ;;
        results_set acc id r
      else
        r <- validator_evaluate v rule context ;;
        id <- dict_item rule "id" ;;
        results_set acc id r
  end.

Fixpoint evaluate_loop (context : dict) (acc : results) (rs : list dict)
    : res results :=
  match rs with
  | [] => Ret acc
  | rule :: rest =>
      acc' <- evaluate_rule context acc rule ;;
      evaluate_loop context acc' rest
  end.

Definition evaluate (context : dict) : res results :=
  evaluate_loop context [] rules.

End Engine.

(** ** A library instance for concrete runs

    The general statements below hold for every [PyLib].  Runs on concrete
    inputs need one instance; [plain_lib] is Python's behaviour cut down to
    plain numerals and numeric dates.  It reads decimal numerals and the
    five supported date formats, leaves [dateutil] recognising nothing,
    scores equal non-empty names 100 and anything else 0 (what
    [token_set_ratio] gives for equal names, and for names with no
    character in common), and renders composite objects as the empty text.
    The runs below only hand it text on which it agrees with Python. *)

(** The number written by a non-empty string of decimal digits. *)
Fixpoint digits_value (s : string) (acc : Z) : option Z :=
  match s with
  | EmptyString => Some acc
  | String c r =>
      if is_digit c
      then digits_value r (10 * acc + Z.of_nat (nat_of_ascii c - 48))
      else None
  end.

Definition numeral (s : string) : option Z :=
  match s with
  | EmptyString => None
  | _ => digits_value s 0
  end.

(** A leading sign, split off. *)
Definition signed (s : string) : bool * string :=
  match s with
  | String "-" r => (true, r)
  | String "+" r => (false, r)
  | _ => (false, s)
  end.

Definition plain_int (s : string) : option Z :=
  let (neg, body) := signed (strip s) in
  option_map (fun n => if neg then - n else n) (numeral body).

Definition plain_float (s : string) : option Q :=
  let (neg, body) := signed (strip s) in
  let sign := fun q : Q => if neg then (- q)%Q else q in
  match split_on "." body with
  | [i] => option_map (fun n => sign (inject_Z n)) (numeral i)
  | [i; f] =>
      match numeral i, numeral f with
      | Some n, Some m =>
          let scale := 10 ^ Z.of_nat (String.length f) in
          Some (sign (Qmake (n * scale + m) (Z.to_pos scale)))
      | _, _ => None
      end
  | _ => None
  end.

Definition is_leap (y : Z) : bool :=
  (y mod 4 =? 0) && (negb (y mod 100 =? 0) || (y mod 400 =? 0)).

Definition days_in_month (y m : Z) : Z :=
  if m =? 2 then (if is_leap y then 29 else 28)
  else if (m =? 4) || (m =? 6) || (m =? 9) || (m =? 11) then 30
  else 31.

(** The date written by a four-digit year and a month and a day of one or
    two digits each. *)
Definition make_date (y m d : string) : option datetime :=
  match numeral y, numeral m, numeral d with
  | Some yv, Some mv, Some dv =>
      if (String.length y =? 4)%nat && (String.length m <=? 2)%nat
         && (String.length d <=? 2)%nat
         && (1 <=? yv) && (1 <=? mv) && (mv <=? 12)
         && (1 <=? dv) && (dv <=? days_in_month yv mv)
      then Some (mkdate yv mv dv)
      else None
  | _, _, _ => None
  end.

Definition plain_strptime (s fmt : string) : option datetime :=
  let fields_of := fun sep : ascii =>
    match split_on sep s with
    | [a; b; c] => Some (a, b, c)
    | _ => None
    end in
  if (fmt =? "%m-%d-%Y")%string then
    match fields_of "-"%char with
    | Some (m, d, y) => make_date y m d
    | None => None
    end
  else if (fmt =? "%Y-%m-%d")%string then
    match fields_of "-"%char with
    | Some (y, m, d) => make_date y m d
    | None => None
    end
  else if (fmt =? "%d-%m-%Y")%string then
    match fields_of "-"%char with
    | Some (d, m, y) => make_date y m d
    | None => None
    end
  else if (fmt =? "%m/%d/%Y")%string then
    match fields_of "/"%char with
    | Some (m, d, y) => make_date y m d
    | None => None
    end
  else if (fmt =? "%Y/%m/%d")%string then
    match fields_of "/"%char with
    | Some (y, m, d) => make_date y m d
    | None => None
    end
  else None.

Definition plain_ratio (a b : string) : Z :=
  if negb (a =? "")%string && (a =? b)%string then 100 else 0.

Definition plain_lib : PyLib := {|
  float_of_str := plain_float;
  int_of_str := plain_int;
  str_other := fun _ => "";
  strptime := plain_strptime;
  dateutil_parse := fun _ => None;
  token_set_ratio := plain_ratio
|}.

(** ** Notions the statements are written in *)

(** *** Field resolution *)

(** A field configuration that [resolve] can read: [fields] is a mapping of
    sections, a section a mapping of names, and an entry either empty
    (falsy) or a mapping with a string under ["path"]. *)
Definition entry_wf (cfg : value) : bool :=
  negb (truthy cfg)
  || match cfg with
     | VDict d => match dict_get d "path" with
                  | Some (VStr _) => true
                  | _ => false
                  end
     | _ => false
     end.

Definition section_wf (sec : value) : bool :=
  match sec with
  | VDict d => forallb (fun kv => entry_wf (snd kv)) d
  | _ => false
  end.

Definition fields_wf (fields : value) : bool :=
  match fields with
  | VDict d => forallb (fun kv => section_wf (snd kv)) d
  | _ => false
  end.

(** The path configuration of [(section, name)], when one exists: its path
    and its default. *)
Definition field_config (fields : value) (section name : string)
    : option (string * value) :=
  match fields with
  | VDict f =>
      match dict_get f section with
      | Some (VDict sec) =>
          match dict_get sec name with
          | Some (VDict cfg) =>
              match dict_get cfg "path" with
              | Some (VStr p) => Some (p, dict_get_default cfg "default" VNone)
              | _ => None
              end
          | _ => None
          end
      | _ => None
      end
  | _ => None
  end.

(** [reaches cur parts v]: following [parts] from [cur], every segment finds
    a mapping that has the key, and the walk ends on [v]. *)
Inductive reaches : value -> list string -> value -> Prop :=
| reaches_here (v : value) : reaches v [] v
| reaches_step (d : dict) (part : string) (rest : list string)
    (next v : value) :
    dict_get d part = Some next -> reaches next rest v ->
    reaches (VDict d) (part :: rest) v.

(** [misses cur parts]: at some segment the current value is not a mapping,
    or lacks the key. *)
Inductive misses : value -> list string -> Prop :=
| misses_not_mapping (cur : value) (part : string) (rest : list string) :
    is_dict cur = false -> misses cur (part :: rest)
| misses_no_key (d : dict) (part : string) (rest : list string) :
    dict_get d part = None -> misses (VDict d) (part :: rest)
| misses_later (d : dict) (part : string) (rest : list string)
    (next : value) :
    dict_get d part = Some next -> misses next rest ->
    misses (VDict d) (part :: rest).

(** ** Concrete inputs *)

(** An entry of the field configuration. *)
Definition entry (path : string) (default : value) : value :=
  VDict [("path", VStr path); ("default", default)].

(** A field configuration in the shape of the configuration file. *)
Definition sample_fields : value :=
  VDict
    [("los",
      VDict [("ltv", entry "loan.ltv" VNone);
             ("dti", entry "loan.dti" VNone);
             ("loan_purpose", entry "loan_purpose" (VStr "Purchase"));
             ("estimated_closing_date", entry "estimated_closing_date" VNone);
             ("liabilities_account_number",
              entry "liabilities.account_number" VNone);
             ("liabilities_name", entry "liabilities.name" VNone);
             ("urla_lender_subject_street", entry "subject.street" VNone);
             ("urla_lender_subject_city", entry "subject.city" VNone);
             ("urla_lender_subject_state", entry "subject.state" VNone);
             ("urla_lender_subject_unit", entry "subject.unit" VNone)]);
     ("drive_report",
      VDict [("drive_street", entry "address.street" VNone);
             ("drive_city", entry "address.city" VNone);
             ("drive_state", entry "address.state" VNone);
             ("drive_unit", entry "address.unit" VNone);
             ("fraud_recorded_date", entry "fraud_recorded_date" VNone)])].

(** A context for [sample_fields]: the loan record carries a ratio and a
    purpose that is present but null. *)
Definition sample_context : dict :=
  [("los", VDict [("loan", VDict [("ltv", VFloat 0.95)]);
                  ("loan_purpose", VNone)])].

(** *** Percent coercion *)


(** *** Triggers and rules *)

(** A trigger whose ["or"] key comes first, and the same mapping with the
    two keys in the other order. *)
Definition or_first_trigger : value :=
  VDict [("or", VList [VDict []]);
         ("loan_purpose", VList [VStr "Refinance"])].

Definition or_last_trigger : value :=
  VDict [("loan_purpose", VList [VStr "Refinance"]);
         ("or", VList [VDict []])].

Definition purchase_context : dict :=
  [("los", VDict [("loan_purpose", VStr "Purchase");
                  ("loan", VDict [("dti", VStr "55")])])].

(** A rule whose validator name is a key of no registered class. *)
Definition unregistered (rule : dict) : bool :=
  match dict_get rule "validator" with
  | Some name =>
      match validators_get name with
      | Ret None => true
      | _ => false
      end
  | None => false
  end.

(** A rule without a trigger, and one whose validator is not registered. *)
Definition dti_rule : dict :=
  [("id", VStr "R-DTI"); ("validator", VStr "DTIValidator");
   ("params", VDict [("dti_limit", VInt 50)]);
   ("alert_message", VStr "DTI above the limit")].

Definition typo_rule : dict :=
  [("id", VStr "R-TYPO"); ("validator", VStr "DtiValidator")].

(** *** Fraud rule *)

Definition fraud_rule : dict :=
  [("id", VStr "R-FRAUD"); ("validator", VStr "FraudValidator");
   ("params", VDict [("max_months", VInt 6)]);
   ("alert_message", VStr "Fraud recorded on the subject property")].

(** The addresses agree after normalization and the fraud was recorded on
    2024-01-15; the estimated closing date is text that is no date. *)
Definition garbage_close_context : dict :=
  [("los",
    VDict [("estimated_closing_date", VStr "garbage");
           ("subject", VDict [("street", VStr "12 Main St.");
                              ("city", VStr "Austin");
                              ("state", VStr "TX")])]);
   ("drive_report",
    VDict [("address", VDict [("street", VStr "12 MAIN ST");
                              ("city", VStr "austin");
                              ("state", VStr "tx");
                              ("unit", VStr "")]);
           ("fraud_recorded_date", VStr "2024-01-15")])].

(** No address at all on either side; the fraud was recorded three months
    before the estimated closing date. *)
Definition no_address_context : dict :=
  [("los", VDict [("estimated_closing_date", VStr "2024-04-20")]);
   ("drive_report", VDict [("fraud_recorded_date", VStr "2024-01-15")])].

(** No address either; the closing date is 2024-06-01 and the fraud date
    is text without a year, which no supported format reads. *)
Definition partial_date_context : dict :=
  [("los", VDict [("estimated_closing_date", VStr "2024-06-01")]);
   ("drive_report", VDict [("fraud_recorded_date", VStr "January 15")])].

(** [dateutil.parser.parse("January 15")] in a given year. *)
Definition january_15 (y : Z) (s : string) : option datetime :=
  if (s =? "January 15")%string then Some (mkdate y 1 15) else None.

(** The [details] of the Fraud validator. *)
Definition fraud_details (dr_street dr_city dr_state dr_unit
    subj_street subj_city subj_state subj_unit : value) : dict :=
  [("drive_addr", VDict [("street", dr_street); ("city", dr_city);
                         ("state", dr_state); ("unit", dr_unit)]);
   ("subject_addr", VDict [("street", subj_street); ("city", subj_city);
                           ("state", subj_state); ("unit", subj_unit)])].

(** *** Verdicts by dates *)

(** The calendar-month distance of two dates. *)
Definition months_apart (a b : datetime) : Z :=
  Z.abs ((year b - year a) * 12 + (month b - month a)).

(** The status that the check of the months arrives at, for a numeric
    [limit]: the closing date is taken from the clock where
    [est_close] is text that [parse_date] does not read. *)
Definition months_status (L : PyLib) (now : datetime)
    (date est_close : value) (limit : Q) : status :=
  if negb (truthy date) || negb (truthy est_close) then NOT_APPLICABLE
  else match parse_date L date with
       | None => NOT_APPLICABLE
       | Some d =>
           let c := match parse_date L est_close with
                    | Some c => c
                    | None => now
                    end in
           if negb (Qle_bool limit (inject_Z (months_apart d c)))
           then ALERT else PASS
       end.

(** *** Cashout seasoning *)

(** The tradelines of the credit report, one mapping or a sequence. *)
Definition tradelines_of (raw : value) : list value :=
  match raw with
  | VDict _ => [raw]
  | VList l => l
  | _ => []
  end.

(** A field of a tradeline under either spelling of its key: the value of
    [t.get(k1) or t.get(k2) or ""]. *)
Definition tradeline_get (t : value) (k1 k2 : string) : value :=
  match t with
  | VDict d =>
      py_or (dict_get_default d k1 VNone)
        (py_or (dict_get_default d k2 VNone) (VStr ""))
  | _ => VStr ""
  end.

Definition date_opened_of (t : value) : value :=
  match t with
  | VDict d => dict_get_default d "Date_Opened" VNone
  | _ => VNone
  end.

(** Two readings of "the last 4 characters are equal": as the
    specification words it, and with the guard that both are present. *)
Definition same_last4_stated (a b : string) : bool := (a =? b)%string.

Definition same_last4_guarded (a b : string) : bool :=
  negb (a =? "")%string && negb (b =? "")%string && (a =? b)%string.

(** A tradeline is accepted when its account number matches that of the
    liability on the last 4 characters and its creditor name scores at
    least 70 against the liability name. *)
Definition accepted (L : PyLib) (same_last4 : string -> string -> bool)
    (acc name t : value) : bool :=
  same_last4 (last4_of L acc)
    (last4_of L (tradeline_get t "Creditor Account Number"
                   "Creditor_Account_Number"))
  && (70 <=? fuzzy_ratio L (tradeline_get t "Creditor Name" "Creditor_Name")
               (py_or name (VStr ""))).

(** The decision rule of the CashoutSeasoning validator, in the words of
    the specification, over a reading of the last-4 match. *)
Definition cashout_status (L : PyLib) (same_last4 : string -> string -> bool)
    (acc name est_close raw : value) : status :=
  if negb (truthy raw) then NOT_APPLICABLE
  else match find (accepted L same_last4 acc name) (tradelines_of raw) with
       | None => ALERT
       | Some t =>
           match parse_date L (date_opened_of t), parse_date L est_close with
           | Some o, Some c =>
               if months_apart o c <=? 12 then ALERT else PASS
           | _, _ => NOT_APPLICABLE
           end
       end.

(** The tradelines are what the interface promises: one mapping, or a
    sequence of mappings. *)
Definition tradelines_wf (raw : value) : bool :=
  match raw with
  | VDict _ => true
  | VList l => forallb is_dict l
  | _ => negb (truthy raw)
  end.

Definition cashout_rule : dict :=
  [("id", VStr "R-CASHOUT"); ("validator", VStr "CashoutSeasoningValidator")].

(** A tradeline reported 13 months before the estimated closing date. *)
Definition seasoned_context : dict :=
  [("los",
    VDict [("liabilities", VDict [("account_number", VStr "1234567890");
                                  ("name", VStr "ABC BANK")]);
           ("estimated_closing_date", VStr "2025-12-31")]);
   ("credit_report",
    VDict [("Tradelines",
            VDict [("Creditor Account Number", VStr "XXXXXX7890");
                   ("Creditor Name", VStr "ABC BANK");
                   ("Date_Opened", VStr "2024-11-30")])])].

(** The same tradeline opened 6 months before the closing date, after one
    that belongs to another account. *)
Definition unseasoned_context : dict :=
  [("los",
    VDict [("liabilities", VDict [("account_number", VInt 1234567890);
                                  ("name", VStr "ABC BANK")]);
           ("estimated_closing_date", VStr "2025-12-31")]);
   ("credit_report",
    VDict [("Tradelines",
            VList [VDict [("Creditor_Account_Number", VStr "5555");
                          ("Creditor_Name", VStr "ABC BANK");
                          ("Date_Opened", VStr "2001-01-01")];
                   VDict [("Creditor_Account_Number", VStr "7890");
                          ("Creditor_Name", VStr "ABC BANK");
                          ("Date_Opened", VStr "06/30/2025")]])])].

(** Neither the liability nor the tradeline carries an account number. *)
Definition no_account_context : dict :=
  [("los",
    VDict [("liabilities", VDict [("name", VStr "ABC BANK")]);
           ("estimated_closing_date", VStr "2025-12-31")]);
   ("credit_report",
    VDict [("Tradelines",
            VList [VDict [("Creditor Name", VStr "ABC BANK");
                          ("Date_Opened", VStr "2020-01-01")]])])].

(** *** The matcher and the output mapping *)

(** The value [resolve] returns under a readable configuration. *)
Definition resolved (fields : value) (context : dict) (section name : string)
    : value :=
  match field_config fields section name with
  | None => VNone
  | Some (path, default) =>
      walk (dict_get_default context section VNone) (split_on "." path) default
  end.

(** [any(self._match_trigger(x, context) for x in subs)]. *)
Fixpoint any_sub_trigger (L : PyLib) (fields : value) (context : dict)
    (subs : list value) : res bool :=
  match subs with
  | [] => Ret false
  | x :: rest =>
      b <- _match_trigger L fields context x ;;
      if b then Ret true else any_sub_trigger L fields context rest
  end.

(** A trigger mapping: field keys with their expected lists, then the key
    ["or"] with its sub-triggers, then whatever follows. *)
Definition trigger_with_or (before : list (string * list value))
    (subs : list value) (after : dict) : value :=
  VDict (map (fun kv => (fst kv, VList (snd kv))) before
         ++ ("or", VList subs) :: after).

(** Every field key matches: its resolved value matches at least one entry
    of its expected list. *)
Definition all_keys_match (L : PyLib) (fields : value) (context : dict)
    (keys : list (string * list value)) : bool :=
  forallb (fun kv => existsb (_match_value L (resolved fields context "los"
                                                (fst kv))) (snd kv)) keys.

(** A mapping none of whose keys equals [id] has no entry for [id]. *)
Definition no_key (id : value) (r : results) : Prop :=
  Forall (fun kv => key_eqb (fst kv) id = false) r.

(** ** The rest of the module *)

(** *** JSON utils *)

(** What a MongoDB document holds: the JSON primitives, [ObjectId]s (by
    their hexadecimal text), datetimes, mappings and lists, and objects of
    any other class, each with its [str()] where that does not raise. *)
#[warnings="-register-all"]
Inductive bson : Type :=
| BNone
| BBool (b : bool)
| BInt (z : Z)
| BFloat (q : Q)
| BStr (s : string)
| BObjectId (hex : string)
| BDate (d : datetime)
| BDict (d : list (string * bson))
| BList (l : list bson)
| BOther (str : option string).

(** [clean_mongo(obj)]; [isoformat] is [datetime.isoformat]. *)
Fixpoint clean_mongo (isoformat : datetime -> string) (obj : bson) : bson :=
  match obj with
  | BNone | BBool _ | BInt _ | BFloat _ | BStr _ => obj
  | BObjectId hex => BStr hex
  | BDate d => BStr (isoformat d)
  | BDict d =>
      BDict (map (fun kv : string * bson =>
                    let (k, v) := kv in (k, clean_mongo isoformat v)) d)
  | BList l => BList (map (clean_mongo isoformat) l)
  | BOther (Some s) => BStr s
  | BOther None => obj
  end.

(** An object made of JSON primitives, mappings and lists only. *)
Fixpoint json_like (obj : bson) : bool :=
  match obj with
  | BNone | BBool _ | BInt _ | BFloat _ | BStr _ => true
  | BDict d =>
      forallb (fun kv : string * bson => let (k, v) := kv in json_like v) d
  | BList l => forallb json_like l
  | BObjectId _ | BDate _ | BOther _ => false
  end.

(** No object inside has a [str()] that raises. *)
Fixpoint printable (obj : bson) : bool :=
  match obj with
  | BDict d =>
      forallb (fun kv : string * bson => let (k, v) := kv in printable v) d
  | BList l => forallb printable l
  | BOther None => false
  | _ => true
  end.

(** The keys of a mapping and the length of a list, all the way down. *)
Fixpoint same_shape (a b : bson) : bool :=
  match a, b with
  | BDict d, BDict e =>
      (fix go (d e : list (string * bson)) : bool :=
         match d, e with
         | [], [] => true
         | (k, v) :: d', (k', v') :: e' =>
             (k =? k')%string && same_shape v v' && go d' e'
         | _, _ => false
         end) d e
  | BList l, BList m =>
      (fix go (l m : list bson) : bool :=
         match l, m with
         | [], [] => true
         | x :: l', y :: m' => same_shape x y && go l' m'
         | _, _ => false
         end) l m
  | BDict _, _ | BList _, _ | _, BDict _ | _, BList _ => false
  | _, _ => true
  end.

(** *** The report of a loan *)


(** The integers that [float()] converts: those that round to a finite
    binary64.  From [2^1024 - 2^970] on, the nearest float would be
    [2^1024], and [float()] raises [OverflowError]. *)
Definition float_fits (z : Z) : bool := Z.abs z <? 2 ^ 1024 - 2 ^ 970.

(** [float(v)] outside a [try]: [ValueError] for text that is no number,
    [OverflowError] for an integer beyond the range of a float,
    [TypeError] for an object that is no number at all. *)
Definition float_or_raise (L : PyLib) (v : value) : res Q :=
  match v with
  | VInt z => if float_fits z then Ret (inject_Z z) else Raise OverflowError
  | _ =>
      match py_float L v with
      | Some q => Ret q
      | None => Raise match v with
                      | VStr _ => ValueError
                      | _ => TypeError
                      end
      end
  end.

(** The lists and counters that the loop of [format_results] fills. *)
Record tally : Type := mktally {
  alerts : list value;
  alerts_count : Z;
  conditions : list value;
  conditions_count : Z
}.

(** One turn of the loop over [validation_results.values()]. *)
Definition tally_step (t : tally) (rule : verdict) : tally :=
  match v_status rule with
  | ALERT =>
      mktally (alerts t ++ [VDict [("message", message rule)]])
        (alerts_count t + 1) (conditions t) (conditions_count t)
  | CONDITION =>
      mktally (alerts t) (alerts_count t)
        (conditions t ++ [VDict [("message", message rule)]])
        (conditions_count t + 1)
  | _ => t
  end.

Definition tally_all (validation_results : results) : tally :=
  fold_left tally_step (map snd validation_results) (mktally [] 0 [] 0).

(** [LPPValidator.format_results(los_data, validation_results)]: the dict
    literal is evaluated entry by entry, then the loop fills the lists and
    the counters, and [total_checks] is summed. *)
Definition format_results (L : PyLib) (fields : value) (los_data : value)
    (validation_results : results) : res value :=
  let ctx := [("los", los_data)] in
  loan_id <- resolve fields ctx "los" "loan_id" ;;
  first_name <- resolve fields ctx "los" "borrower_first_name" ;;
  middle_name <- resolve fields ctx "los" "borrower_middle_name" ;;
  last_name <- resolve fields ctx "los" "borrower_last_name" ;;
  application_date <- resolve fields ctx "los" "application_date" ;;
  program <- resolve fields ctx "los" "loan_program" ;;
  closing_date <- resolve fields ctx "los" "closing_date" ;;
  price <- resolve fields ctx "los" "purchase_price" ;;
  purchase_price <- float_or_raise L (py_or price (VInt 0)) ;;
  amount <- resolve fields ctx "los" "loan_amount" ;;
  loan_amount <- float_or_raise L (py_or amount (VInt 0)) ;;
  le_due_date <- resolve fields ctx "los" "le_due_date" ;;
  let t := tally_all validation_results in
  Ret (VDict
         [("loan_id", loan_id);
          ("borrower",
           VDict [("names", VList [first_name; middle_name; last_name])]);
          ("loan_details",
           VDict [("application_date", application_date);
                  ("program", program);
                  ("closing_date", closing_date);
                  ("purchase_price", VFloat purchase_price);
                  ("loan_amount", VFloat loan_amount);
                  ("le_due_date", le_due_date);
                  ("action_summary",
                   VDict [("total_checks",
                           VInt (alerts_count t + 0 + conditions_count t));
                          ("alerts_count", VInt (alerts_count t));
                          ("updates_count", VInt 0);
                          ("conditions_count", VInt (conditions_count t))])]);
          ("alerts", VList (alerts t));
          ("los_updates", VList []);
          ("conditions", VList (conditions t))]).

(** [d[k1][k2]...] on nested mappings, [None] where a key is missing. *)
Fixpoint at_path (v : value) (keys : list string) : option value :=
  match keys with
  | [] => Some v
  | k :: rest =>
      match v with
      | VDict d =>
          match dict_get d k with
          | Some next => at_path next rest
          | None => None
          end
      | _ => None
      end
  end.

(** [datetime.isoformat()] of a datetime at midnight. *)
Definition pad (width : nat) (z : Z) : string :=
  let s := str_of_Z z in
  String.concat "" (repeat "0" (width - String.length s)) ++ s.

Definition plain_isoformat (d : datetime) : string :=
  pad 4 (year d) ++ "-" ++ pad 2 (month d) ++ "-" ++ pad 2 (day d)
  ++ "T00:00:00".

(** *** Verdicts of the validators *)

(** The statuses that the code of a validator can return. *)
Definition may_return (v : validator) (s : status) : bool :=
  match v, s with
  | _, PASS => true
  | (HomebuyerProgramValidator | HomebuyerLTVValidator), CONDITION => true
  | _, CONDITION => false
  | (HomebuyerProgramValidator | HomebuyerLTVValidator), ALERT => false
  | _, ALERT => true
  | (LTVValidator | InvestmentValidator | GiftValidator
    | LienPayoffValidator | HomebuyerProgramValidator), NOT_APPLICABLE => false
  | _, NOT_APPLICABLE => true
  end.

(** What every verdict of a validator satisfies: it carries the rule's
    identifier, a status the validator can return, and the message that
    goes with the status. *)
Definition verdict_facts (v : validator) (rule : dict) (r : verdict) : Prop :=
  rule_id r = dict_get_default rule "id" VNone
  /\ may_return v (v_status r) = true
  /\ match v_status r with
     | PASS | NOT_APPLICABLE => message r = VStr ""
     | ALERT =>
         match v with
         | CashoutSeasoningValidator =>
             message r = VStr not_reported_message
             \/ message r = VStr seasoning_message
         | _ => message r = dict_get_default rule "alert_message" (VStr "")
         end
     | CONDITION =>
         message r = dict_get_default rule "condition_message" (VStr "")
     end.

(** *** Well-formed rules *)

Definition is_number (v : value) : bool :=
  match num_of v with
  | Some _ => true
  | None => false
  end.

(** A mapping all of whose values are numbers. *)
Definition numeric_map (v : value) : bool :=
  match v with
  | VDict d => forallb (fun kv => is_number (snd kv)) d
  | _ => false
  end.

(** The parameters and the thresholds of a rule, where it has any, are
    mappings of numbers. *)
Definition rule_numeric (rule : dict) : bool :=
  numeric_map (dict_get_default rule "params" (VDict []))
  && numeric_map (dict_get_default rule "thresholds" (VDict [])).

(** The credit-report section is absent or a mapping, and its tradelines
    are absent, one mapping, or a sequence of mappings. *)
Definition credit_ok (context : dict) : bool :=
  match py_get (dict_get_default context "credit_report" (VDict []))
          "Tradelines" VNone with
  | Ret raw => tradelines_wf raw
  | Raise _ => false
  end.

(** A trigger the matcher can read: a mapping whose field keys come with
    lists and whose key ["or"] comes with a list of such mappings.  What
    follows the key ["or"] is never read. *)
Fixpoint trigger_wf (trigger : value) : bool :=
  match trigger with
  | VDict items =>
      (fix keys_wf (its : list (string * value)) : bool :=
         match its with
         | [] => true
         | (key, expected_list) :: rest =>
             if (key =? "or")%string then
               match expected_list with
               | VList subs => forallb trigger_wf subs
               | _ => false
               end
             else
               match expected_list with
               | VList _ => keys_wf rest
               | _ => false
               end
         end) items
  | _ => false
  end.

(** [hash(v)] does not raise. *)
Definition hashable (v : value) : bool :=
  match v with
  | VList _ | VDict _ => false
  | _ => true
  end.

(** A rule definition as the configuration promises it: a validator name,
    a hashable identifier, a readable trigger where there is one, and
    numbers as parameters and thresholds. *)
Definition rule_wf (rule : dict) : bool :=
  match dict_get rule "validator", dict_get rule "id" with
  | Some name, Some id =>
      hashable name && hashable id
      && trigger_wf (dict_get_default rule "trigger" (VDict []))
      && rule_numeric rule
  | _, _ => false
  end.


(** A loan record as [get_los_by_loanid] returns it. *)
Definition sample_los : value :=
  VDict [("loan_id", VStr "HML-450321");
         ("loan", VDict [("ltv", VFloat 0.95); ("dti", VStr "41.5")]);
         ("loan_purpose", VStr "Refinance");
         ("estimated_closing_date", VStr "2025-12-31");
         ("liabilities", VDict [("account_number", VStr "1234567890");
                                ("name", VStr "ABC BANK")]);
         ("subject", VDict [("street", VStr "12 Main St.");
                            ("city", VStr "Austin");
                            ("state", VStr "TX")])].

Definition status_eqb (a b : status) : bool :=
  match a, b with
  | PASS, PASS | ALERT, ALERT | CONDITION, CONDITION
  | NOT_APPLICABLE, NOT_APPLICABLE => true
  | _, _ => false
  end.

(** The entries [{"message": m}] of the verdicts of a given status, in the
    order of the mapping. *)
Definition messages_with (s : status) (validation_results : results)
    : list value :=
  map (fun kv => VDict [("message", message (snd kv))])
    (filter (fun kv => status_eqb (v_status (snd kv)) s) validation_results).

(** What [float(v or 0)] makes of an amount [v]: no error for a falsy
    value, a bool, a float, an integer within the range of a float and
    numeric text; [OverflowError] for an integer beyond that range,
    [ValueError] for other text, [TypeError] for any other object. *)
Definition price_error (L : PyLib) (v : value) : option exn :=
  if negb (truthy v) then None
  else match v with
       | VBool _ | VFloat _ => None
       | VInt z => if float_fits z then None else Some OverflowError
       | VStr s =>
           match float_of_str L s with
           | Some _ => None
           | None => Some ValueError
           end
       | _ => Some TypeError
       end.

(** The verdicts of one evaluation, as [format_results] receives them. *)
Definition sample_results : results :=
  [(VStr "R-LTV",
    mkverdict (VStr "R-LTV") ALERT (VStr "LTV above the limit") []);
   (VStr "R-DTI", mkverdict (VStr "R-DTI") PASS (VStr "") []);
   (VStr "R-HB",
    mkverdict (VStr "R-HB") CONDITION (VStr "Certificate required") []);
   (VStr "R-FRAUD", mkverdict (VStr "R-FRAUD") NOT_APPLICABLE (VStr "") []);
   (VStr "R-GIFT", mkverdict (VStr "R-GIFT") ALERT (VStr "Gift funds") [])].

(** *** Normalized text *)

(** A lower-case letter, a digit or white space. *)
Definition clean_char (c : ascii) : bool :=
  is_lower c || is_digit c || isspace c.

Fixpoint all_chars (p : ascii -> bool) (s : string) : bool :=
  match s with
  | EmptyString => true
  | String c r => p c && all_chars p r
  end.

(** The text neither starts nor ends with white space. *)
Definition trimmed (s : string) : bool := (strip s =? s)%string.

(** The first character, if any, is no white space. *)
Definition starts_clean (s : string) : bool :=
  match s with
  | EmptyString => true
  | String c _ => negb (isspace c)
  end.

(** [x] exceeds the threshold [t]: the percent-coerced value is above the
    number, and there is no excess where either is missing. *)
Definition exceeds (L : PyLib) (x t : value) : bool :=
  match to_pct L x, num_of t with
  | Some l, Some q => negb (Qle_bool l q)
  | _, _ => false
  end.

(** A field configuration with the fields of the report. *)
Definition report_fields : value :=
  VDict [("los",
          VDict [("loan_id", entry "loan_id" VNone);
                 ("purchase_price", entry "purchase_price" VNone);
                 ("loan_amount", entry "loan_amount" VNone)])].

(** Two rules that carry one identifier. *)
Definition dti_rule_strict : dict :=
  [("id", VStr "R-DTI"); ("validator", VStr "DTIValidator");
   ("params", VDict [("dti_limit", VInt 60)])].

(** A rule that names no validator. *)
Definition nameless_rule : dict := [("id", VStr "R-NONE")].

(** The error that tradelines of the wrong kind raise in the
    CashoutSeasoning validator, [None] for one mapping and for a list that
    is empty or starts with a mapping. *)
Definition tradelines_error (raw : value) : option exn :=
  match raw with
  | VNone | VDict _ | VList [] | VList (VDict _ :: _) => None
  | VStr _ | VList _ => Some AttributeError
  | _ => Some TypeError
  end.

(** *** Data within the conventions *)

(** ASCII text: every character is below 128. *)
Definition is_ascii (s : string) : bool :=
  all_chars (fun c => match c with
                      | Ascii _ _ _ _ _ _ _ high => negb high
                      end) s.

(** A value whose text is ASCII text and whose integers a float holds
    exactly: [str()], [float()] and [print] take such a value without
    raising, and [float()] of its integers does not round. *)
Fixpoint plain (v : value) : bool :=
  match v with
  | VInt z => Z.abs z <=? 2 ^ 53
  | VStr s => is_ascii s
  | VList l => forallb plain l
  | VDict d =>
      forallb (fun kv : string * value => is_ascii (fst kv) && plain (snd kv))
        d
  | _ => true
  end.

(** *** Dates in the supported formats *)

(** The library with another [dateutil.parser.parse].  That function fills
    the date parts which its text leaves out from the current date, so
    that it is one function of the text at each reading of the clock. *)
Definition with_dateutil (L : PyLib) (parse : string -> option datetime)
    : PyLib :=
  {| float_of_str := float_of_str L;
     int_of_str := int_of_str L;
     str_other := str_other L;
     strptime := strptime L;
     dateutil_parse := parse;
     token_set_ratio := token_set_ratio L |}.

(** [parse_date] reads the value without [dateutil]: it is falsy, a
    datetime, or text in one of the [SUPPORTED_FORMATS]. *)
Definition by_format (L : PyLib) (v : value) : bool :=
  negb (truthy v)
  || match v with
     | VDate _ => true
     | _ =>
         match try_formats L (strip (py_str L v)) SUPPORTED_FORMATS with
         | Some _ => true
         | None => false
         end
     end.

Definition resolved_by_format (L : PyLib) (fields : value) (context : dict)
    (section name : string) : bool :=
  match resolve fields context section name with
  | Ret v => by_format L v
  | Raise _ => true
  end.

(** Every date that the validators parse is read without [dateutil]: the
    estimated closing date, the chain-of-title, prior-sale and
    fraud-recorded dates, and the [Date_Opened] of every tradeline. *)
Definition dates_by_format (L : PyLib) (fields : value) (context : dict)
    : bool :=
  resolved_by_format L fields context "los" "estimated_closing_date"
  && resolved_by_format L fields context "title" "chain_title_date"
  && resolved_by_format L fields context "appraisal" "prior_sale_date"
  && resolved_by_format L fields context "drive_report" "fraud_recorded_date"
  && match py_get (dict_get_default context "credit_report" (VDict []))
             "Tradelines" VNone with
     | Ret raw =>
         forallb (fun t => by_format L (date_opened_of t)) (tradelines_of raw)
     | Raise _ => true
     end.

(** *** Ratios given as percentages *)

(** The number that [x] reads as is above the threshold [t]; nothing is
    above a missing threshold, and no value without a number is above
    any. *)
Definition above (L : PyLib) (x t : value) : bool :=
  match py_float L x, num_of t with
  | Some v, Some q => negb (Qle_bool v q)
  | _, _ => false
  end.

(** A loan record whose ratio is given as a percentage. *)
Definition percent_context : dict :=
  [("los", VDict [("loan", VDict [("ltv", VStr "95.5")])])].

(** [to_pct] does not multiply: the value is no number, or a number
    above 1, which is taken as a percentage already. *)
Definition unscaled (L : PyLib) (x : value) : bool :=
  match py_float L x with
  | Some v => negb (Qle_bool v 1)
  | None => true
  end.

(** * Properties *)

Example parse_date_iso :
  parse_date plain_lib (VStr "2025-12-31") = Some (mkdate 2025 12 31).
Proof. reflexivity. Qed.

Example parse_date_us :
  parse_date plain_lib (VStr " 2/29/2024 ") = Some (mkdate 2024 2 29).
Proof. reflexivity. Qed.

Example parse_date_garbage :
  parse_date plain_lib (VStr "garbage") = None.
Proof. reflexivity. Qed.

Example plain_float_95 : plain_float "0.95" = Some (Qmake 95 100).
Proof. reflexivity. Qed.

(** ** Field resolver *)

Lemma dict_get_forallb (P : value -> bool) (d : dict) (k : string) (v : value) :
  forallb (fun kv => P (snd kv)) d = true ->
  dict_get d k = Some v -> P v = true.
Proof.
  induction d as [|[k' v'] d IH]; simpl; intros Hall Hget.
  - discriminate.
  - apply andb_true_iff in Hall as [Hv Hrest].
    destruct (k' =? k)%string.
    + now inversion Hget; subst.
    + now apply IH.
Qed.

Lemma walk_misses (cur : value) (parts : list string) (default : value) :
  misses cur parts -> walk cur parts default = default.
Proof.
  induction 1 as [cur part rest Hcur | d part rest Hkey
                 | d part rest next Hkey Hmiss IH]; simpl.
  - destruct cur; try reflexivity; discriminate.
  - now rewrite Hkey.
  - now rewrite Hkey.
Qed.

Lemma walk_reaches (cur : value) (parts : list string) (v default : value) :
  reaches cur parts v ->
  walk cur parts default = if is_none v then default else v.
Proof.
  induction 1 as [v | d part rest next v Hkey Hreach IH]; simpl.
  - reflexivity.
  - now rewrite Hkey.
Qed.

(** Every walk either reaches a value or misses: the two cases of the
    specification cover all contexts. *)
Lemma reaches_or_misses (cur : value) (parts : list string) :
  (exists v, reaches cur parts v) \/ misses cur parts.
Proof.
  revert cur; induction parts as [|part rest IH]; intros cur.
  - left; exists cur; constructor.
  - destruct cur as [| | | | | | |d];
      try (right; now apply misses_not_mapping).
    destruct (dict_get d part) as [next|] eqn:Hkey.
    + destruct (IH next) as [[v Hv]|Hm].
      * left; exists v; econstructor; eassumption.
      * right; eapply misses_later; eassumption.
    + right; now apply misses_no_key.
Qed.

(** With a readable configuration, [resolve] is [walk] on the configured
    path, or [None] where no entry is configured. *)
Lemma resolve_wf (fields : value) (context : dict) (section name : string) :
  fields_wf fields = true ->
  resolve fields context section name
  = Ret (resolved fields context section name).
Proof.
  intros Hwf. unfold resolve, resolved, field_config.
  destruct fields as [| | | | | | |f]; try discriminate.
  simpl in Hwf. simpl. unfold dict_get_default.
  destruct (dict_get f section) as [sec|] eqn:Hsec; simpl.
  - pose proof (dict_get_forallb section_wf f section sec Hwf Hsec) as Hs.
    destruct sec as [| | | | | | |sd]; try discriminate.
    simpl in Hs. simpl. unfold dict_get_default.
    destruct (dict_get sd name) as [cfg|] eqn:Hcfg; simpl.
    + pose proof (dict_get_forallb entry_wf sd name cfg Hs Hcfg) as Hc.
      unfold entry_wf in Hc.
      destruct (truthy cfg) eqn:Ht; simpl in *.
      * destruct cfg as [| | | | | | |cd]; try discriminate.
        simpl. unfold dict_get_default.
        destruct (dict_get cd "path") as [[| | | |p| | |]|]; try discriminate.
        reflexivity.
      * destruct cfg as [| | | | | | |cd]; try reflexivity.
        destruct cd; [reflexivity | discriminate].
    + reflexivity.
  - reflexivity.
Qed.

(** C2.  For a readable field configuration and every context, section and
    field name, [resolve] returns and never raises; it returns [None] when
    no path configuration exists for the pair; otherwise it returns the
    configured default when the walk along the dotted path misses (the
    current value is not a mapping or lacks the key at some segment) and
    when the walk reaches a present [None], and the value reached in the
    remaining case. *)
Theorem resolve_spec (fields : value) (context : dict) (section name : string) :
  fields_wf fields = true ->
  (exists v, resolve fields context section name = Ret v)
  /\ match field_config fields section name with
     | None => resolve fields context section name = Ret VNone
     | Some (path, default) =>
         let cur := dict_get_default context section VNone in
         let parts := split_on "." path in
         (misses cur parts ->
          resolve fields context section name = Ret default)
         /\ (reaches cur parts VNone ->
             resolve fields context section name = Ret default)
         /\ (forall v, reaches cur parts v -> is_none v = false ->
             resolve fields context section name = Ret v)
     end.
Proof.
  intros Hwf. rewrite (resolve_wf _ _ _ _ Hwf). unfold resolved.
  split; [eexists; reflexivity|].
  destruct (field_config fields section name) as [[path default]|].
  - cbv zeta. repeat split.
    + intros Hm. now rewrite (walk_misses _ _ _ Hm).
    + intros Hr. now rewrite (walk_reaches _ _ _ _ Hr).
    + intros v Hr Hv. rewrite (walk_reaches _ _ _ _ Hr). now rewrite Hv.
  - reflexivity.
Qed.

Lemma resolve_spec_witness :
  fields_wf sample_fields = true
  /\ resolve sample_fields sample_context "los" "loan_purpose"
     = Ret (VStr "Purchase")
  /\ resolve sample_fields sample_context "los" "ltv" = Ret (VFloat 0.95)
  /\ resolve sample_fields sample_context "los" "liabilities_name" = Ret VNone
  /\ resolve sample_fields sample_context "los" "no_such_field" = Ret VNone.
Proof.
  split; [reflexivity|].
  pose proof (resolve_spec sample_fields sample_context "los" "loan_purpose"
                eq_refl) as [_ (_ & Hnull & _)].
  pose proof (resolve_spec sample_fields sample_context "los" "ltv"
                eq_refl) as [_ (_ & _ & Hvalue)].
  pose proof (resolve_spec sample_fields sample_context "los"
                "liabilities_name" eq_refl) as [_ (Hmiss & _)].
  pose proof (resolve_spec sample_fields sample_context "los" "no_such_field"
                eq_refl) as [_ Hnone].
  split; [|split; [|split]].
  - apply Hnull. eapply reaches_step; [reflexivity | apply reaches_here].
  - apply Hvalue; [|reflexivity].
    eapply reaches_step; [reflexivity|].
    eapply reaches_step; [reflexivity | apply reaches_here].
  - apply Hmiss. now apply misses_no_key.
  - exact Hnone.
Defined.

(** ** Percent coercion *)





(** ** Month differences *)

(** The calendar-month distance between two dates. *)
Lemma months_apart_sym (a b : datetime) :
  Z.abs ((year b - year a) * 12 + (month b - month a))
  = Z.abs ((year a - year b) * 12 + (month a - month b)).
Proof. lia. Qed.

Lemma parse_date_none (L : PyLib) : parse_date L VNone = None.
Proof. reflexivity. Qed.

Lemma months_between_dates (L : PyLib) (now : datetime) (d1 d2 : value)
    (a b : datetime) :
  parse_date L d1 = Some a ->
  (if is_none d2 then Some now else parse_date L d2) = Some b ->
  months_between L now d1 d2
  = Ret (Z.abs ((year b - year a) * 12 + (month b - month a))).
Proof.
  intros Ha Hb. unfold months_between. now rewrite Ha, Hb.
Qed.

(** C6, as it holds.  [months_between d1 d2] raises exactly when [d1] fails
    to parse as a date, or [d2] is not [None] and fails to parse; a [None]
    as [d2] stands for the current time and is not an error.  Otherwise the
    result is [abs((y2 - y1) * 12 + (m2 - m1)))], the day of the month
    playing no part: between two inputs that are not [None] the function is
    symmetric (in its error as in its result), and two dates of one
    calendar month are 0 months apart. *)
Theorem months_between_spec (L : PyLib) (now : datetime) (d1 d2 : value) :
  (months_between L now d1 d2 = Raise ValueError <->
   parse_date L d1 = None \/ (is_none d2 = false /\ parse_date L d2 = None))
  /\ (forall a b : datetime,
        parse_date L d1 = Some a -> is_none d2 = false ->
        parse_date L d2 = Some b ->
        months_between L now d1 d2
        = Ret (Z.abs ((year b - year a) * 12 + (month b - month a))))
  /\ (forall a : datetime,
        parse_date L d1 = Some a -> is_none d2 = true ->
        months_between L now d1 d2
        = Ret (Z.abs ((year now - year a) * 12 + (month now - month a))))
  /\ (is_none d1 = false -> is_none d2 = false ->
      months_between L now d1 d2 = months_between L now d2 d1)
  /\ (forall a b : datetime,
        parse_date L d1 = Some a -> is_none d2 = false ->
        parse_date L d2 = Some b ->
        year a = year b -> month a = month b ->
        months_between L now d1 d2 = Ret 0).
Proof.
  split; [|split; [|split; [|split]]].
  - unfold months_between.
    destruct (parse_date L d1) as [a|]; [|split; auto].
    destruct (is_none d2).
    + split; [discriminate | intros [H|[H _]]; discriminate].
    + destruct (parse_date L d2) as [b|].
      * split; [discriminate | intros [H|[_ H]]; discriminate].
      * split; auto.
  - intros a b Ha Hn Hb. apply months_between_dates; [exact Ha|].
    now rewrite Hn.
  - intros a Ha Hn. apply months_between_dates; [exact Ha|].
    now rewrite Hn.
  - intros H1 H2. unfold months_between. rewrite H1, H2.
    destruct (parse_date L d1) as [a|], (parse_date L d2) as [b|];
      try reflexivity.
    f_equal. apply months_apart_sym.
  - intros a b Ha Hn Hb Hy Hm.
    rewrite (months_between_dates L now d1 d2 a b Ha); [|now rewrite Hn].
    f_equal. lia.
Qed.

(** C6, as stated, fails when the second input is [None]: it does not
    parse as a date, yet no error is raised, the clock being read instead;
    and with the two inputs exchanged the call raises, so the function is
    not symmetric there. *)
Lemma months_between_none_is_now :
  parse_date plain_lib VNone = None
  /\ months_between plain_lib (mkdate 2025 6 15) (VStr "2025-01-10") VNone
     = Ret 5
  /\ months_between plain_lib (mkdate 2025 6 15) VNone (VStr "2025-01-10")
     = Raise ValueError.
Proof. repeat split. Qed.

Lemma months_between_spec_witness :
  months_between plain_lib (mkdate 2025 6 15)
    (VStr "2024-01-15") (VStr "2024-04-20") = Ret 3
  /\ months_between plain_lib (mkdate 2025 6 15)
       (VStr "2024-04-20") (VStr "2024-01-15")
     = months_between plain_lib (mkdate 2025 6 15)
         (VStr "2024-01-15") (VStr "2024-04-20")
  /\ months_between plain_lib (mkdate 2025 6 15)
       (VStr "2024-01-15") (VStr "garbage") = Raise ValueError.
Proof.
  pose proof (months_between_spec plain_lib (mkdate 2025 6 15)
                (VStr "2024-01-15") (VStr "2024-04-20"))
    as (_ & Hvalue & _).
  pose proof (months_between_spec plain_lib (mkdate 2025 6 15)
                (VStr "2024-04-20") (VStr "2024-01-15"))
    as (_ & _ & _ & Hsym & _).
  pose proof (months_between_spec plain_lib (mkdate 2025 6 15)
                (VStr "2024-01-15") (VStr "garbage"))
    as (Hraise & _).
  split; [|split].
  - apply (Hvalue (mkdate 2024 1 15) (mkdate 2024 4 20)); reflexivity.
  - apply Hsym; reflexivity.
  - apply Hraise. right. split; reflexivity.
Defined.

Example months_between_same_month :
  months_between plain_lib (mkdate 2025 6 15)
    (VStr "2024-03-01") (VStr "03/31/2024") = Ret 0.
Proof. reflexivity. Qed.

(** ** Trigger matcher *)

(** The empty trigger matches, whatever the context. *)
Lemma match_trigger_empty (L : PyLib) (fields : value) (context : dict) :
  _match_trigger L fields context (VDict []) = Ret true.
Proof. reflexivity. Qed.

(** On the key ["or"] the loop over the keys ends with the disjunction. *)
Lemma match_trigger_or (L : PyLib) (fields : value) (context : dict)
    (subs : list value) (after : dict) :
  _match_trigger L fields context (VDict (("or", VList subs) :: after))
  = any_sub_trigger L fields context subs.
Proof.
  induction subs as [|x rest IH]; [reflexivity|].
  simpl. destruct (_match_trigger L fields context x) as [[|]|e];
    simpl; try reflexivity.
  exact IH.
Qed.

(** On a field key the loop either fails or goes on to the next key. *)
Lemma match_trigger_field (L : PyLib) (fields : value) (context : dict)
    (key : string) (exps : list value) (rest : dict) :
  (key =? "or")%string = false ->
  _match_trigger L fields context (VDict ((key, VList exps) :: rest))
  = (actual <- resolve fields context "los" key ;;
     if negb (existsb (_match_value L actual) exps) then Ret false
     else _match_trigger L fields context (VDict rest)).
Proof.
  intros Hkey. simpl. rewrite Hkey. reflexivity.
Qed.

(** C1, on the code.  For every trigger mapping that carries the key
    ["or"], after field keys that all come with lists: the matcher returns
    the conjunction of the field keys before ["or"] and the disjunction of
    the sub-triggers, and nothing of what follows ["or"] in the mapping
    enters the result.  A key after ["or"] that does not match is never
    looked at. *)
Theorem or_key_ends_the_loop (L : PyLib) (fields : value) (context : dict)
    (before : list (string * list value)) (subs : list value) (after : dict) :
  fields_wf fields = true ->
  forallb (fun kv => negb (fst kv =? "or")%string) before = true ->
  _match_trigger L fields context (trigger_with_or before subs after)
  = if all_keys_match L fields context before
    then any_sub_trigger L fields context subs
    else Ret false.
Proof.
  intros Hwf. unfold trigger_with_or, all_keys_match.
  induction before as [|[key exps] before IH]; intros Hkeys.
  - apply match_trigger_or.
  - cbn [forallb fst] in Hkeys. apply andb_true_iff in Hkeys as [Hkey Hrest].
    apply negb_true_iff in Hkey.
    cbn [map app fst snd forallb].
    rewrite (match_trigger_field L fields context key exps _ Hkey).
    rewrite (resolve_wf fields context "los" key Hwf). simpl bind.
    destruct (existsb _ exps); cbn [negb andb]; [now apply IH | reflexivity].
Qed.

(** X2.  For a trigger mapping without the key ["or"], whose keys all come
    with lists, the matcher returns, and it succeeds exactly when every key
    matches: the field of each key, resolved from the ["los"] section,
    matches at least one entry of its expected list. *)
Theorem trigger_without_or_is_conjunction (L : PyLib) (fields : value)
    (context : dict) (keys : list (string * list value)) :
  fields_wf fields = true ->
  forallb (fun kv => negb (fst kv =? "or")%string) keys = true ->
  _match_trigger L fields context
    (VDict (map (fun kv => (fst kv, VList (snd kv))) keys))
  = Ret (all_keys_match L fields context keys).
Proof.
  intros Hwf. unfold all_keys_match.
  induction keys as [|[key exps] keys IH]; intros Hkeys; [reflexivity|].
  cbn [forallb fst] in Hkeys. apply andb_true_iff in Hkeys as [Hkey Hrest].
  apply negb_true_iff in Hkey.
  cbn [map fst snd forallb].
  rewrite (match_trigger_field L fields context key exps _ Hkey).
  rewrite (resolve_wf fields context "los" key Hwf). simpl bind.
  destruct (existsb _ exps); cbn [negb andb]; [now apply IH | reflexivity].
Qed.

Lemma trigger_without_or_witness :
  _match_trigger plain_lib sample_fields purchase_context
    (VDict [("loan_purpose", VList [VStr "Refinance"; VStr " purchase "]);
            ("dti", VList [VStr "GT50"])])
  = Ret true.
Proof.
  exact (trigger_without_or_is_conjunction plain_lib sample_fields
           purchase_context
           [("loan_purpose", [VStr "Refinance"; VStr " purchase "]);
            ("dti", [VStr "GT50"])]
           eq_refl eq_refl).
Defined.

(** The failing input: ["or"] first, then a key whose field, ["Purchase"],
    matches no entry of its expected list; the trigger matches. *)
Lemma or_key_ends_the_loop_witness :
  _match_trigger plain_lib sample_fields purchase_context or_first_trigger
  = Ret true.
Proof.
  exact (or_key_ends_the_loop plain_lib sample_fields purchase_context
           [] [VDict []] [("loan_purpose", VList [VStr "Refinance"])]
           eq_refl eq_refl).
Defined.

(** The same mapping in its two orders: the result depends on the order of
    the keys. *)
Example or_key_order (L : PyLib) :
  resolve sample_fields purchase_context "los" "loan_purpose"
  = Ret (VStr "Purchase")
  /\ existsb (_match_value L (VStr "Purchase")) [VStr "Refinance"] = false
  /\ _match_trigger L sample_fields purchase_context or_first_trigger
     = Ret true
  /\ _match_trigger L sample_fields purchase_context or_last_trigger
     = Ret false.
Proof. repeat split. Qed.

(** ** Rule dispatcher *)

Lemma evaluate_rule_unregistered (L : PyLib) (now : datetime) (fields : value)
    (context : dict) (acc : results) (rule : dict) :
  unregistered rule = true ->
  evaluate_rule L now fields context acc rule = Ret acc.
Proof.
  unfold unregistered, evaluate_rule, dict_item.
  destruct (dict_get rule "validator") as [name|]; [|discriminate].
  simpl. destruct (validators_get name) as [[v|]|e]; try discriminate.
  reflexivity.
Qed.

(** What a step of the loop can return: the mapping unchanged for an
    unregistered rule, or one assignment under the rule's identifier. *)
Lemma evaluate_rule_returns (L : PyLib) (now : datetime) (fields : value)
    (context : dict) (acc acc' : results) (rule : dict) :
  evaluate_rule L now fields context acc rule = Ret acc' ->
  (unregistered rule = true /\ acc' = acc)
  \/ (unregistered rule = false
      /\ exists id r, dict_get rule "id" = Some id
                      /\ acc' = results_put acc id r).
Proof.
  unfold unregistered, evaluate_rule, dict_item.
  destruct (dict_get rule "validator") as [name|]; [|discriminate].
  simpl. destruct (validators_get name) as [[v|]|e]; simpl;
    [| intros H; inversion H; now left | discriminate].
  intros H. right. split; [reflexivity|].
  destruct (_match_trigger L fields context _) as [applicable|e];
    [|discriminate].
  simpl in H.
  assert (Hset : forall id r, results_set acc id r = Ret acc' ->
                              acc' = results_put acc id r).
  { intros id r. unfold results_set.
    destruct id; intros E; inversion E; reflexivity. }
  destruct applicable; simpl in H.
  - destruct (validator_evaluate L now fields v rule context) as [r|e];
      [|discriminate].
    simpl in H. destruct (dict_get rule "id") as [id|]; [|discriminate].
    simpl in H. exists id, r. split; [reflexivity | now apply Hset].
  - destruct (dict_get rule "id") as [id|]; [|discriminate].
    simpl in H. exists id, (not_applicable_result rule []).
    split; [reflexivity | exact (Hset _ _ H)].
Qed.

Lemma evaluate_loop_filter (L : PyLib) (now : datetime) (fields : value)
    (context : dict) (rules : list dict) (acc : results) :
  evaluate_loop L now fields context acc rules
  = evaluate_loop L now fields context acc
      (filter (fun r => negb (unregistered r)) rules).
Proof.
  revert acc; induction rules as [|rule rest IH]; intros acc; simpl.
  - reflexivity.
  - destruct (unregistered rule) eqn:Hu; simpl.
    + rewrite (evaluate_rule_unregistered _ _ _ _ _ _ Hu). simpl. apply IH.
    + destruct (evaluate_rule L now fields context acc rule); simpl;
        [apply IH | reflexivity].
Qed.

Lemma no_key_get (id : value) (r : results) :
  no_key id r -> results_get r id = None.
Proof.
  induction 1 as [|[k v] r Hk _ IH]; simpl; [reflexivity|].
  simpl in Hk. now rewrite Hk.
Qed.

Lemma no_key_put (id k : value) (v : verdict) (r : results) :
  key_eqb k id = false -> no_key id r -> no_key id (results_put r k v).
Proof.
  intros Hk. induction 1 as [|[k0 v0] r H0 Hr IH]; simpl.
  - repeat constructor. exact Hk.
  - destruct (key_eqb k0 k); constructor; auto.
Qed.

Lemma evaluate_loop_no_key (L : PyLib) (now : datetime) (fields : value)
    (context : dict) (id : value) (rules : list dict) (acc out : results) :
  (forall r id', In r rules -> unregistered r = false ->
                 dict_get r "id" = Some id' -> key_eqb id' id = false) ->
  no_key id acc ->
  evaluate_loop L now fields context acc rules = Ret out ->
  no_key id out.
Proof.
  revert acc; induction rules as [|rule rest IH]; intros acc Hids Hacc; simpl.
  - intros H; inversion H; subst; exact Hacc.
  - destruct (evaluate_rule L now fields context acc rule) as [acc'|e] eqn:Hstep;
      [|discriminate].
    simpl. apply IH.
    + intros r id' Hin. apply Hids. now right.
    + apply evaluate_rule_returns in Hstep
        as [[_ ->]|[Hreg (id' & r & Hid & ->)]]; [exact Hacc|].
      apply no_key_put; [|exact Hacc].
      apply (Hids rule id'); [now left | exact Hreg | exact Hid].
Qed.

(** C3.  Take a rule of the rule set whose validator name has no
    registered implementation, rule identifiers being unique (no rule with
    a registered validator carries the same identifier).  Then the mapping
    that [evaluate] returns has no entry under that rule's identifier, and
    it is the mapping returned for the rule set without the unregistered
    rules: all other rules are unaffected. *)
Theorem unregistered_rule_has_no_verdict (L : PyLib) (now : datetime)
    (fields : value) (rules : list dict) (context : dict)
    (rule : dict) (id : value) (out : results) :
  In rule rules ->
  unregistered rule = true ->
  dict_get rule "id" = Some id ->
  (forall r id', In r rules -> unregistered r = false ->
                 dict_get r "id" = Some id' -> key_eqb id' id = false) ->
  evaluate L now fields rules context = Ret out ->
  results_get out id = None
  /\ evaluate L now fields (filter (fun r => negb (unregistered r)) rules)
       context = Ret out.
Proof.
  intros _ _ _ Hids Hout. split.
  - apply no_key_get.
    apply (evaluate_loop_no_key L now fields context id rules [] out Hids);
      [constructor | exact Hout].
  - unfold evaluate in *. now rewrite <- evaluate_loop_filter.
Qed.

Lemma unregistered_rule_witness :
  results_get
    [(VStr "R-DTI",
      mkverdict (VStr "R-DTI") ALERT (VStr "DTI above the limit")
        [("dti", VStr "55"); ("limit", VInt 50)])]
    (VStr "R-TYPO") = None
  /\ evaluate plain_lib (mkdate 2025 6 15) sample_fields
       (filter (fun r => negb (unregistered r)) [dti_rule; typo_rule])
       purchase_context
     = Ret [(VStr "R-DTI",
             mkverdict (VStr "R-DTI") ALERT (VStr "DTI above the limit")
               [("dti", VStr "55"); ("limit", VInt 50)])].
Proof.
  apply (unregistered_rule_has_no_verdict plain_lib (mkdate 2025 6 15)
           sample_fields [dti_rule; typo_rule] purchase_context typo_rule).
  - right; left; reflexivity.
  - reflexivity.
  - reflexivity.
  - intros r id' [<-|[<-|[]]] Hreg Hid.
    + inversion Hid; reflexivity.
    + discriminate Hreg.
  - reflexivity.
Defined.



Example dti_rule_alerts :
  evaluate plain_lib (mkdate 2025 6 15) sample_fields [dti_rule]
    purchase_context
  = Ret [(VStr "R-DTI",
          mkverdict (VStr "R-DTI") ALERT (VStr "DTI above the limit")
            [("dti", VStr "55"); ("limit", VInt 50)])].
Proof. reflexivity. Qed.

(** ** Fraud validator *)

Lemma normalize_string_none (L : PyLib) : normalize_string L VNone = "".
Proof. reflexivity. Qed.

(** The validator once its nine fields are resolved: the address gate, then
    the fraud date and the check of the months. *)
Lemma fraud_resolved (L : PyLib) (now : datetime) (fields : value)
    (rule context : dict)
    (est_close dr_street dr_city dr_state dr_unit
     subj_street subj_city subj_state subj_unit : value) :
  resolve fields context "los" "estimated_closing_date" = Ret est_close ->
  resolve fields context "drive_report" "drive_street" = Ret dr_street ->
  resolve fields context "drive_report" "drive_city" = Ret dr_city ->
  resolve fields context "drive_report" "drive_state" = Ret dr_state ->
  resolve fields context "drive_report" "drive_unit" = Ret dr_unit ->
  resolve fields context "los" "urla_lender_subject_street" = Ret subj_street ->
  resolve fields context "los" "urla_lender_subject_city" = Ret subj_city ->
  resolve fields context "los" "urla_lender_subject_state" = Ret subj_state ->
  resolve fields context "los" "urla_lender_subject_unit" = Ret subj_unit ->
  FraudValidator_evaluate L now fields rule context
  = if negb (normalize_string L dr_street =? normalize_string L subj_street)%string
       || negb (normalize_string L dr_city =? normalize_string L subj_city)%string
       || negb (normalize_string L dr_state =? normalize_string L subj_state)%string
       || negb (normalize_string L dr_unit =? normalize_string L subj_unit)%string
    then Ret (not_applicable_result rule [])
    else
      fraud_date <- resolve fields context "drive_report"
                      "fraud_recorded_date" ;;
      months_check L now rule fraud_date est_close "max_months"
        (fraud_details dr_street dr_city dr_state dr_unit
           subj_street subj_city subj_state subj_unit).
Proof.
  intros H0 H1 H2 H3 H4 H5 H6 H7 H8. unfold FraudValidator_evaluate.
  rewrite H0, H1, H2, H3, H4, H5, H6, H7, H8. reflexivity.
Qed.

Lemma parse_date_of_date (L : PyLib) (o : option datetime) :
  parse_date L (of_date o) = o.
Proof. now destruct o. Qed.

Lemma months_check_status (L : PyLib) (now : datetime) (rule : dict)
    (date est_close : value) (limit_key : string) (details : dict)
    (limit : value) (q : Q) :
  param rule limit_key (VInt 6) = Ret limit ->
  num_of limit = Some q ->
  exists v,
    months_check L now rule date est_close limit_key details = Ret v
    /\ v_status v = months_status L now date est_close q.
Proof.
  intros Hparam Hnum. unfold months_check, months_status.
  destruct (negb (truthy date) || negb (truthy est_close));
    [eexists; split; reflexivity|].
  unfold months_between. rewrite !parse_date_of_date.
  destruct (parse_date L date) as [d|]; [|eexists; split; reflexivity].
  assert (Hstep : forall c,
            exists v,
              (limit <- param rule limit_key (VInt 6) ;;
               below <- int_lt (months_apart d c) limit ;;
               if below then Ret (alert_result rule VNone details)
               else Ret (pass_result rule details)) = Ret v
              /\ v_status v
                 = if negb (Qle_bool q (inject_Z (months_apart d c)))
                   then ALERT else PASS).
  { intros c. rewrite Hparam. simpl. unfold int_lt, float_lt.
    rewrite Hnum. simpl.
    destruct (Qle_bool q (inject_Z (months_apart d c)));
      eexists; split; reflexivity. }
  destruct (parse_date L est_close) as [c|]; simpl; apply Hstep.
Qed.

(** C10.  When the eight address fields all resolve to [None], each
    normalizes to the empty string, the four comparisons find no
    difference, and the verdict is the one the check of the fraud and
    closing dates gives, not a [NOT_APPLICABLE] for an address mismatch:
    with a numeric [max_months] its status is [NOT_APPLICABLE] only when a
    date is empty or the fraud date does not parse, [ALERT] below
    [max_months] and [PASS] from there on. *)
Theorem fraud_null_addresses_match (L : PyLib) (now : datetime)
    (fields : value) (rule context : dict)
    (est_close fraud_date limit : value) (q : Q) :
  resolve fields context "los" "estimated_closing_date" = Ret est_close ->
  resolve fields context "drive_report" "drive_street" = Ret VNone ->
  resolve fields context "drive_report" "drive_city" = Ret VNone ->
  resolve fields context "drive_report" "drive_state" = Ret VNone ->
  resolve fields context "drive_report" "drive_unit" = Ret VNone ->
  resolve fields context "los" "urla_lender_subject_street" = Ret VNone ->
  resolve fields context "los" "urla_lender_subject_city" = Ret VNone ->
  resolve fields context "los" "urla_lender_subject_state" = Ret VNone ->
  resolve fields context "los" "urla_lender_subject_unit" = Ret VNone ->
  resolve fields context "drive_report" "fraud_recorded_date"
  = Ret fraud_date ->
  param rule "max_months" (VInt 6) = Ret limit ->
  num_of limit = Some q ->
  normalize_string L VNone = ""
  /\ FraudValidator_evaluate L now fields rule context
     = months_check L now rule fraud_date est_close "max_months"
         (fraud_details VNone VNone VNone VNone VNone VNone VNone VNone)
  /\ exists v,
       FraudValidator_evaluate L now fields rule context = Ret v
       /\ v_status v = months_status L now fraud_date est_close q.
Proof.
  intros H0 H1 H2 H3 H4 H5 H6 H7 H8 Hfraud Hparam Hnum.
  split; [reflexivity|].
  rewrite (fraud_resolved L now fields rule context _ _ _ _ _ _ _ _ _
             H0 H1 H2 H3 H4 H5 H6 H7 H8).
  simpl. rewrite Hfraud. simpl bind. split; [reflexivity|].
  now apply months_check_status with (limit := limit).
Qed.

(** The addresses are all missing, the fraud date is 2024-01-15 and the
    closing date 2024-04-20: three months, below the six of the rule, and
    the status is [ALERT]. *)
Lemma fraud_null_addresses_witness :
  normalize_string plain_lib VNone = ""
  /\ FraudValidator_evaluate plain_lib (mkdate 2025 6 15) sample_fields
       fraud_rule no_address_context
     = months_check plain_lib (mkdate 2025 6 15) fraud_rule
         (VStr "2024-01-15") (VStr "2024-04-20") "max_months"
         (fraud_details VNone VNone VNone VNone VNone VNone VNone VNone)
  /\ exists v,
       FraudValidator_evaluate plain_lib (mkdate 2025 6 15) sample_fields
         fraud_rule no_address_context = Ret v
       /\ v_status v = ALERT.
Proof.
  apply (fraud_null_addresses_match plain_lib (mkdate 2025 6 15) sample_fields
           fraud_rule no_address_context (VStr "2024-04-20")
           (VStr "2024-01-15") (VInt 6) (inject_Z 6)); reflexivity.
Defined.

Example fraud_null_addresses_alert :
  FraudValidator_evaluate plain_lib (mkdate 2025 6 15) sample_fields
    fraud_rule no_address_context
  = Ret (mkverdict (VStr "R-FRAUD") ALERT
           (VStr "Fraud recorded on the subject property")
           (fraud_details VNone VNone VNone VNone VNone VNone VNone VNone)).
Proof. reflexivity. Qed.

(** C8, on the code.  With its fields resolved and a numeric [max_months],
    the Fraud validator returns a verdict whose status is
    [NOT_APPLICABLE] when a normalized address component differs, whatever
    the dates, and otherwise the status of the check of the months:
    [NOT_APPLICABLE] when a date is empty or the fraud date does not parse,
    [ALERT] below [max_months] and [PASS] from there on.  A closing date
    that is present and does not parse is not [NOT_APPLICABLE]: the months
    are then counted up to the clock. *)
Theorem fraud_status_on_code (L : PyLib) (now : datetime) (fields : value)
    (rule context : dict)
    (est_close fraud_date dr_street dr_city dr_state dr_unit
     subj_street subj_city subj_state subj_unit limit : value) (q : Q) :
  resolve fields context "los" "estimated_closing_date" = Ret est_close ->
  resolve fields context "drive_report" "drive_street" = Ret dr_street ->
  resolve fields context "drive_report" "drive_city" = Ret dr_city ->
  resolve fields context "drive_report" "drive_state" = Ret dr_state ->
  resolve fields context "drive_report" "drive_unit" = Ret dr_unit ->
  resolve fields context "los" "urla_lender_subject_street" = Ret subj_street ->
  resolve fields context "los" "urla_lender_subject_city" = Ret subj_city ->
  resolve fields context "los" "urla_lender_subject_state" = Ret subj_state ->
  resolve fields context "los" "urla_lender_subject_unit" = Ret subj_unit ->
  resolve fields context "drive_report" "fraud_recorded_date"
  = Ret fraud_date ->
  param rule "max_months" (VInt 6) = Ret limit ->
  num_of limit = Some q ->
  exists v,
    FraudValidator_evaluate L now fields rule context = Ret v
    /\ v_status v
       = if (normalize_string L dr_street =? normalize_string L subj_street)%string
            && (normalize_string L dr_city =? normalize_string L subj_city)%string
            && (normalize_string L dr_state =? normalize_string L subj_state)%string
            && (normalize_string L dr_unit =? normalize_string L subj_unit)%string
         then months_status L now fraud_date est_close q
         else NOT_APPLICABLE.
Proof.
  intros H0 H1 H2 H3 H4 H5 H6 H7 H8 Hfraud Hparam Hnum.
  rewrite (fraud_resolved L now fields rule context _ _ _ _ _ _ _ _ _
             H0 H1 H2 H3 H4 H5 H6 H7 H8).
  rewrite Hfraud. simpl bind.
  destruct (normalize_string L dr_street =? normalize_string L subj_street)%string;
    [|eexists; split; reflexivity].
  destruct (normalize_string L dr_city =? normalize_string L subj_city)%string;
    [|eexists; split; reflexivity].
  destruct (normalize_string L dr_state =? normalize_string L subj_state)%string;
    [|eexists; split; reflexivity].
  destruct (normalize_string L dr_unit =? normalize_string L subj_unit)%string;
    [|eexists; split; reflexivity].
  simpl. now apply months_check_status with (limit := limit).
Qed.

(** The failing input: the addresses agree, the fraud date is 2024-01-15,
    the closing date is the text ["garbage"]; read on 2024-03-01 the
    verdict is [ALERT], two months being below six. *)
Lemma fraud_status_garbage_close :
  exists v,
    FraudValidator_evaluate plain_lib (mkdate 2024 3 1) sample_fields
      fraud_rule garbage_close_context = Ret v
    /\ v_status v = ALERT.
Proof.
  apply (fraud_status_on_code plain_lib (mkdate 2024 3 1) sample_fields
           fraud_rule garbage_close_context
           (VStr "garbage") (VStr "2024-01-15")
           (VStr "12 MAIN ST") (VStr "austin") (VStr "tx") (VStr "")
           (VStr "12 Main St.") (VStr "Austin") (VStr "TX") VNone
           (VInt 6) (inject_Z 6)); reflexivity.
Defined.

(** C9, on the code.  One rule set, one field configuration and one
    context, read at two times: the verdict of the Fraud rule is [ALERT] on
    2024-03-01 and [PASS] on 2025-01-01, the months being counted up to the
    clock when the closing date does not parse. *)
Theorem evaluate_reads_the_clock :
  evaluate plain_lib (mkdate 2024 3 1) sample_fields [fraud_rule]
    garbage_close_context
  = Ret [(VStr "R-FRAUD",
          mkverdict (VStr "R-FRAUD") ALERT
            (VStr "Fraud recorded on the subject property")
            (fraud_details (VStr "12 MAIN ST") (VStr "austin") (VStr "tx")
               (VStr "") (VStr "12 Main St.") (VStr "Austin") (VStr "TX")
               VNone))]
  /\ evaluate plain_lib (mkdate 2025 1 1) sample_fields [fraud_rule]
       garbage_close_context
     = Ret [(VStr "R-FRAUD",
             mkverdict (VStr "R-FRAUD") PASS (VStr "")
               (fraud_details (VStr "12 MAIN ST") (VStr "austin") (VStr "tx")
                  (VStr "") (VStr "12 Main St.") (VStr "Austin") (VStr "TX")
                  VNone))].
Proof. split; reflexivity. Qed.

(** ** Where the clock is read *)

(** Besides [months_between], the clock is read by [dateutil]: what it
    answers for a text may change with the time.  Nothing else uses it. *)
Lemma parse_date_by_format (L : PyLib) (parse : string -> option datetime)
    (v : value) :
  by_format L v = true ->
  parse_date (with_dateutil L parse) v = parse_date L v
  /\ (truthy v = true -> parse_date L v <> None).
Proof.
  unfold by_format, parse_date. destruct (truthy v) eqn:Htruthy;
    cbn [negb orb]; [|intros _; split; [reflexivity | discriminate]].
  intros H. change (try_formats (with_dateutil L parse)) with (try_formats L).
  change (py_str (with_dateutil L parse)) with (py_str L).
  destruct v; try (split; [reflexivity | discriminate]);
    destruct (try_formats L _ SUPPORTED_FORMATS); try discriminate H;
    (split; [reflexivity | discriminate]).
Qed.

Lemma months_check_by_format (L : PyLib) (p1 p2 : string -> option datetime)
    (now1 now2 : datetime) (rule : dict) (date est_close : value)
    (limit_key : string) (details : dict) :
  by_format L date = true ->
  by_format L est_close = true ->
  months_check (with_dateutil L p1) now1 rule date est_close limit_key details
  = months_check (with_dateutil L p2) now2 rule date est_close limit_key
      details.
Proof.
  intros Hdate Hclose. unfold months_check.
  destruct (truthy est_close) eqn:Htruthy; [|now rewrite orb_true_r].
  destruct (negb (truthy date)); [reflexivity|]. cbn [negb orb].
  unfold months_between. rewrite !parse_date_of_date.
  rewrite (proj1 (parse_date_by_format L p1 date Hdate)).
  rewrite (proj1 (parse_date_by_format L p2 date Hdate)).
  rewrite (proj1 (parse_date_by_format L p1 est_close Hclose)).
  rewrite (proj1 (parse_date_by_format L p2 est_close Hclose)).
  destruct (parse_date L date) as [d|]; [|reflexivity].
  destruct (parse_date L est_close) as [c|] eqn:Hc; [reflexivity|].
  now destruct (proj2 (parse_date_by_format L p1 est_close Hclose) Htruthy).
Qed.

Lemma scan_tradelines_with_dateutil (L : PyLib)
    (parse : string -> option datetime) (l4 : string) (name : value)
    (ts : list value) (details : dict) :
  scan_tradelines (with_dateutil L parse) l4 name ts details
  = scan_tradelines L l4 name ts details.
Proof. reflexivity. Qed.

Lemma last4_of_with_dateutil (L : PyLib) (parse : string -> option datetime)
    (v : value) :
  last4_of (with_dateutil L parse) v = last4_of L v.
Proof. reflexivity. Qed.

Lemma normalize_string_with_dateutil (L : PyLib)
    (parse : string -> option datetime) (v : value) :
  normalize_string (with_dateutil L parse) v = normalize_string L v.
Proof. reflexivity. Qed.

Lemma match_trigger_with_dateutil (L : PyLib)
    (parse : string -> option datetime) (fields : value) (context : dict)
    (trigger : value) :
  _match_trigger (with_dateutil L parse) fields context trigger
  = _match_trigger L fields context trigger.
Proof. reflexivity. Qed.

Lemma chars_are_text (s : string) (m : value) :
  In m (chars s) -> exists c, m = VStr c.
Proof.
  induction s as [|c r IH]; [intros []|].
  intros [<-|H]; [eexists; reflexivity | now apply IH].
Qed.

(** What the loop over the tradelines hands on as [matched] is [None] or
    one of the tradelines. *)
Lemma scan_tradelines_matched (L : PyLib) (l4 : string) (name : value)
    (ts : list value) (details details' : dict) (m : value) :
  scan_tradelines L l4 name ts details = Ret (details', m) ->
  m = VNone \/ In m ts.
Proof.
  revert details. induction ts as [|t rest IH]; intros details H.
  - injection H as _ <-. now left.
  - cbn [scan_tradelines] in H.
    destruct (get_either t "Creditor Account Number" _) as [acc_no|];
      [cbn [bind] in H | discriminate].
    destruct (get_either t "Creditor Name" _) as [creditor_name|];
      [cbn [bind] in H | discriminate].
    cbv zeta in H.
    match type of H with
    | (if ?b then _ else _) = _ => destruct b
    end.
    + match type of H with
      | (if ?b then _ else _) = _ => destruct b
      end.
      * injection H as _ <-. right. now left.
      * destruct (IH _ H); [now left | right; now right].
    + destruct (IH _ H); [now left | right; now right].
Qed.

Lemma resolved_by_format_ret (L : PyLib) (fields : value) (context : dict)
    (section name : string) (v : value) :
  resolved_by_format L fields context section name = true ->
  resolve fields context section name = Ret v ->
  by_format L v = true.
Proof. unfold resolved_by_format. intros H E. now rewrite E in H. Qed.

(** The validators other than CashoutSeasoning, Title, Fraud and
    AppraisalPriorSale read neither the clock nor [dateutil]; these four
    read them only for a date that no supported format reads. *)
Lemma validator_evaluate_by_format (L : PyLib)
    (p1 p2 : string -> option datetime) (now1 now2 : datetime)
    (fields : value) (v : validator) (rule context : dict) :
  dates_by_format L fields context = true ->
  validator_evaluate (with_dateutil L p1) now1 fields v rule context
  = validator_evaluate (with_dateutil L p2) now2 fields v rule context.
Proof.
  intros Hok. unfold dates_by_format in Hok.
  apply andb_true_iff in Hok as [Hok Hlines].
  apply andb_true_iff in Hok as [Hok Hfraud].
  apply andb_true_iff in Hok as [Hok Hprior].
  apply andb_true_iff in Hok as [Hclose Hchain].
  destruct v; cbn [validator_evaluate];
    [reflexivity .. | idtac | idtac | idtac | idtac
     | reflexivity | reflexivity | reflexivity | reflexivity | reflexivity
     | reflexivity].
  - (* CashoutSeasoning: the date of the matched tradeline and the closing
       date *)
    unfold CashoutSeasoningValidator_evaluate.
    destruct (resolve fields context "los" "liabilities_account_number")
      as [acc|]; cbn [bind]; [|reflexivity].
    destruct (resolve fields context "los" "liabilities_name")
      as [name|]; cbn [bind]; [|reflexivity].
    destruct (resolve fields context "los" "estimated_closing_date")
      as [est_close|] eqn:Hest; cbn [bind]; [|reflexivity].
    destruct (py_get (dict_get_default context "credit_report" (VDict []))
                "Tradelines" VNone) as [raw|]; cbn [bind]; [|reflexivity].
    cbv zeta.
    destruct (negb (truthy raw)); [reflexivity|].
    destruct (if is_dict raw then Ret [raw] else py_iter raw) as [ts|] eqn:Hts;
      cbn [bind]; [|reflexivity].
    rewrite !scan_tradelines_with_dateutil, !last4_of_with_dateutil.
    destruct (scan_tradelines L _ _ ts _) as [[details' m]|] eqn:Hscan;
      cbn [bind fst snd]; [|reflexivity].
    destruct (negb (truthy m)); [reflexivity|].
    destruct (py_get m "Date_Opened" VNone) as [date_opened|] eqn:Hopen;
      cbn [bind]; [|reflexivity].
    destruct (negb (truthy date_opened) || negb (truthy est_close));
      [reflexivity|].
    assert (Hbc : by_format L est_close = true)
      by exact (resolved_by_format_ret _ _ _ _ _ _ Hclose Hest).
    assert (Hbo : by_format L date_opened = true).
    { destruct m as [| | | | | |l|d]; try discriminate Hopen.
      injection Hopen as <-.
      destruct (scan_tradelines_matched _ _ _ _ _ _ _ Hscan) as [|Hin];
        [discriminate|].
      assert (Hin' : In (VDict d) (tradelines_of raw)).
      { destruct raw as [| | | |s| |l|d']; try discriminate Hts;
          cbn in Hts; injection Hts as <-; try exact Hin.
        destruct (chars_are_text _ _ Hin); discriminate. }
      exact (proj1 (forallb_forall _ _) Hlines _ Hin'). }
    rewrite (proj1 (parse_date_by_format L p1 date_opened Hbo)).
    rewrite (proj1 (parse_date_by_format L p2 date_opened Hbo)).
    rewrite (proj1 (parse_date_by_format L p1 est_close Hbc)).
    rewrite (proj1 (parse_date_by_format L p2 est_close Hbc)).
    destruct (parse_date L date_opened) as [o|]; [|reflexivity].
    destruct (parse_date L est_close) as [c|]; reflexivity.
  - unfold TitleValidator_evaluate.
    destruct (resolve fields context "title" "chain_title_date") eqn:Hdate;
      cbn [bind]; [|reflexivity].
    destruct (resolve fields context "los" "estimated_closing_date") eqn:Hest;
      cbn [bind]; [|reflexivity].
    apply months_check_by_format; eauto using resolved_by_format_ret.
  - unfold FraudValidator_evaluate.
    destruct (resolve fields context "los" "estimated_closing_date") eqn:Hest;
      cbn [bind]; [|reflexivity].
    repeat match goal with
           | |- bind ?m _ = bind ?m _ =>
               let x := fresh "x" in
               destruct m as [x|]; cbn [bind]; [|reflexivity]
           end.
    cbv zeta. rewrite !normalize_string_with_dateutil.
    match goal with
    | |- (if ?b then _ else _) = _ => destruct b; [reflexivity|]
    end.
    destruct (resolve fields context "drive_report" "fraud_recorded_date")
      eqn:Hdate; cbn [bind]; [|reflexivity].
    apply months_check_by_format; eauto using resolved_by_format_ret.
  - unfold AppraisalPriorSaleValidator_evaluate.
    destruct (resolve fields context "appraisal" "prior_sale_date") eqn:Hdate;
      cbn [bind]; [|reflexivity].
    destruct (resolve fields context "los" "estimated_closing_date") eqn:Hest;
      cbn [bind]; [|reflexivity].
    apply months_check_by_format; eauto using resolved_by_format_ret.
Qed.

Lemma evaluate_rule_by_format (L : PyLib) (p1 p2 : string -> option datetime)
    (now1 now2 : datetime) (fields : value) (context : dict) (acc : results)
    (rule : dict) :
  dates_by_format L fields context = true ->
  evaluate_rule (with_dateutil L p1) now1 fields context acc rule
  = evaluate_rule (with_dateutil L p2) now2 fields context acc rule.
Proof.
  intros Hok. unfold evaluate_rule.
  destruct (dict_item rule "validator") as [name|]; cbn [bind];
    [|reflexivity].
  destruct (validators_get name) as [[v|]|]; cbn [bind]; try reflexivity.
  rewrite !match_trigger_with_dateutil.
  destruct (_match_trigger L fields context _) as [applicable|]; cbn [bind];
    [|reflexivity].
  destruct applicable; cbn [negb]; [|reflexivity].
  now rewrite (validator_evaluate_by_format L p1 p2 now1 now2 fields v rule
                 context Hok).
Qed.

(** X1.  Where every date that the validators parse (the estimated
    closing date, the chain-of-title, prior-sale and fraud-recorded dates,
    the [Date_Opened] of the tradelines) is empty, a datetime or text in
    one of the five supported formats, the verdict mapping is the same at
    any two readings of the clock, whatever [dateutil] would answer at
    either time: for a fixed rule set, field configuration and context,
    two runs of [evaluate] agree, also in whether they raise. *)
Theorem evaluate_same_at_any_time (L : PyLib)
    (parse1 parse2 : string -> option datetime) (now1 now2 : datetime)
    (fields : value) (rules : list dict) (context : dict) :
  dates_by_format L fields context = true ->
  evaluate (with_dateutil L parse1) now1 fields rules context
  = evaluate (with_dateutil L parse2) now2 fields rules context.
Proof.
  intros Hok. unfold evaluate. generalize (@nil (value * verdict)).
  induction rules as [|rule rest IH]; intros acc; [reflexivity|].
  cbn [evaluate_loop].
  rewrite (evaluate_rule_by_format L parse1 parse2 now1 now2 fields context
             acc rule Hok).
  destruct (evaluate_rule _ now2 fields context acc rule); cbn [bind];
    [apply IH | reflexivity].
Qed.

Lemma evaluate_same_at_any_time_witness :
  evaluate (with_dateutil plain_lib (january_15 2024)) (mkdate 2024 3 1)
    sample_fields [dti_rule; fraud_rule; cashout_rule] no_address_context
  = evaluate (with_dateutil plain_lib (january_15 2026)) (mkdate 2026 3 1)
      sample_fields [dti_rule; fraud_rule; cashout_rule] no_address_context.
Proof.
  apply (evaluate_same_at_any_time plain_lib (january_15 2024)
           (january_15 2026) (mkdate 2024 3 1) (mkdate 2026 3 1)
           sample_fields [dti_rule; fraud_rule; cashout_rule]
           no_address_context).
  reflexivity.
Defined.

(** A fraud date without a year is left to [dateutil], which takes the
    year from the clock: five months before the closing date when read in
    2024, nineteen months after it when read in 2026. *)
Example evaluate_partial_date :
  evaluate (with_dateutil plain_lib (january_15 2024)) (mkdate 2024 3 1)
    sample_fields [fraud_rule] partial_date_context
  = Ret [(VStr "R-FRAUD",
          mkverdict (VStr "R-FRAUD") ALERT
            (VStr "Fraud recorded on the subject property")
            (fraud_details VNone VNone VNone VNone VNone VNone VNone VNone))]
  /\ evaluate (with_dateutil plain_lib (january_15 2026)) (mkdate 2026 3 1)
       sample_fields [fraud_rule] partial_date_context
     = Ret [(VStr "R-FRAUD",
             mkverdict (VStr "R-FRAUD") PASS (VStr "")
               (fraud_details VNone VNone VNone VNone VNone VNone VNone
                  VNone))].
Proof. split; reflexivity. Qed.

(** ** CashoutSeasoning validator *)

Lemma last4_of_or_empty (L : PyLib) (v : value) :
  last4_of L (py_or v (VStr "")) = last4_of L v.
Proof.
  unfold py_or, last4_of. now destruct (truthy v) eqn:E; [rewrite E|].
Qed.

Lemma get_either_dict (d : dict) (k1 k2 : string) :
  get_either (VDict d) k1 k2 = Ret (tradeline_get (VDict d) k1 k2).
Proof. reflexivity. Qed.

(** One turn of the loop over the tradelines, on a mapping. *)
Lemma scan_tradelines_step (L : PyLib) (l4 : string) (liabilities_name : value)
    (d : dict) (rest : list value) (details : dict) :
  scan_tradelines L l4 liabilities_name (VDict d :: rest) details
  = let acc_last4 :=
      last4_of L (tradeline_get (VDict d) "Creditor Account Number"
                    "Creditor_Account_Number") in
    let creditor_name :=
      tradeline_get (VDict d) "Creditor Name" "Creditor_Name" in
    if same_last4_guarded l4 acc_last4 then
      if 70 <=? fuzzy_ratio L creditor_name liabilities_name then
        Ret (dict_update details
               [("matched_account_last4", VStr acc_last4);
                ("creditor_name", creditor_name);
                ("fuzzy_score",
                 VInt (fuzzy_ratio L creditor_name liabilities_name))],
             VDict d)
      else
        scan_tradelines L l4 liabilities_name rest
          (dict_update details
             [("matched_account_last4", VStr acc_last4);
              ("creditor_name", creditor_name);
              ("fuzzy_score",
               VInt (fuzzy_ratio L creditor_name liabilities_name))])
    else scan_tradelines L l4 liabilities_name rest details.
Proof. reflexivity. Qed.

(** The loop over the tradelines stops on the first accepted one. *)
Lemma scan_tradelines_find (L : PyLib) (acc name : value) (ts : list value) :
  forallb is_dict ts = true ->
  forall details : dict,
  exists details' : dict,
    scan_tradelines L (last4_of L acc) (py_or name (VStr "")) ts details
    = Ret (details',
           match find (accepted L same_last4_guarded acc name) ts with
           | Some t => t
           | None => VNone
           end).
Proof.
  induction ts as [|t rest IH]; intros Hall details.
  - now exists details.
  - cbn [forallb] in Hall. apply andb_true_iff in Hall as [Ht Hrest].
    destruct t as [| | | | | | |d]; try discriminate.
    rewrite scan_tradelines_step. cbv zeta. cbn [find].
    unfold accepted at 1.
    destruct (same_last4_guarded (last4_of L acc) _); cbn [andb];
      [|now apply IH].
    destruct (70 <=? fuzzy_ratio L _ _).
    + eexists; reflexivity.
    + now apply IH.
Qed.

(** An accepted tradeline carries an account number, so it is not empty. *)
Lemma accepted_truthy (L : PyLib) (acc name : value) (d : dict) :
  accepted L same_last4_guarded acc name (VDict d) = true ->
  truthy (VDict d) = true.
Proof.
  destruct d; [|reflexivity].
  unfold accepted, same_last4_guarded. simpl.
  rewrite andb_false_r. discriminate.
Qed.

Lemma truthy_of_date (o : option datetime) :
  truthy (of_date o) = match o with Some _ => true | None => false end.
Proof. now destruct o. Qed.

Lemma parse_date_falsy (L : PyLib) (v : value) :
  truthy v = false -> parse_date L v = None.
Proof. intros H. unfold parse_date. now rewrite H. Qed.

(** The end of the validator, from the accepted tradeline on. *)
Lemma cashout_dates (L : PyLib) (now : datetime) (rule : dict)
    (date_opened est_close : value) (details : dict) :
  exists v,
    (if negb (truthy date_opened) || negb (truthy est_close)
     then Ret (not_applicable_result rule [])
     else
       let d_open := of_date (parse_date L date_opened) in
       let d_close := of_date (parse_date L est_close) in
       if negb (truthy d_open) || negb (truthy d_close)
       then Ret (not_applicable_result rule [])
       else
         months <- months_between L now d_open d_close ;;
         if months <=? 12
         then Ret (alert_result rule (VStr seasoning_message) details)
         else Ret (pass_result rule details)) = Ret v
    /\ v_status v
       = match parse_date L date_opened, parse_date L est_close with
         | Some o, Some c => if months_apart o c <=? 12 then ALERT else PASS
         | _, _ => NOT_APPLICABLE
         end.
Proof.
  destruct (truthy date_opened) eqn:Hd; simpl.
  2:{ rewrite (parse_date_falsy L _ Hd). eexists; split; reflexivity. }
  destruct (truthy est_close) eqn:Hc; simpl.
  2:{ rewrite (parse_date_falsy L _ Hc).
      destruct (parse_date L date_opened); eexists; split; reflexivity. }
  rewrite !truthy_of_date.
  destruct (parse_date L date_opened) as [o|]; simpl;
    [|eexists; split; reflexivity].
  destruct (parse_date L est_close) as [c|]; simpl;
    [|eexists; split; reflexivity].
  unfold months_between. simpl. fold (months_apart o c).
  destruct (months_apart o c <=? 12); eexists; split; reflexivity.
Qed.

(** C7, as it holds.  With the three fields of the loan record resolved and
    the tradelines of the credit report one mapping or a sequence of
    mappings, the validator returns a verdict, and its status is:
    [NOT_APPLICABLE] if no tradelines are present; otherwise that of the
    first tradeline whose account number and the liability account number
    are both present and equal on their last 4 characters and whose
    creditor name scores at least 70 against the liability name: [ALERT]
    if there is none, [NOT_APPLICABLE] if its open date or the estimated
    closing date is missing or does not parse, and else [ALERT] up to 12
    months between the two dates and [PASS] above. *)
Theorem cashout_seasoning_status (L : PyLib) (now : datetime)
    (fields : value) (rule context : dict)
    (acc name est_close raw : value) :
  resolve fields context "los" "liabilities_account_number" = Ret acc ->
  resolve fields context "los" "liabilities_name" = Ret name ->
  resolve fields context "los" "estimated_closing_date" = Ret est_close ->
  py_get (dict_get_default context "credit_report" (VDict [])) "Tradelines"
    VNone = Ret raw ->
  tradelines_wf raw = true ->
  exists v,
    CashoutSeasoningValidator_evaluate L now fields rule context = Ret v
    /\ v_status v
       = cashout_status L same_last4_guarded acc name est_close raw.
Proof.
  intros Hacc Hname Hclose Hraw Hwf.
  unfold CashoutSeasoningValidator_evaluate, cashout_status.
  rewrite Hacc, Hname, Hclose. simpl bind. rewrite Hraw. simpl bind.
  destruct (truthy raw) eqn:Htruthy; simpl;
    [|eexists; split; reflexivity].
  assert (Hts : (if is_dict raw then Ret [raw] else py_iter raw)
                = Ret (tradelines_of raw)
                /\ forallb is_dict (tradelines_of raw) = true).
  { destruct raw;
      try (unfold tradelines_wf in Hwf; rewrite Htruthy in Hwf; discriminate);
      (split; [reflexivity | first [reflexivity | exact Hwf]]). }
  destruct Hts as [-> Hdicts]. simpl bind.
  rewrite last4_of_or_empty.
  destruct (scan_tradelines_find L acc name (tradelines_of raw) Hdicts
              [("liabilities_account_number", py_or acc (VStr ""));
               ("liabilities_name", py_or name (VStr ""));
               ("estimated_closing_date", est_close)])
    as [details' ->].
  simpl bind. cbv zeta. simpl fst. simpl snd.
  destruct (find (accepted L same_last4_guarded acc name) (tradelines_of raw))
    as [t|] eqn:Hfind.
  - apply find_some in Hfind as [Hin Hacc_t].
    assert (Hd : is_dict t = true).
    { rewrite forallb_forall in Hdicts. now apply Hdicts. }
    destruct t as [| | | | | | |d]; try discriminate.
    rewrite (accepted_truthy L acc name d Hacc_t). simpl negb. cbv iota.
    simpl py_get. simpl bind.
    apply cashout_dates.
  - simpl. eexists; split; reflexivity.
Qed.

Lemma cashout_seasoning_witness :
  exists v,
    CashoutSeasoningValidator_evaluate plain_lib (mkdate 2025 6 15)
      sample_fields cashout_rule seasoned_context = Ret v
    /\ v_status v
       = cashout_status plain_lib same_last4_guarded
           (VStr "1234567890") (VStr "ABC BANK") (VStr "2025-12-31")
           (VDict [("Creditor Account Number", VStr "XXXXXX7890");
                   ("Creditor Name", VStr "ABC BANK");
                   ("Date_Opened", VStr "2024-11-30")]).
Proof.
  apply (cashout_seasoning_status plain_lib (mkdate 2025 6 15) sample_fields
           cashout_rule seasoned_context); reflexivity.
Defined.

(** Opened 13 months before the closing date: [PASS]. *)
Example cashout_seasoned_passes :
  CashoutSeasoningValidator_evaluate plain_lib (mkdate 2025 6 15)
    sample_fields cashout_rule seasoned_context
  = Ret (mkverdict (VStr "R-CASHOUT") PASS (VStr "")
           [("liabilities_account_number", VStr "1234567890");
            ("liabilities_name", VStr "ABC BANK");
            ("estimated_closing_date", VStr "2025-12-31");
            ("matched_account_last4", VStr "7890");
            ("creditor_name", VStr "ABC BANK");
            ("fuzzy_score", VInt 100)]).
Proof. reflexivity. Qed.

(** Opened 6 months before the closing date: [ALERT]. *)
Example cashout_unseasoned_alerts :
  CashoutSeasoningValidator_evaluate plain_lib (mkdate 2025 6 15)
    sample_fields cashout_rule unseasoned_context
  = Ret (mkverdict (VStr "R-CASHOUT") ALERT (VStr seasoning_message)
           [("liabilities_account_number", VInt 1234567890);
            ("liabilities_name", VStr "ABC BANK");
            ("estimated_closing_date", VStr "2025-12-31");
            ("matched_account_last4", VStr "7890");
            ("creditor_name", VStr "ABC BANK");
            ("fuzzy_score", VInt 100)]).
Proof. reflexivity. Qed.

(** C7, as stated, fails where neither the liability nor the tradeline
    carries an account number.  Their last 4 characters are then equal,
    both empty; the creditor name equals the liability name and the
    tradeline was opened 71 months before the closing date, so the stated
    rule accepts the tradeline and gives [PASS].  The validator does not
    match on empty account numbers: it accepts no tradeline and returns
    [ALERT], the mortgage not being reported. *)
Lemma cashout_empty_last4_no_match :
  last4_of plain_lib VNone = ""
  /\ last4_of plain_lib
       (tradeline_get (VDict [("Creditor Name", VStr "ABC BANK");
                              ("Date_Opened", VStr "2020-01-01")])
          "Creditor Account Number" "Creditor_Account_Number") = ""
  /\ cashout_status plain_lib same_last4_stated
       VNone (VStr "ABC BANK") (VStr "2025-12-31")
       (VList [VDict [("Creditor Name", VStr "ABC BANK");
                      ("Date_Opened", VStr "2020-01-01")]]) = PASS
  /\ CashoutSeasoningValidator_evaluate plain_lib (mkdate 2025 6 15)
       sample_fields cashout_rule no_account_context
     = Ret (mkverdict (VStr "R-CASHOUT") ALERT (VStr not_reported_message)
              [("liabilities_account_number", VStr "");
               ("liabilities_name", VStr "ABC BANK");
               ("estimated_closing_date", VStr "2025-12-31")]).
Proof. repeat split. Qed.

(** * More of the module *)

(** ** JSON utils *)

(** Induction on a document, through its mappings and lists. *)
Lemma bson_nested_ind (P : bson -> Prop) :
  P BNone -> (forall b, P (BBool b)) -> (forall z, P (BInt z)) ->
  (forall q, P (BFloat q)) -> (forall s, P (BStr s)) ->
  (forall hex, P (BObjectId hex)) -> (forall d, P (BDate d)) ->
  (forall d, Forall (fun kv => P (snd kv)) d -> P (BDict d)) ->
  (forall l, Forall P l -> P (BList l)) ->
  (forall str, P (BOther str)) ->
  forall obj, P obj.
Proof.
  intros HNone HBool HInt HFloat HStr HOid HDate HDict HList HOther.
  fix IH 1.
  intros [ | b | z | q | s | hex | d | d | l | str];
    [exact HNone | apply HBool | apply HInt | apply HFloat | apply HStr
    | apply HOid | apply HDate | | | apply HOther].
  - apply HDict. induction d as [|[k v] d IHd]; constructor.
    + apply IH.
    + exact IHd.
  - apply HList. induction l as [|x l IHl]; constructor.
    + apply IH.
    + exact IHl.
Qed.

Lemma clean_mongo_idempotent (isoformat : datetime -> string) (obj : bson) :
  clean_mongo isoformat (clean_mongo isoformat obj) = clean_mongo isoformat obj.
Proof.
  induction obj as [ | | | | | | | d IH | l IH | [s|]] using bson_nested_ind;
    try reflexivity.
  - simpl. f_equal. rewrite map_map.
    induction IH as [|[k v] d Hv _ IHd]; simpl; [reflexivity|].
    simpl in Hv. now rewrite Hv, IHd.
  - simpl. f_equal. rewrite map_map.
    induction IH as [|x l Hx _ IHl]; simpl; [reflexivity|].
    now rewrite Hx, IHl.
Qed.

Lemma clean_mongo_json_like (isoformat : datetime -> string) (obj : bson) :
  printable obj = true -> json_like (clean_mongo isoformat obj) = true.
Proof.
  induction obj as [ | | | | | | | d IH | l IH | [s|]] using bson_nested_ind;
    try reflexivity; try discriminate; simpl.
  - induction IH as [|[k v] d Hv _ IHd]; simpl; [reflexivity|].
    intros H. apply andb_true_iff in H as [H1 H2]. simpl in Hv.
    now rewrite (Hv H1), (IHd H2).
  - induction IH as [|x l Hx _ IHl]; simpl; [reflexivity|].
    intros H. apply andb_true_iff in H as [H1 H2].
    now rewrite (Hx H1), (IHl H2).
Qed.

Lemma clean_mongo_fixes_json (isoformat : datetime -> string) (obj : bson) :
  json_like obj = true -> clean_mongo isoformat obj = obj.
Proof.
  induction obj as [ | | | | | | | d IH | l IH | [s|]] using bson_nested_ind;
    try reflexivity; try discriminate; simpl.
  - intros H. f_equal.
    induction IH as [|[k v] d Hv _ IHd]; simpl; [reflexivity|].
    simpl in H. apply andb_true_iff in H as [H1 H2]. simpl in Hv.
    now rewrite (Hv H1), (IHd H2).
  - intros H. f_equal.
    induction IH as [|x l Hx _ IHl]; simpl; [reflexivity|].
    simpl in H. apply andb_true_iff in H as [H1 H2].
    now rewrite (Hx H1), (IHl H2).
Qed.

Lemma clean_mongo_same_shape (isoformat : datetime -> string) (obj : bson) :
  same_shape obj (clean_mongo isoformat obj) = true.
Proof.
  induction obj as [ | | | | | | | d IH | l IH | [s|]] using bson_nested_ind;
    try reflexivity; simpl.
  - induction IH as [|[k v] d Hv _ IHd]; simpl; [reflexivity|].
    simpl in Hv. now rewrite String.eqb_refl, Hv, IHd.
  - induction IH as [|x l Hx _ IHl]; simpl; [reflexivity|].
    now rewrite Hx, IHl.
Qed.

(** X3.  [clean_mongo] turns a document into JSON: every [ObjectId] and
    datetime inside becomes a string, at any depth, so that the result is
    made of JSON primitives, mappings and lists only, provided every
    foreign object in it has a [str()]; the keys of the mappings and the
    lengths of the lists are kept; a document that is JSON already comes
    back unchanged, and cleaning a second time changes nothing. *)
Theorem clean_mongo_spec (isoformat : datetime -> string) (obj : bson) :
  (printable obj = true -> json_like (clean_mongo isoformat obj) = true)
  /\ same_shape obj (clean_mongo isoformat obj) = true
  /\ (json_like obj = true -> clean_mongo isoformat obj = obj)
  /\ clean_mongo isoformat (clean_mongo isoformat obj)
     = clean_mongo isoformat obj.
Proof.
  split; [apply clean_mongo_json_like|].
  split; [apply clean_mongo_same_shape|].
  split; [apply clean_mongo_fixes_json | apply clean_mongo_idempotent].
Qed.

Lemma clean_mongo_spec_witness :
  json_like
    (clean_mongo plain_isoformat
       (BDict [("_id", BObjectId "65a4f0c2e13b9f0012ab34cd");
               ("created", BDate (mkdate 2024 1 15));
               ("pages", BList [BDict [("page_no", BInt 1)]])])) = true
  /\ clean_mongo plain_isoformat
       (BDict [("loan_id", BStr "HML-450321"); ("ltv", BFloat 0.95)])
     = BDict [("loan_id", BStr "HML-450321"); ("ltv", BFloat 0.95)].
Proof.
  split.
  - apply (clean_mongo_spec plain_isoformat). reflexivity.
  - apply (clean_mongo_spec plain_isoformat). reflexivity.
Defined.

Example clean_mongo_document :
  clean_mongo plain_isoformat
    (BDict [("_id", BObjectId "65a4f0c2e13b9f0012ab34cd");
            ("created", BDate (mkdate 2024 1 15));
            ("pages", BList [BDict [("page_no", BInt 1)]])])
  = BDict [("_id", BStr "65a4f0c2e13b9f0012ab34cd");
           ("created", BStr "2024-01-15T00:00:00");
           ("pages", BList [BDict [("page_no", BInt 1)]])].
Proof. reflexivity. Qed.

(** ** Verdicts of the validators *)

Lemma py_or_configured (rule : dict) (k : string) :
  py_or (dict_get_default rule k VNone) (dict_get_default rule k (VStr ""))
  = dict_get_default rule k (VStr "").
Proof.
  unfold py_or, dict_get_default.
  destruct (dict_get rule k) as [m|]; [now destruct (truthy m) | reflexivity].
Qed.

(** One step along the code of a validator that returned: the result of a
    call, the branch of a test, or the verdict at the end. *)
Ltac follow H :=
  lazymatch type of H with
  | Ret _ = Ret _ => inversion H; subst; clear H
  | Raise _ = Ret _ => discriminate H
  | bind ?m _ = Ret _ =>
      let E := fresh "E" in
      destruct m eqn:E; [cbn [bind] in H | discriminate H]
  | (if ?b then _ else _) = Ret _ =>
      let E := fresh "E" in destruct b eqn:E
  | match ?x with _ => _ end = Ret _ =>
      let E := fresh "E" in destruct x eqn:E
  end.

Ltac verdict_leaf :=
  unfold verdict_facts; cbn;
  rewrite ?py_or_configured;
  repeat split; auto.

Lemma validator_verdict_facts (L : PyLib) (now : datetime) (fields : value)
    (v : validator) (rule context : dict) (r : verdict) :
  validator_evaluate L now fields v rule context = Ret r ->
  verdict_facts v rule r.
Proof.
  intros H.
  destruct v; cbn [validator_evaluate] in H;
    unfold LTVValidator_evaluate, DTIValidator_evaluate,
      OccupancyValidator_evaluate, SecondHomeValidator_evaluate,
      InvestmentValidator_evaluate, CreditScoreValidator_evaluate,
      GiftValidator_evaluate, CashoutSeasoningValidator_evaluate,
      TitleValidator_evaluate, FraudValidator_evaluate,
      AppraisalPriorSaleValidator_evaluate, LoanProgramValidator_evaluate,
      CashbackValidator_evaluate, HomebuyerProgramValidator_evaluate,
      HomebuyerLTVValidator_evaluate, IncomeValidator_evaluate,
      LienPayoffValidator_evaluate, months_check in H;
    cbv zeta in H;
    repeat follow H;
    verdict_leaf.
Qed.

(** X4.  Every verdict a validator returns carries the identifier of its
    rule; a [PASS] or [NOT_APPLICABLE] verdict carries the empty message, an
    [ALERT] the rule's [alert_message] and a [CONDITION] its
    [condition_message] (the empty text where the rule has none), except
    that the CashoutSeasoning validator alerts with one of its two fixed
    texts and never with the rule's [alert_message]. *)
Theorem verdict_carries_rule_and_message (L : PyLib) (now : datetime)
    (fields : value) (v : validator) (rule context : dict) (r : verdict) :
  validator_evaluate L now fields v rule context = Ret r ->
  rule_id r = dict_get_default rule "id" VNone
  /\ match v_status r with
     | PASS | NOT_APPLICABLE => message r = VStr ""
     | ALERT =>
         match v with
         | CashoutSeasoningValidator =>
             message r = VStr not_reported_message
             \/ message r = VStr seasoning_message
         | _ => message r = dict_get_default rule "alert_message" (VStr "")
         end
     | CONDITION =>
         message r = dict_get_default rule "condition_message" (VStr "")
     end.
Proof.
  intros H. apply validator_verdict_facts in H as (Hid & _ & Hmsg).
  now split.
Qed.

Lemma verdict_carries_rule_and_message_witness :
  rule_id (mkverdict (VStr "R-DTI") ALERT (VStr "DTI above the limit")
             [("dti", VStr "55"); ("limit", VInt 50)])
  = dict_get_default dti_rule "id" VNone
  /\ message (mkverdict (VStr "R-DTI") ALERT (VStr "DTI above the limit")
                [("dti", VStr "55"); ("limit", VInt 50)])
     = dict_get_default dti_rule "alert_message" (VStr "").
Proof.
  exact (verdict_carries_rule_and_message plain_lib (mkdate 2025 6 15)
           sample_fields DTIValidator dti_rule purchase_context _ eq_refl).
Defined.

(** X5.  The statuses a validator can return: [CONDITION] comes from the
    two Homebuyer validators only, and these never return [ALERT]; the LTV,
    Investment, Gift, LienPayoff and HomebuyerProgram validators never
    return [NOT_APPLICABLE]. *)
Theorem validator_returns_listed_status (L : PyLib) (now : datetime)
    (fields : value) (v : validator) (rule context : dict) (r : verdict) :
  validator_evaluate L now fields v rule context = Ret r ->
  may_return v (v_status r) = true.
Proof.
  intros H. now apply validator_verdict_facts in H as (_ & Hstatus & _).
Qed.

Lemma validator_returns_listed_status_witness :
  may_return CashoutSeasoningValidator PASS = true.
Proof.
  exact (validator_returns_listed_status plain_lib (mkdate 2025 6 15)
           sample_fields CashoutSeasoningValidator cashout_rule
           seasoned_context _ eq_refl).
Defined.

(** ** Validators that return *)

Lemma numeric_map_get (m : value) (k : string) (dflt : value) :
  numeric_map m = true -> is_number dflt = true ->
  exists x, py_get m k dflt = Ret x /\ is_number x = true.
Proof.
  intros Hm Hd. destruct m as [| | | | | | |d]; try discriminate.
  simpl in Hm. simpl. unfold dict_get_default.
  destruct (dict_get d k) as [x|] eqn:Hx.
  - exists x. split; [reflexivity|].
    exact (dict_get_forallb is_number d k x Hm Hx).
  - now exists dflt.
Qed.

Lemma param_numeric (rule : dict) (k : string) (dflt : value) :
  rule_numeric rule = true -> is_number dflt = true ->
  exists x q, param rule k dflt = Ret x /\ num_of x = Some q.
Proof.
  intros Hrule Hd. apply andb_true_iff in Hrule as [Hp _].
  destruct (numeric_map_get _ k dflt Hp Hd) as (x & Hx & Hn).
  unfold is_number in Hn. destruct (num_of x) as [q|] eqn:Hq; [|discriminate].
  now exists x, q.
Qed.

Lemma param_returns (rule : dict) (k : string) (dflt : value) :
  rule_numeric rule = true -> exists x, param rule k dflt = Ret x.
Proof.
  intros Hrule. apply andb_true_iff in Hrule as [Hp _]. unfold param.
  destruct (dict_get_default rule "params" (VDict [])); try discriminate.
  eexists; reflexivity.
Qed.

Lemma over_threshold_returns (rule : dict) (l : option Q) (k : string) :
  rule_numeric rule = true ->
  exists b,
    over_threshold (dict_get_default rule "thresholds" (VDict [])) l k = Ret b.
Proof.
  intros Hrule. apply andb_true_iff in Hrule as [_ Ht].
  destruct l as [l|]; [|now exists false]. simpl.
  destruct (dict_get_default rule "thresholds" (VDict []))
    as [| | | | | | |d]; try discriminate.
  simpl in Ht. simpl. unfold dict_get_default.
  destruct (dict_get d k) as [t|] eqn:Hk; simpl; [|now exists false].
  pose proof (dict_get_forallb is_number d k t Ht Hk) as Hn.
  unfold is_number in Hn. unfold float_gt.
  destruct (num_of t) as [q|] eqn:Hq; [|discriminate].
  destruct t; try discriminate; simpl; eexists; reflexivity.
Qed.

Lemma months_check_returns (L : PyLib) (now : datetime) (rule : dict)
    (date est_close : value) (limit_key : string) (details : dict) :
  rule_numeric rule = true ->
  exists r, months_check L now rule date est_close limit_key details = Ret r.
Proof.
  intros Hrule.
  destruct (param_numeric rule limit_key (VInt 6) Hrule eq_refl)
    as (x & q & Hx & Hq).
  destruct (months_check_status L now rule date est_close limit_key details
              x q Hx Hq) as (r & Hr & _).
  now exists r.
Qed.

Lemma cashout_returns (L : PyLib) (now : datetime) (fields : value)
    (rule context : dict) :
  fields_wf fields = true -> credit_ok context = true ->
  exists r,
    CashoutSeasoningValidator_evaluate L now fields rule context = Ret r.
Proof.
  intros Hwf Hcredit. unfold credit_ok in Hcredit.
  unfold CashoutSeasoningValidator_evaluate.
  rewrite !(resolve_wf _ _ _ _ Hwf). cbn [bind].
  destruct (py_get _ "Tradelines" VNone) as [raw|]; [|discriminate].
  cbn [bind].
  destruct (truthy raw) eqn:Htruthy; cbn [negb]; [|eexists; reflexivity].
  assert (Hts : (if is_dict raw then Ret [raw] else py_iter raw)
                = Ret (tradelines_of raw)
                /\ forallb is_dict (tradelines_of raw) = true).
  { destruct raw;
      try (unfold tradelines_wf in Hcredit; rewrite Htruthy in Hcredit;
           discriminate);
      (split; [reflexivity | first [reflexivity | exact Hcredit]]). }
  destruct Hts as [-> Hdicts]. cbn [bind].
  rewrite last4_of_or_empty.
  match goal with
  | |- context [scan_tradelines L _ _ _ ?details] =>
      destruct (scan_tradelines_find L
                  (resolved fields context "los" "liabilities_account_number")
                  (resolved fields context "los" "liabilities_name")
                  (tradelines_of raw) Hdicts details) as [details' ->]
  end.
  cbn [bind fst snd].
  destruct (find _ (tradelines_of raw)) as [t|] eqn:Hfind;
    [|eexists; reflexivity].
  apply find_some in Hfind as [Hin Hacc].
  assert (Hd : is_dict t = true).
  { rewrite forallb_forall in Hdicts. now apply Hdicts. }
  destruct t as [| | | | | | |d]; try discriminate.
  rewrite (accepted_truthy L _ _ d Hacc). cbn [negb py_get bind].
  destruct (cashout_dates L now rule (dict_get_default d "Date_Opened" VNone)
              (resolved fields context "los" "estimated_closing_date")
              details') as (r & Hr & _).
  now exists r.
Qed.

(** A step of a validator that is about to return. *)
Ltac returns_step Hwf Hrule :=
  first
    [ rewrite (resolve_wf _ _ _ _ Hwf); cbn [bind]
    | lazymatch goal with
      | |- exists r, Ret _ = Ret r => eexists; reflexivity
      | |- exists r, bind (param ?rule ?k ?d) _ = Ret r =>
          let x := fresh "x" in
          let q := fresh "q" in
          let Hq := fresh "Hq" in
          destruct (param_numeric rule k d Hrule eq_refl)
            as (x & q & -> & Hq);
          cbn [bind]; unfold float_gt, float_lt, float_mul, int_lt;
          rewrite ?Hq; cbn [bind]
      | |- exists r, bind (over_threshold _ ?l ?k) _ = Ret r =>
          let b := fresh "b" in
          destruct (over_threshold_returns _ l k Hrule) as (b & ->);
          cbn [bind]
      | |- exists r, bind (Ret _) _ = Ret r => cbn [bind]
      | |- exists r, (if ?b then _ else _) = Ret r => destruct b
      | |- exists r, match ?x with _ => _ end = Ret r => destruct x
      end ].

Lemma validator_evaluate_returns (L : PyLib) (now : datetime)
    (fields : value) (v : validator) (rule context : dict) :
  fields_wf fields = true ->
  rule_numeric rule = true ->
  credit_ok context = true ->
  exists r, validator_evaluate L now fields v rule context = Ret r.
Proof.
  intros Hwf Hrule Hcredit.
  destruct v; cbn [validator_evaluate];
    try (apply cashout_returns; assumption);
    unfold LTVValidator_evaluate, DTIValidator_evaluate,
      OccupancyValidator_evaluate, SecondHomeValidator_evaluate,
      InvestmentValidator_evaluate, CreditScoreValidator_evaluate,
      GiftValidator_evaluate, TitleValidator_evaluate,
      FraudValidator_evaluate, AppraisalPriorSaleValidator_evaluate,
      LoanProgramValidator_evaluate, CashbackValidator_evaluate,
      HomebuyerProgramValidator_evaluate, HomebuyerLTVValidator_evaluate,
      IncomeValidator_evaluate, LienPayoffValidator_evaluate;
    repeat returns_step Hwf Hrule;
    try (apply months_check_returns; assumption).
  (* Income: the median income falls back on a parameter *)
  destruct (param_returns rule "area_median_income" VNone Hrule) as (x & ->).
  destruct (truthy _); cbn [bind]; repeat returns_step Hwf Hrule.
Qed.

(** X6.  On data that is ASCII text and integers a float holds exactly
    (context, rule and field defaults), under a readable field
    configuration, a rule whose parameters and thresholds are mappings of
    numbers, and a credit report whose tradelines are mappings, every
    validator returns a verdict: missing, null, ill-typed or unparseable
    fields never make a validator raise.  Outside such data [print] can
    fail to encode a text, [str()] refuses an integer of too many digits
    and an integer beyond the range of a float cannot be multiplied by
    one. *)
Theorem validators_return (L : PyLib) (now : datetime) (fields : value)
    (v : validator) (rule context : dict) :
  plain fields = true ->
  plain (VDict rule) = true ->
  plain (VDict context) = true ->
  fields_wf fields = true ->
  rule_numeric rule = true ->
  credit_ok context = true ->
  exists r, validator_evaluate L now fields v rule context = Ret r.
Proof. intros _ _ _. apply validator_evaluate_returns. Qed.

Lemma validators_return_witness :
  exists r,
    validator_evaluate plain_lib (mkdate 2025 6 15) sample_fields
      FraudValidator fraud_rule garbage_close_context = Ret r.
Proof.
  apply (validators_return plain_lib (mkdate 2025 6 15) sample_fields
           FraudValidator fraud_rule garbage_close_context); reflexivity.
Defined.

(** ** A dispatcher that returns *)

Lemma match_trigger_returns (L : PyLib) (fields : value) (context : dict) :
  fields_wf fields = true ->
  forall trigger,
    trigger_wf trigger = true ->
    exists b, _match_trigger L fields context trigger = Ret b.
Proof.
  intros Hwf. fix IH 1.
  intros [| | | | | | |items]; try discriminate.
  induction items as [|[key expected] rest IHrest]; intros Ht.
  - now exists true.
  - destruct (key =? "or")%string eqn:Hkey.
    + apply String.eqb_eq in Hkey; subst key.
      destruct expected as [| | | | | |subs|]; try discriminate.
      rewrite match_trigger_or. simpl in Ht.
      induction subs as [|x subs IHsubs]; [now exists false|].
      simpl in Ht. apply andb_true_iff in Ht as [Hx Hsubs].
      simpl. destruct (IH x Hx) as [[|] ->]; cbn [bind].
      * now exists true.
      * exact (IHsubs Hsubs).
    + destruct expected as [| | | | | |exps|];
        try (simpl in Ht; rewrite Hkey in Ht; discriminate).
      rewrite (match_trigger_field L fields context key exps rest Hkey).
      rewrite (resolve_wf _ _ _ _ Hwf). cbn [bind].
      destruct (existsb _ exps); cbn [negb]; [|now exists false].
      apply IHrest. simpl in Ht. rewrite Hkey in Ht. exact Ht.
Qed.

Lemma evaluate_rule_returns_wf (L : PyLib) (now : datetime) (fields : value)
    (context : dict) (acc : results) (rule : dict) :
  fields_wf fields = true -> credit_ok context = true ->
  rule_wf rule = true ->
  exists acc', evaluate_rule L now fields context acc rule = Ret acc'.
Proof.
  intros Hwf Hcredit Hrule. unfold rule_wf in Hrule.
  unfold evaluate_rule, dict_item.
  destruct (dict_get rule "validator") as [name|]; [|discriminate].
  destruct (dict_get rule "id") as [id|]; [|discriminate].
  apply andb_true_iff in Hrule as [Hrule Hnum].
  apply andb_true_iff in Hrule as [Hrule Htrigger].
  apply andb_true_iff in Hrule as [Hname Hid].
  cbn [bind].
  assert (Hset : forall r, exists acc', results_set acc id r = Ret acc').
  { intros r. destruct id; try discriminate; eexists; reflexivity. }
  destruct (validators_get name) as [[v|]|] eqn:Hget;
    [| now exists acc | destruct name; discriminate].
  cbn [bind].
  destruct (match_trigger_returns L fields context Hwf _ Htrigger) as [b ->].
  cbn [bind]. destruct b; cbn [negb bind].
  - destruct (validator_evaluate_returns L now fields v rule context
                Hwf Hnum Hcredit)
      as [r ->].
    cbn [bind]. apply Hset.
  - apply Hset.
Qed.

Lemma evaluate_loop_returns_wf (L : PyLib) (now : datetime) (fields : value)
    (context : dict) (rules : list dict) :
  fields_wf fields = true -> credit_ok context = true ->
  forallb rule_wf rules = true ->
  forall acc, exists out, evaluate_loop L now fields context acc rules = Ret out.
Proof.
  intros Hwf Hcredit. induction rules as [|rule rest IH]; intros Hrules acc.
  - now exists acc.
  - cbn [forallb] in Hrules. apply andb_true_iff in Hrules as [Hrule Hrest].
    cbn [evaluate_loop].
    destruct (evaluate_rule_returns_wf L now fields context acc rule
                Hwf Hcredit Hrule) as [acc' ->].
    cbn [bind]. now apply IH.
Qed.

(** X7.  On data that is ASCII text and integers a float holds exactly
    (context, rules and field defaults), under a readable field
    configuration, rule definitions that each carry a validator name, a
    hashable identifier, a readable trigger and numeric parameters, and a
    credit report whose tradelines are mappings, [evaluate] returns a
    verdict mapping for every loan record: no rule makes the evaluation
    raise. *)
Theorem evaluate_returns (L : PyLib) (now : datetime) (fields : value)
    (rules : list dict) (context : dict) :
  plain fields = true ->
  forallb (fun rule => plain (VDict rule)) rules = true ->
  plain (VDict context) = true ->
  fields_wf fields = true ->
  forallb rule_wf rules = true ->
  credit_ok context = true ->
  exists out, evaluate L now fields rules context = Ret out.
Proof.
  intros _ _ _ Hwf Hrules Hcredit.
  now apply evaluate_loop_returns_wf.
Qed.

Lemma evaluate_returns_witness :
  exists out,
    evaluate plain_lib (mkdate 2025 6 15) sample_fields
      [dti_rule; typo_rule; fraud_rule; cashout_rule] unseasoned_context
    = Ret out.
Proof.
  apply (evaluate_returns plain_lib (mkdate 2025 6 15) sample_fields
           [dti_rule; typo_rule; fraud_rule; cashout_rule]
           unseasoned_context); reflexivity.
Defined.

(** ** The entries of the verdict mapping *)

Lemma key_eqb_refl (k : value) : hashable k = true -> key_eqb k k = true.
Proof.
  destruct k as [|[|]|z|q|s|d|l|d']; try discriminate; intros _; simpl;
    try reflexivity.
  - apply Qeq_bool_iff. reflexivity.
  - apply Qeq_bool_iff. reflexivity.
  - apply String.eqb_refl.
  - now rewrite !Z.eqb_refl.
Qed.

Lemma key_eqb_number (a b : value) (x : Q) :
  num_of a = Some x -> key_eqb a b = true ->
  exists y, num_of b = Some y /\ Qeq_bool x y = true.
Proof.
  intros Ha H.
  destruct a; try discriminate; destruct b; try discriminate;
    simpl in *; inversion Ha; subst; eexists; split; try reflexivity;
    exact H.
Qed.

Lemma key_eqb_euclid (a b c : value) :
  key_eqb a b = true -> key_eqb a c = true -> key_eqb b c = true.
Proof.
  intros Hab Hac.
  destruct (num_of a) as [x|] eqn:Ha.
  - destruct (key_eqb_number a b x Ha Hab) as (y & Hb & Hxy).
    destruct (key_eqb_number a c x Ha Hac) as (z & Hc & Hxz).
    assert (Hyz : Qeq_bool y z = true).
    { apply Qeq_bool_iff. apply Qeq_bool_iff in Hxy, Hxz.
      now rewrite <- Hxy, <- Hxz. }
    destruct b; try discriminate; destruct c; try discriminate;
      simpl in *; inversion Hb; inversion Hc; subst; exact Hyz.
  - destruct a; try discriminate; destruct b; try discriminate;
      destruct c; try discriminate; simpl in *; try reflexivity.
    + apply String.eqb_eq in Hab, Hac. subst. apply String.eqb_refl.
    + apply andb_true_iff in Hab as [Hab Hab3].
      apply andb_true_iff in Hab as [Hab1 Hab2].
      apply andb_true_iff in Hac as [Hac Hac3].
      apply andb_true_iff in Hac as [Hac1 Hac2].
      apply Z.eqb_eq in Hab1, Hab2, Hab3, Hac1, Hac2, Hac3.
      rewrite <- Hab1, <- Hab2, <- Hab3, Hac1, Hac2, Hac3.
      now rewrite !Z.eqb_refl.
Qed.

Lemma results_get_put_same (r : results) (k : value) (v : verdict) :
  key_eqb k k = true -> results_get (results_put r k v) k = Some v.
Proof.
  intros Hk. induction r as [|[k0 v0] r IH]; simpl.
  - now rewrite Hk.
  - destruct (key_eqb k0 k) eqn:E; simpl; now rewrite E.
Qed.

Lemma results_get_put_other (r : results) (k id : value) (v : verdict) :
  key_eqb k id = false ->
  results_get (results_put r k v) id = results_get r id.
Proof.
  intros Hk. induction r as [|[k0 v0] r IH]; simpl.
  - now rewrite Hk.
  - destruct (key_eqb k0 k) eqn:E; simpl.
    + destruct (key_eqb k0 id) eqn:E'; [|reflexivity].
      rewrite (key_eqb_euclid k0 k id E E') in Hk. discriminate.
    + now rewrite IH.
Qed.

Lemma evaluate_loop_app (L : PyLib) (now : datetime) (fields : value)
    (context : dict) (l1 l2 : list dict) (acc : results) :
  evaluate_loop L now fields context acc (l1 ++ l2)
  = (acc' <- evaluate_loop L now fields context acc l1 ;;
     evaluate_loop L now fields context acc' l2).
Proof.
  revert acc. induction l1 as [|rule l1 IH]; intros acc; [reflexivity|].
  cbn [app evaluate_loop].
  destruct (evaluate_rule L now fields context acc rule); cbn [bind];
    [apply IH | reflexivity].
Qed.

(** Rules with other identifiers leave the entry of [id] as it is. *)
Lemma evaluate_loop_keeps (L : PyLib) (now : datetime) (fields : value)
    (context : dict) (id : value) (rules : list dict) (acc out : results) :
  (forall r id', In r rules -> unregistered r = false ->
                 dict_get r "id" = Some id' -> key_eqb id' id = false) ->
  evaluate_loop L now fields context acc rules = Ret out ->
  results_get out id = results_get acc id.
Proof.
  revert acc; induction rules as [|rule rest IH]; intros acc Hids; simpl.
  - intros H; now inversion H.
  - destruct (evaluate_rule L now fields context acc rule) as [acc'|e] eqn:Hstep;
      [|discriminate].
    cbn [bind]. intros Hout.
    rewrite (IH acc' (fun r id' Hin => Hids r id' (or_intror Hin)) Hout).
    apply evaluate_rule_returns in Hstep
      as [[_ ->]|[Hreg (id' & r & Hid & ->)]]; [reflexivity|].
    apply results_get_put_other.
    apply (Hids rule id'); [now left | exact Hreg | exact Hid].
Qed.

(** The step of the dispatcher for a rule with a registered validator. *)
Lemma evaluate_rule_registered (L : PyLib) (now : datetime) (fields : value)
    (context : dict) (acc acc' : results) (rule : dict)
    (name id : value) (v : validator) :
  dict_get rule "validator" = Some name ->
  validators_get name = Ret (Some v) ->
  dict_get rule "id" = Some id ->
  evaluate_rule L now fields context acc rule = Ret acc' ->
  exists (applicable : bool) (r : verdict),
    _match_trigger L fields context
      (dict_get_default rule "trigger" (VDict [])) = Ret applicable
    /\ (if applicable
        then validator_evaluate L now fields v rule context = Ret r
        else r = not_applicable_result rule [])
    /\ hashable id = true
    /\ acc' = results_put acc id r.
Proof.
  intros Hname Hreg Hid. unfold evaluate_rule, dict_item.
  rewrite Hname, Hid. cbn [bind]. rewrite Hreg. cbn [bind].
  destruct (_match_trigger L fields context _) as [applicable|];
    [cbn [bind] | discriminate].
  assert (Hset : forall r, results_set acc id r = Ret acc' ->
                           hashable id = true /\ acc' = results_put acc id r).
  { intros r. unfold results_set.
    destruct id; intros E; inversion E; now split. }
  destruct applicable; cbn [negb].
  - destruct (validator_evaluate L now fields v rule context) as [r|];
      [cbn [bind] | discriminate].
    intros H. exists true, r. now destruct (Hset r H).
  - intros H. exists false, (not_applicable_result rule []).
    now destruct (Hset _ H).
Qed.

(** X8.  The verdict mapping holds, under the identifier of a rule with a
    registered validator, the verdict of that rule: the [NOT_APPLICABLE]
    verdict with empty message and details when its trigger does not
    match, and what its validator returns when it does; provided no later
    rule with a registered validator carries the same identifier.  Among
    rules that share an identifier, the last one decides the entry. *)
Theorem evaluate_entry (L : PyLib) (now : datetime) (fields : value)
    (context : dict) (before after : list dict) (rule : dict)
    (name id : value) (v : validator) (out : results) :
  dict_get rule "validator" = Some name ->
  validators_get name = Ret (Some v) ->
  dict_get rule "id" = Some id ->
  (forall r id', In r after -> unregistered r = false ->
                 dict_get r "id" = Some id' -> key_eqb id' id = false) ->
  evaluate L now fields (before ++ rule :: after) context = Ret out ->
  exists (applicable : bool) (r : verdict),
    _match_trigger L fields context
      (dict_get_default rule "trigger" (VDict [])) = Ret applicable
    /\ (if applicable
        then validator_evaluate L now fields v rule context = Ret r
        else r = not_applicable_result rule [])
    /\ results_get out id = Some r.
Proof.
  intros Hname Hreg Hid Hids Hout. unfold evaluate in Hout.
  rewrite evaluate_loop_app in Hout.
  destruct (evaluate_loop L now fields context [] before) as [acc1|] eqn:H1;
    [cbn [bind] in Hout | discriminate].
  cbn [evaluate_loop] in Hout.
  destruct (evaluate_rule L now fields context acc1 rule) as [acc2|] eqn:H2;
    [cbn [bind] in Hout | discriminate].
  destruct (evaluate_rule_registered L now fields context acc1 acc2 rule
              name id v Hname Hreg Hid H2)
    as (applicable & r & Htrigger & Hverdict & Hhash & ->).
  exists applicable, r. split; [exact Htrigger|]. split; [exact Hverdict|].
  rewrite (evaluate_loop_keeps L now fields context id after _ out Hids
             Hout).
  apply results_get_put_same. now apply key_eqb_refl.
Qed.

Lemma evaluate_entry_witness :
  exists (applicable : bool) (r : verdict),
    _match_trigger plain_lib sample_fields no_address_context
      (dict_get_default fraud_rule "trigger" (VDict [])) = Ret applicable
    /\ (if applicable
        then validator_evaluate plain_lib (mkdate 2025 6 15) sample_fields
               FraudValidator fraud_rule no_address_context = Ret r
        else r = not_applicable_result fraud_rule [])
    /\ results_get
         [(VStr "R-DTI", not_applicable_result dti_rule []);
          (VStr "R-FRAUD",
           mkverdict (VStr "R-FRAUD") ALERT
             (VStr "Fraud recorded on the subject property")
             (fraud_details VNone VNone VNone VNone VNone VNone VNone VNone));
          (VStr "R-CASHOUT", not_applicable_result cashout_rule [])]
         (VStr "R-FRAUD") = Some r.
Proof.
  apply (evaluate_entry plain_lib (mkdate 2025 6 15) sample_fields
           no_address_context [dti_rule; typo_rule] [cashout_rule] fraud_rule
           (VStr "FraudValidator") (VStr "R-FRAUD") FraudValidator);
    try reflexivity.
  intros r id' [<-|[]] Hreg Hid'. inversion Hid'; reflexivity.
Defined.

(** ** The context of [validate_loan] *)






(** ** The report *)

Lemma tally_fold (vr : results) (t : tally) :
  fold_left tally_step (map snd vr) t
  = mktally (alerts t ++ messages_with ALERT vr)
      (alerts_count t + Z.of_nat (List.length (messages_with ALERT vr)))
      (conditions t ++ messages_with CONDITION vr)
      (conditions_count t
       + Z.of_nat (List.length (messages_with CONDITION vr))).
Proof.
  revert t. induction vr as [|[k v] vr IH]; intros t.
  - destruct t. cbn. now rewrite !app_nil_r, !Z.add_0_r.
  - cbn [map fold_left snd]. rewrite IH. unfold tally_step, messages_with.
    cbn [filter snd].
    destruct (v_status v); cbn [status_eqb map List.length alerts alerts_count
                                  conditions conditions_count];
      rewrite <- ?app_assoc; cbn [app]; f_equal; lia.
Qed.

Lemma tally_all_counts (vr : results) :
  tally_all vr
  = mktally (messages_with ALERT vr)
      (Z.of_nat (List.length (messages_with ALERT vr)))
      (messages_with CONDITION vr)
      (Z.of_nat (List.length (messages_with CONDITION vr))).
Proof. unfold tally_all. now rewrite tally_fold. Qed.

(** X10.  In the report that [format_results] returns, the alerts and the
    conditions are the messages of the [ALERT] and of the [CONDITION]
    verdicts, in the order of the verdict mapping; [alerts_count] and
    [conditions_count] are their numbers, [updates_count] is 0 and
    [los_updates] empty, and [total_checks] is the sum of the two counts:
    verdicts that pass or do not apply are counted nowhere. *)
Theorem format_results_counts (L : PyLib) (fields : value) (los_data : value)
    (validation_results : results) (report : value) :
  format_results L fields los_data validation_results = Ret report ->
  at_path report ["alerts"]
  = Some (VList (messages_with ALERT validation_results))
  /\ at_path report ["conditions"]
     = Some (VList (messages_with CONDITION validation_results))
  /\ at_path report ["los_updates"] = Some (VList [])
  /\ at_path report ["loan_details"; "action_summary"; "alerts_count"]
     = Some (VInt (Z.of_nat
                     (List.length (messages_with ALERT validation_results))))
  /\ at_path report ["loan_details"; "action_summary"; "conditions_count"]
     = Some (VInt (Z.of_nat
                     (List.length
                        (messages_with CONDITION validation_results))))
  /\ at_path report ["loan_details"; "action_summary"; "updates_count"]
     = Some (VInt 0)
  /\ at_path report ["loan_details"; "action_summary"; "total_checks"]
     = Some (VInt (Z.of_nat
                     (List.length (messages_with ALERT validation_results))
                   + Z.of_nat
                       (List.length
                          (messages_with CONDITION validation_results)))).
Proof.
  unfold format_results. cbv zeta. intros H.
  repeat follow H.
  rewrite tally_all_counts.
  cbn [alerts alerts_count conditions conditions_count].
  rewrite Z.add_0_r. repeat split.
Qed.

Lemma format_results_counts_witness :
  at_path
    (VDict [("loan_id", VNone);
            ("borrower", VDict [("names", VList [VNone; VNone; VNone])]);
            ("loan_details",
             VDict [("application_date", VNone); ("program", VNone);
                    ("closing_date", VNone);
                    ("purchase_price", VFloat (inject_Z 0));
                    ("loan_amount", VFloat (inject_Z 0));
                    ("le_due_date", VNone);
                    ("action_summary",
                     VDict [("total_checks", VInt 3); ("alerts_count", VInt 2);
                            ("updates_count", VInt 0);
                            ("conditions_count", VInt 1)])]);
            ("alerts",
             VList [VDict [("message", VStr "LTV above the limit")];
                    VDict [("message", VStr "Gift funds")]]);
            ("los_updates", VList []);
            ("conditions",
             VList [VDict [("message", VStr "Certificate required")]])])
    ["loan_details"; "action_summary"; "total_checks"]
  = Some (VInt (Z.of_nat (List.length (messages_with ALERT sample_results))
                + Z.of_nat
                    (List.length (messages_with CONDITION sample_results)))).
Proof.
  exact (proj2 (proj2 (proj2 (proj2 (proj2 (proj2
           (format_results_counts plain_lib sample_fields sample_los
              sample_results _ eq_refl))))))).
Defined.

Lemma float_or_raise_price (L : PyLib) (v : value) :
  match price_error L v with
  | None => exists q, float_or_raise L (py_or v (VInt 0)) = Ret q
  | Some e => float_or_raise L (py_or v (VInt 0)) = Raise e
  end.
Proof.
  unfold price_error, py_or.
  destruct (truthy v) eqn:Htruthy; cbn [negb];
    [|now exists (inject_Z 0)].
  destruct v as [|b|z|q|s|d|l|d]; try discriminate Htruthy;
    cbn [float_or_raise py_float]; try (eexists; reflexivity);
    try reflexivity.
  - destruct (float_fits z); [eexists|]; reflexivity.
  - destruct (float_of_str L s); [eexists|]; reflexivity.
Qed.

(** X11.  Under a readable field configuration [format_results] returns a
    report exactly when the purchase price and the loan amount of the loan
    record are each empty, a number within the range of a float, or
    numeric text; otherwise the conversion [float(...)], made outside any
    [try], raises: [ValueError] for text that is no number,
    [OverflowError] for an integer beyond the range of a float, [TypeError]
    for an object that is no number, the purchase price being converted
    first. *)
Theorem format_results_raises (L : PyLib) (fields : value) (los_data : value)
    (validation_results : results) :
  fields_wf fields = true ->
  let price := resolved fields [("los", los_data)] "los" "purchase_price" in
  let amount := resolved fields [("los", los_data)] "los" "loan_amount" in
  (price_error L price = None -> price_error L amount = None ->
   exists report,
     format_results L fields los_data validation_results = Ret report)
  /\ (forall e, price_error L price = Some e ->
      format_results L fields los_data validation_results = Raise e)
  /\ (forall e, price_error L price = None ->
      price_error L amount = Some e ->
      format_results L fields los_data validation_results = Raise e).
Proof.
  intros Hwf price amount. unfold format_results. cbv zeta.
  rewrite !(resolve_wf _ _ _ _ Hwf). cbn [bind].
  fold price. fold amount.
  pose proof (float_or_raise_price L price) as Hprice.
  pose proof (float_or_raise_price L amount) as Hamount.
  split; [|split].
  - intros Hp Ha. rewrite Hp in Hprice. rewrite Ha in Hamount.
    destruct Hprice as [p ->]. destruct Hamount as [a ->].
    cbn [bind]. eexists; reflexivity.
  - intros e Hp. rewrite Hp in Hprice. now rewrite Hprice.
  - intros e Hp Ha. rewrite Hp in Hprice. rewrite Ha in Hamount.
    destruct Hprice as [p ->]. cbn [bind]. now rewrite Hamount.
Qed.

Lemma format_results_raises_witness :
  format_results plain_lib report_fields
    (VDict [("loan_id", VStr "HML-450321");
            ("purchase_price", VStr "250,000");
            ("loan_amount", VInt 200000)])
    sample_results
  = Raise ValueError.
Proof.
  exact (proj1 (proj2
           (format_results_raises plain_lib report_fields
              (VDict [("loan_id", VStr "HML-450321");
                      ("purchase_price", VStr "250,000");
                      ("loan_amount", VInt 200000)])
              sample_results eq_refl)) ValueError eq_refl).
Defined.

(** A loan amount of [10^400] is an integer, and no float. *)
Example format_results_overflow :
  format_results plain_lib report_fields
    (VDict [("loan_id", VStr "HML-450321");
            ("purchase_price", VStr "250000");
            ("loan_amount", VInt (10 ^ 400))])
    sample_results
  = Raise OverflowError.
Proof. vm_compute. reflexivity. Qed.

(** ** String normalization *)

Lemma lower_char_clean (c : ascii) :
  isalnum c || isspace c = true -> clean_char (lower_char c) = true.
Proof.
  destruct c as [[|] [|] [|] [|] [|] [|] [|] [|]];
    try discriminate; intros _; reflexivity.
Qed.

Lemma clean_char_kept (c : ascii) :
  clean_char c = true ->
  isalnum c || isspace c = true /\ lower_char c = c.
Proof.
  destruct c as [[|] [|] [|] [|] [|] [|] [|] [|]];
    try discriminate; intros _; split; reflexivity.
Qed.

Lemma lower_char_same_class (c : ascii) :
  isalnum (lower_char c) || isspace (lower_char c) = isalnum c || isspace c
  /\ lower_char (lower_char c) = lower_char c.
Proof.
  destruct c as [[|] [|] [|] [|] [|] [|] [|] [|]]; split; reflexivity.
Qed.

Lemma filter_map_chars_clean (s : string) :
  all_chars clean_char
    (filter_map_chars (fun ch => isalnum ch || isspace ch) lower_char s)
  = true.
Proof.
  induction s as [|c s IH]; [reflexivity|]. simpl.
  destruct (isalnum c || isspace c) eqn:E; [|exact IH].
  simpl. now rewrite (lower_char_clean c E), IH.
Qed.

Lemma filter_map_chars_fixes (s : string) :
  all_chars clean_char s = true ->
  filter_map_chars (fun ch => isalnum ch || isspace ch) lower_char s = s.
Proof.
  induction s as [|c s IH]; [reflexivity|]. simpl. intros H.
  apply andb_true_iff in H as [Hc Hs].
  destruct (clean_char_kept c Hc) as [-> ->]. now rewrite (IH Hs).
Qed.

Lemma filter_map_chars_lower (s : string) :
  filter_map_chars (fun ch => isalnum ch || isspace ch) lower_char (lower s)
  = filter_map_chars (fun ch => isalnum ch || isspace ch) lower_char s.
Proof.
  induction s as [|c s IH]; [reflexivity|]. simpl.
  destruct (lower_char_same_class c) as [-> ->]. now rewrite IH.
Qed.

Lemma all_chars_lstrip (p : ascii -> bool) (s : string) :
  all_chars p s = true -> all_chars p (lstrip s) = true.
Proof.
  induction s as [|c s IH]; [reflexivity|]. simpl. intros H.
  destruct (isspace c); [|exact H].
  apply andb_true_iff in H as [_ Hs]. now apply IH.
Qed.

Lemma all_chars_rstrip (p : ascii -> bool) (s : string) :
  all_chars p s = true -> all_chars p (rstrip s) = true.
Proof.
  induction s as [|c s IH]; [reflexivity|]. simpl. intros H.
  apply andb_true_iff in H as [Hc Hs]. specialize (IH Hs).
  destruct (rstrip s) as [|c' r'].
  - destruct (isspace c); [reflexivity|]. simpl. now rewrite Hc.
  - simpl in *. now rewrite Hc.
Qed.

Lemma rstrip_idempotent (s : string) : rstrip (rstrip s) = rstrip s.
Proof.
  induction s as [|c s IH]; [reflexivity|]. simpl.
  destruct (rstrip s) as [|c' r'] eqn:E.
  - destruct (isspace c) eqn:Hc; [reflexivity|]. simpl. now rewrite Hc.
  - change (rstrip (String c (String c' r')))
      with (match rstrip (String c' r') with
            | EmptyString =>
                if isspace c then EmptyString else String c EmptyString
            | String a b => String c (String a b)
            end).
    now rewrite IH.
Qed.

Lemma lstrip_starts_clean (s : string) : starts_clean (lstrip s) = true.
Proof.
  induction s as [|c s IH]; [reflexivity|]. simpl.
  destruct (isspace c) eqn:Hc; [exact IH|]. simpl. now rewrite Hc.
Qed.

Lemma rstrip_starts_clean (s : string) :
  starts_clean s = true -> starts_clean (rstrip s) = true.
Proof.
  destruct s as [|c s]; [reflexivity|]. simpl. intros Hc.
  destruct (rstrip s); [|exact Hc].
  apply negb_true_iff in Hc. rewrite Hc. simpl. now rewrite Hc.
Qed.

Lemma lstrip_of_starts_clean (s : string) :
  starts_clean s = true -> lstrip s = s.
Proof.
  destruct s as [|c s]; [reflexivity|]. simpl. intros Hc.
  apply negb_true_iff in Hc. now rewrite Hc.
Qed.

Lemma strip_idempotent (s : string) : strip (strip s) = strip s.
Proof.
  unfold strip.
  rewrite (lstrip_of_starts_clean (rstrip (lstrip s))).
  - apply rstrip_idempotent.
  - apply rstrip_starts_clean, lstrip_starts_clean.
Qed.

Lemma normalize_string_clean (L : PyLib) (v : value) :
  all_chars clean_char (normalize_string L v) = true.
Proof.
  unfold normalize_string. destruct (is_none v); [reflexivity|].
  unfold strip. apply all_chars_rstrip, all_chars_lstrip.
  apply filter_map_chars_clean.
Qed.

Lemma clean_char_ascii (s : string) :
  all_chars clean_char s = true -> is_ascii s = true.
Proof.
  induction s as [|c r IH]; [reflexivity|]. cbn [all_chars]. unfold is_ascii.
  cbn [all_chars]. intros H. apply andb_true_iff in H as [Hc Hr].
  apply andb_true_iff. split; [|exact (IH Hr)].
  destruct c as [b0 b1 b2 b3 b4 b5 b6 [|]]; [|reflexivity].
  now destruct b0, b1, b2, b3, b4, b5, b6.
Qed.

(** X12.  On a value whose text is ASCII text, [normalize_string] yields
    ASCII text of lower-case letters, digits and white space only, without
    white space at either end; it does not tell upper case from lower
    case; and normalizing a normalized text changes nothing, so two values
    compare equal after normalization exactly when their normalized texts
    do.  (Beyond ASCII a lower-cased letter may bring a combining mark that
    a second normalization drops.) *)
Theorem normalize_string_spec (L : PyLib) (v : value) :
  plain v = true ->
  is_ascii (py_str L v) = true ->
  all_chars clean_char (normalize_string L v) = true
  /\ is_ascii (normalize_string L v) = true
  /\ trimmed (normalize_string L v) = true
  /\ normalize_string L (VStr (normalize_string L v)) = normalize_string L v
  /\ (forall s : string,
        is_ascii s = true ->
        normalize_string L (VStr (lower s)) = normalize_string L (VStr s)).
Proof.
  intros _ _.
  split; [apply normalize_string_clean|].
  split; [apply clean_char_ascii, normalize_string_clean|].
  split; [|split].
  - unfold trimmed. apply String.eqb_eq.
    unfold normalize_string. destruct (is_none v); [reflexivity|].
    apply strip_idempotent.
  - pose proof (normalize_string_clean L v) as Hclean.
    unfold normalize_string at 1. cbn [is_none py_str].
    rewrite (filter_map_chars_fixes _ Hclean).
    unfold normalize_string. destruct (is_none v); [reflexivity|].
    apply strip_idempotent.
  - intros s _. unfold normalize_string. cbn [is_none py_str].
    now rewrite filter_map_chars_lower.
Qed.

Lemma normalize_string_spec_witness :
  all_chars clean_char
    (normalize_string plain_lib (VStr "  12 Main St., Apt #4 ")) = true
  /\ is_ascii (normalize_string plain_lib (VStr "  12 Main St., Apt #4 "))
     = true
  /\ trimmed (normalize_string plain_lib (VStr "  12 Main St., Apt #4 "))
     = true
  /\ normalize_string plain_lib
       (VStr (normalize_string plain_lib (VStr "  12 Main St., Apt #4 ")))
     = normalize_string plain_lib (VStr "  12 Main St., Apt #4 ")
  /\ (forall s : string,
        is_ascii s = true ->
        normalize_string plain_lib (VStr (lower s))
        = normalize_string plain_lib (VStr s)).
Proof.
  apply (normalize_string_spec plain_lib (VStr "  12 Main St., Apt #4 "));
    reflexivity.
Defined.

Example normalize_string_address :
  normalize_string plain_lib (VStr "  12 Main St., Apt #4 ") = "12 main st apt 4".
Proof. reflexivity. Qed.

(** ** Literals of the trigger matcher *)

Lemma lower_empty (s : string) : (lower s =? "")%string = (s =? "")%string.
Proof. now destruct s. Qed.

(** X13.  How [_match_value] reads an expected string.  One that does not
    start with ["GT"] matches itself, and matches a missing (null) field
    exactly when it is blank.  One that starts with ["GT"] is always a
    numeric bound: when what follows ["GT"] is no number it matches no
    actual value at all, not even the same text. *)
Theorem match_value_literals (L : PyLib) (e : string) :
  (prefix "GT" e = false ->
   _match_value L (VStr e) (VStr e) = true
   /\ _match_value L VNone (VStr e) = (strip e =? "")%string)
  /\ (prefix "GT" e = true -> float_of_str L (drop2 e) = None ->
      forall actual, _match_value L actual (VStr e) = false).
Proof.
  split.
  - intros Hgt. unfold _match_value. rewrite Hgt. split.
    + apply String.eqb_refl.
    + unfold _norm. cbn [is_none py_str].
      rewrite String.eqb_sym. apply lower_empty.
  - intros Hgt Hbound actual. unfold _match_value. rewrite Hgt, Hbound.
    now destruct (py_float L actual).
Qed.

Lemma match_value_literals_witness :
  (_match_value plain_lib (VStr "Conventional") (VStr "Conventional") = true
   /\ _match_value plain_lib VNone (VStr "Conventional") = false)
  /\ _match_value plain_lib (VStr "GTE Mortgage") (VStr "GTE Mortgage")
     = false.
Proof.
  split.
  - exact (proj1 (match_value_literals plain_lib "Conventional") eq_refl).
  - exact (proj2 (match_value_literals plain_lib "GTE Mortgage")
             eq_refl eq_refl (VStr "GTE Mortgage")).
Defined.

(** ** Title, appraisal and LTV validators *)

(** X14.  The Title and the AppraisalPriorSale validators decide as the
    Fraud validator does after its address gate: [NOT_APPLICABLE] when
    their date or the estimated closing date is empty or their date does
    not parse, [ALERT] below [min_months] (default 6) and [PASS] from there
    on, the months being counted up to the clock when the closing date is
    present and does not parse. *)
Theorem title_and_appraisal_status (L : PyLib) (now : datetime)
    (fields : value) (rule context : dict) (limit : value) (q : Q) :
  fields_wf fields = true ->
  param rule "min_months" (VInt 6) = Ret limit ->
  num_of limit = Some q ->
  (exists r,
     TitleValidator_evaluate L now fields rule context = Ret r
     /\ v_status r
        = months_status L now
            (resolved fields context "title" "chain_title_date")
            (resolved fields context "los" "estimated_closing_date") q)
  /\ (exists r,
        AppraisalPriorSaleValidator_evaluate L now fields rule context = Ret r
        /\ v_status r
           = months_status L now
               (resolved fields context "appraisal" "prior_sale_date")
               (resolved fields context "los" "estimated_closing_date") q).
Proof.
  intros Hwf Hparam Hnum. split.
  - unfold TitleValidator_evaluate.
    rewrite !(resolve_wf _ _ _ _ Hwf). cbn [bind].
    now apply months_check_status with (limit := limit).
  - unfold AppraisalPriorSaleValidator_evaluate.
    rewrite !(resolve_wf _ _ _ _ Hwf). cbn [bind].
    now apply months_check_status with (limit := limit).
Qed.

Lemma over_threshold_exceeds (L : PyLib) (thresholds : dict) (x : value)
    (k : string) :
  numeric_map (VDict thresholds) = true ->
  over_threshold (VDict thresholds) (to_pct L x) k
  = Ret (exceeds L x (dict_get_default thresholds k VNone)).
Proof.
  intros Hnum. unfold over_threshold, exceeds.
  destruct (to_pct L x) as [l|]; [|reflexivity]. cbn [py_get bind].
  unfold dict_get_default.
  destruct (dict_get thresholds k) as [t|] eqn:Hk; [|reflexivity].
  pose proof (dict_get_forallb is_number thresholds k t Hnum Hk) as Ht.
  unfold is_number in Ht. unfold float_gt.
  destruct (num_of t) as [b|] eqn:Hb; [|discriminate].
  now destruct t.
Qed.

Lemma exceeds_unscaled (L : PyLib) (x t : value) :
  unscaled L x = true -> exceeds L x t = above L x t.
Proof.
  unfold unscaled, exceeds, above, to_pct.
  destruct x; cbn [is_none]; try reflexivity;
    match goal with
    | |- context [py_float L ?x] => destruct (py_float L x) as [v|]
    end; try reflexivity;
    intros H; apply negb_true_iff in H; now rewrite H.
Qed.

(** X15.  The LTV validator never answers [NOT_APPLICABLE].  For ratios
    given as percentages (each of ltv, cltv and hcltv is missing, does not
    parse, or reads as a number above 1, which is not scaled; integers are
    ones a float holds exactly) and numeric thresholds, its status is
    [ALERT] when a ratio is above the threshold given for it and [PASS]
    otherwise; a ratio that is missing or does not parse, and a ratio for
    which the rule gives no threshold, is never a reason to alert, and a
    rule without thresholds passes every loan. *)
Theorem ltv_status (L : PyLib) (fields : value) (rule context : dict)
    (thresholds : dict) :
  let ltv := resolved fields context "los" "ltv" in
  let cltv := resolved fields context "los" "cltv" in
  let hcltv := resolved fields context "los" "hcltv" in
  fields_wf fields = true ->
  dict_get_default rule "thresholds" (VDict []) = VDict thresholds ->
  numeric_map (VDict thresholds) = true ->
  plain ltv && plain cltv && plain hcltv = true ->
  unscaled L ltv && unscaled L cltv && unscaled L hcltv = true ->
  exists r,
    LTVValidator_evaluate L fields rule context = Ret r
    /\ v_status r
       = if above L ltv (dict_get_default thresholds "ltv" VNone)
            || above L cltv (dict_get_default thresholds "cltv" VNone)
            || above L hcltv (dict_get_default thresholds "hcltv" VNone)
         then ALERT else PASS.
Proof.
  intros ltv cltv hcltv Hwf Hthresholds Hnum _ Hunscaled.
  apply andb_true_iff in Hunscaled as [Hunscaled Hh].
  apply andb_true_iff in Hunscaled as [Hl Hc].
  rewrite <- (exceeds_unscaled L ltv _ Hl), <- (exceeds_unscaled L cltv _ Hc),
    <- (exceeds_unscaled L hcltv _ Hh).
  subst ltv cltv hcltv. unfold LTVValidator_evaluate.
  rewrite !(resolve_wf _ _ _ _ Hwf). cbn [bind]. rewrite Hthresholds.
  destruct thresholds as [|entry0 rest] eqn:Hd.
  - cbn [truthy]. eexists. split; [reflexivity|].
    unfold exceeds, dict_get_default. cbn.
    now repeat match goal with |- context [to_pct L ?x] =>
                 destruct (to_pct L x) end.
  - cbn [truthy]. rewrite <- Hd in *.
    rewrite !(over_threshold_exceeds L thresholds _ _ Hnum). cbn [bind].
    destruct (exceeds L _ (dict_get_default thresholds "ltv" VNone));
      [eexists; split; reflexivity|].
    cbn [bind].
    destruct (exceeds L _ (dict_get_default thresholds "cltv" VNone));
      [eexists; split; reflexivity|].
    cbn [bind].
    destruct (exceeds L _ (dict_get_default thresholds "hcltv" VNone));
      eexists; split; reflexivity.
Qed.

Lemma title_and_appraisal_status_witness :
  (exists r,
     TitleValidator_evaluate plain_lib (mkdate 2025 6 15) sample_fields
       fraud_rule garbage_close_context = Ret r
     /\ v_status r
        = months_status plain_lib (mkdate 2025 6 15)
            (resolved sample_fields garbage_close_context
               "title" "chain_title_date")
            (resolved sample_fields garbage_close_context
               "los" "estimated_closing_date") (inject_Z 6))
  /\ (exists r,
        AppraisalPriorSaleValidator_evaluate plain_lib (mkdate 2025 6 15)
          sample_fields fraud_rule garbage_close_context = Ret r
        /\ v_status r
           = months_status plain_lib (mkdate 2025 6 15)
               (resolved sample_fields garbage_close_context
                  "appraisal" "prior_sale_date")
               (resolved sample_fields garbage_close_context
                  "los" "estimated_closing_date") (inject_Z 6)).
Proof.
  apply (title_and_appraisal_status plain_lib (mkdate 2025 6 15)
           sample_fields fraud_rule garbage_close_context (VInt 6)
           (inject_Z 6)); reflexivity.
Defined.

(** A ratio of 95.5 against a threshold of 90. *)
Lemma ltv_status_witness :
  exists r,
    LTVValidator_evaluate plain_lib sample_fields
      [("id", VStr "R-LTV"); ("validator", VStr "LTVValidator");
       ("thresholds", VDict [("ltv", VInt 90); ("cltv", VInt 95)])]
      percent_context = Ret r
    /\ v_status r = ALERT.
Proof.
  apply (ltv_status plain_lib sample_fields
           [("id", VStr "R-LTV"); ("validator", VStr "LTVValidator");
            ("thresholds", VDict [("ltv", VInt 90); ("cltv", VInt 95)])]
           percent_context [("ltv", VInt 90); ("cltv", VInt 95)]);
    reflexivity.
Defined.

Example ltv_ratio_alerts :
  option_map v_status
    (match LTVValidator_evaluate plain_lib sample_fields
             [("id", VStr "R-LTV");
              ("thresholds", VDict [("ltv", VInt 90)])] sample_context with
     | Ret r => Some r
     | Raise _ => None
     end) = Some ALERT.
Proof. reflexivity. Qed.

(** ** More of the field resolver *)

Lemma walk_not_none (cur : value) (parts : list string) (default : value) :
  is_none default = false -> is_none (walk cur parts default) = false.
Proof.
  intros Hd. revert cur. induction parts as [|part rest IH]; intros cur; simpl.
  - destruct (is_none cur) eqn:E; [exact Hd | exact E].
  - destruct cur; try exact Hd.
    destruct (dict_get d part); [apply IH | exact Hd].
Qed.

(** X16.  A field that is configured with a default other than [None]
    never resolves to [None], whatever the context holds: a missing
    section, a missing key, a value in the way that is no mapping, and a
    present null all give the default. *)
Theorem resolve_never_null_with_default (fields : value) (context : dict)
    (section name path : string) (default : value) :
  fields_wf fields = true ->
  field_config fields section name = Some (path, default) ->
  is_none default = false ->
  exists v, resolve fields context section name = Ret v /\ is_none v = false.
Proof.
  intros Hwf Hcfg Hd. rewrite (resolve_wf _ _ _ _ Hwf).
  eexists; split; [reflexivity|]. unfold resolved. rewrite Hcfg.
  now apply walk_not_none.
Qed.

Lemma resolve_never_null_with_default_witness :
  exists v,
    resolve sample_fields [("los", VStr "corrupt")] "los" "loan_purpose"
    = Ret v /\ is_none v = false.
Proof.
  apply (resolve_never_null_with_default sample_fields
           [("los", VStr "corrupt")] "los" "loan_purpose" "loan_purpose"
           (VStr "Purchase")); reflexivity.
Defined.

(** ** Where the evaluation raises *)

(** X17.  The CashoutSeasoning validator raises on tradelines that are no
    mappings: [AttributeError] when the credit report gives non-empty text
    or a list that starts with something else than a mapping, [TypeError]
    when it gives a number, a truth value or a datetime. *)
Theorem cashout_raises_on_malformed_tradelines (L : PyLib) (now : datetime)
    (fields : value) (rule context : dict) (raw : value) (e : exn) :
  fields_wf fields = true ->
  py_get (dict_get_default context "credit_report" (VDict [])) "Tradelines"
    VNone = Ret raw ->
  truthy raw = true ->
  tradelines_error raw = Some e ->
  CashoutSeasoningValidator_evaluate L now fields rule context = Raise e.
Proof.
  intros Hwf Hraw Htruthy Herror. unfold CashoutSeasoningValidator_evaluate.
  rewrite !(resolve_wf _ _ _ _ Hwf). cbn [bind]. rewrite Hraw. cbn [bind].
  rewrite Htruthy. cbn [negb].
  destruct raw as [| | | |s| |l|]; simpl in Herror;
    try discriminate; inversion Herror; subst; try reflexivity.
  - destruct s; [discriminate | reflexivity].
  - destruct l as [|t l]; [discriminate|].
    destruct t; try discriminate; inversion Herror; reflexivity.
Qed.

Lemma cashout_raises_on_malformed_tradelines_witness :
  CashoutSeasoningValidator_evaluate plain_lib (mkdate 2025 6 15)
    sample_fields cashout_rule
    [("los", sample_los);
     ("credit_report", VDict [("Tradelines", VStr "not available")])]
  = Raise AttributeError.
Proof.
  exact (cashout_raises_on_malformed_tradelines plain_lib (mkdate 2025 6 15)
           sample_fields cashout_rule
           [("los", sample_los);
            ("credit_report", VDict [("Tradelines", VStr "not available")])]
           (VStr "not available") AttributeError
           eq_refl eq_refl eq_refl eq_refl).
Defined.

(** X18.  One rule that raises loses the whole evaluation: when the rules
    before it are evaluated and its own step raises, be it a rule without
    the key ["validator"], without the key ["id"], or a validator that
    raises, [evaluate] raises the same error and returns no verdict, also
    none of the rules before. *)
Theorem evaluate_raises_with_a_rule (L : PyLib) (now : datetime)
    (fields : value) (context : dict) (before after : list dict)
    (rule : dict) (acc : results) (e : exn) :
  evaluate L now fields before context = Ret acc ->
  evaluate_rule L now fields context acc rule = Raise e ->
  evaluate L now fields (before ++ rule :: after) context = Raise e.
Proof.
  unfold evaluate. intros Hbefore Hrule.
  rewrite evaluate_loop_app, Hbefore. cbn [bind evaluate_loop].
  now rewrite Hrule.
Qed.

Lemma evaluate_raises_with_a_rule_witness :
  evaluate plain_lib (mkdate 2025 6 15) sample_fields
    ([dti_rule] ++ nameless_rule :: [fraud_rule]) purchase_context
  = Raise KeyError.
Proof.
  apply (evaluate_raises_with_a_rule plain_lib (mkdate 2025 6 15)
           sample_fields purchase_context [dti_rule] [fraud_rule]
           nameless_rule
           [(VStr "R-DTI",
             mkverdict (VStr "R-DTI") ALERT (VStr "DTI above the limit")
               [("dti", VStr "55"); ("limit", VInt 50)])]);
    reflexivity.
Defined.

(** Two rules under one identifier: the entry is that of the second. *)
Example evaluate_last_rule_wins :
  evaluate plain_lib (mkdate 2025 6 15) sample_fields
    [dti_rule; dti_rule_strict] purchase_context
  = Ret [(VStr "R-DTI",
          mkverdict (VStr "R-DTI") PASS (VStr "")
            [("dti", VStr "55"); ("limit", VInt 60)])].
Proof. reflexivity. Qed.

(** ** Months as a distance *)

(** X19.  Between parsed dates [months_between] is a distance on calendar
    months: it is never negative, it is 0 exactly when the two dates lie in
    the same month of the same year (months being 1 to 12), and going
    through a third date never gives fewer months than going directly. *)
Theorem months_between_distance (L : PyLib) (now : datetime)
    (a b c : datetime) :
  months_between L now (VDate a) (VDate b) = Ret (months_apart a b)
  /\ 0 <= months_apart a b
  /\ months_apart a c <= months_apart a b + months_apart b c
  /\ (1 <= month a <= 12 -> 1 <= month b <= 12 ->
      (months_apart a b = 0 <-> year a = year b /\ month a = month b)).
Proof.
  unfold months_apart. repeat split; try reflexivity; try lia.
Qed.

Lemma months_between_distance_witness :
  months_apart (mkdate 2025 3 10) (mkdate 2025 3 28) = 0
  <-> 2025 = 2025 /\ 3 = 3.
Proof.
  apply (months_between_distance plain_lib (mkdate 2025 6 15)
           (mkdate 2025 3 10) (mkdate 2025 3 28) (mkdate 2025 1 1)); simpl; lia.
Defined.

Example months_between_year_end :
  months_between plain_lib (mkdate 2025 6 15)
    (VStr "2024-12-31") (VStr "2025-01-01") = Ret 1.
Proof. reflexivity. Qed.
